(** * A shallow embedding of the WebSocket multiplexing server (server.js)

    The server keeps one [Map] of connection records, a counter that hands
    out connection ids, and a handful of event handlers: a new connection,
    an inbound frame, a close, an error, the HTTP broadcast route and the
    periodic heartbeat.  Each handler is embedded as a program of a small
    state-and-exception monad over [World]; every call of [ws.send] is
    appended to the [wire] log of the world.

    Modelling conventions:
    - JavaScript numbers that hold connection ids, loop counts and clock
      readings are integers; they are exact in a double below 2^53 and are
      represented by [Z], and so are the numbers inside frames;
    - [console.log] and [console.error] write to the console only, which
      is not part of the world; but building the text of a log line can
      throw: a template literal and [join] turn each value into a string,
      and a value decoded from JSON has no string form when it is an object
      with a property [toString] (or an array that holds one).  The log
      lines that put a value of a frame into their text are modelled by
      [template], which throws the TypeError; the others are left out;
    - where [console.log] is given a value after its text, the console
      formats that value as well, in a way that depends on the directives
      it finds in the text and on the version of Node; this is not
      modelled, and what is proved of the normal return of such a line is
      stated for values that all have a string form;
    - a frame is logged as the object that is handed to [JSON.stringify];
    - [send] on a socket of the transport returns normally; a write that
      fails is reported by the transport afterwards, the server does not
      look at the outcome;
    - [JSON.parse] and the clock behind [Date.now] are taken from the
      environment. *)

From Stdlib Require Import ZArith List String Bool Lia Sorted.
Import ListNotations.

Open Scope string_scope.
Open Scope Z_scope.
Open Scope list_scope.

(** ** JavaScript values *)

#[warnings="-register-all"]
Inductive JSValue : Type :=
| JUndefined
| JNull
| JBool (b : bool)
| JNum (n : Z)
| JStr (s : string)
| JArr (items : list JSValue)
| JObj (props : list (string * JSValue)).

(** [a === b].  Objects and arrays are compared by reference; every value
    that reaches the server was freshly built by [JSON.parse], so two of
    them are never the same reference. *)
Definition strict_eq (a b : JSValue) : bool :=
  match a, b with
  | JUndefined, JUndefined => true
  | JNull, JNull => true
  | JBool x, JBool y => Bool.eqb x y
  | JNum x, JNum y => Z.eqb x y
  | JStr x, JStr y => String.eqb x y
  | _, _ => false
  end.

(** The comparison used by [Map] and [Set] (SameValueZero); it differs from
    [===] only on NaN and signed zeros, which are not integers. *)
Definition same_value_zero (a b : JSValue) : bool := strict_eq a b.

Definition truthy (v : JSValue) : bool :=
  match v with
  | JUndefined | JNull => false
  | JBool b => b
  | JNum n => negb (Z.eqb n 0)
  | JStr s => negb (String.eqb s "")
  | JArr _ | JObj _ => true
  end.

(** [a || b] *)
Definition js_or (a b : JSValue) : JSValue := if truthy a then a else b.

Fixpoint lookup_prop (props : list (string * JSValue)) (k : string) : JSValue :=
  match props with
  | [] => JUndefined
  | (k', v) :: rest => if String.eqb k k' then v else lookup_prop rest k
  end.

(** [String(v)] returns: every primitive has a string form; an array is
    joined from the string forms of its elements; an object decoded from
    JSON has the form [[object Object]] unless it has a property
    [toString] of its own, which hides the method of the prototype and is
    not a function, so that the conversion ends in a TypeError. *)
Fixpoint printable (v : JSValue) : bool :=
  match v with
  | JArr items => forallb printable items
  | JObj props => negb (existsb (fun kv => String.eqb (fst kv) "toString") props)
  | _ => true
  end.

(** ** The [Set] of channels of a record, in insertion order *)

Definition Set_has (xs : list JSValue) (v : JSValue) : bool :=
  existsb (same_value_zero v) xs.

Definition Set_add (xs : list JSValue) (v : JSValue) : list JSValue :=
  if Set_has xs v then xs else xs ++ [v].

Definition Set_delete (xs : list JSValue) (v : JSValue) : list JSValue :=
  filter (fun x => negb (same_value_zero v x)) xs.

(** ** Sockets, records and the world *)

Inductive ReadyState : Type := CONNECTING | OPEN | CLOSING | CLOSED.

Definition ReadyState_eqb (a b : ReadyState) : bool :=
  match a, b with
  | CONNECTING, CONNECTING | OPEN, OPEN | CLOSING, CLOSING | CLOSED, CLOSED => true
  | _, _ => false
  end.

(** A socket object of the transport.  [writable] says whether a frame
    handed to [send] reaches the peer; a socket that is [OPEN] and not
    writable is a live connection whose write fails (the transport reports
    that later, through the error and close events of the socket). *)
Record WebSocket : Type := mkWebSocket {
  readyState : ReadyState;
  writable : bool
}.

Record ConnectionInfo : Type := mkConnectionInfo {
  id : Z;
  ws : nat;                    (* reference to the socket object *)
  ip : string;
  channels : list JSValue;
  connectedAt : Z
}.

(** One call of [ws.send]. *)
Record Sent : Type := mkSent {
  dest : nat;
  payload : JSValue;
  written : bool
}.

Record World : Type := mkWorld {
  connections : list (Z * ConnectionInfo);   (* the Map, in insertion order *)
  connectionIdCounter : Z;
  sockets : nat -> WebSocket;                (* owned by the transport *)
  clock : nat -> Z;                          (* the n-th reading of Date.now() *)
  ticks : nat;                               (* readings taken so far *)
  wire : list Sent                           (* calls of ws.send, oldest first *)
}.

Definition set_connections (m : list (Z * ConnectionInfo)) (s : World) : World :=
  mkWorld m (connectionIdCounter s) (sockets s) (clock s) (ticks s) (wire s).

Definition set_connectionIdCounter (c : Z) (s : World) : World :=
  mkWorld (connections s) c (sockets s) (clock s) (ticks s) (wire s).

Definition set_ticks (n : nat) (s : World) : World :=
  mkWorld (connections s) (connectionIdCounter s) (sockets s) (clock s) n (wire s).

Definition set_wire (w : list Sent) (s : World) : World :=
  mkWorld (connections s) (connectionIdCounter s) (sockets s) (clock s) (ticks s) w.

Definition set_sockets (f : nat -> WebSocket) (s : World) : World :=
  mkWorld (connections s) (connectionIdCounter s) f (clock s) (ticks s) (wire s).

(** ** The [Map] of connections *)

Fixpoint Map_get (m : list (Z * ConnectionInfo)) (k : Z) : option ConnectionInfo :=
  match m with
  | [] => None
  | (k', v) :: rest => if Z.eqb k k' then Some v else Map_get rest k
  end.

(** [set] keeps the position of a key that is already present. *)
Fixpoint Map_set (m : list (Z * ConnectionInfo)) (k : Z) (v : ConnectionInfo)
  : list (Z * ConnectionInfo) :=
  match m with
  | [] => [(k, v)]
  | (k', v') :: rest =>
      if Z.eqb k k' then (k, v) :: rest else (k', v') :: Map_set rest k v
  end.

Definition Map_delete (m : list (Z * ConnectionInfo)) (k : Z)
  : list (Z * ConnectionInfo) :=
  filter (fun e => negb (Z.eqb k (fst e))) m.

(** The keys of the Map are numbers: a key of another type is not found. *)
Definition Map_get_value (m : list (Z * ConnectionInfo)) (k : JSValue)
  : option ConnectionInfo :=
  match k with
  | JNum n => Map_get m n
  | _ => None
  end.

(** Mutation of the [channels] Set of the record object stored under [k]. *)
Fixpoint update_channels (m : list (Z * ConnectionInfo)) (k : Z)
    (f : list JSValue -> list JSValue) : list (Z * ConnectionInfo) :=
  match m with
  | [] => []
  | (k', v) :: rest =>
      if Z.eqb k k'
      then (k', mkConnectionInfo (id v) (ws v) (ip v) (f (channels v)) (connectedAt v)) :: rest
      else (k', v) :: update_channels rest k f
  end.

(** ** The monad of handlers: state and exceptions *)

Inductive Exception : Type := SyntaxError | TypeError.

Inductive Outcome (A : Type) : Type :=
| Returned (a : A)
| Thrown (e : Exception).
Arguments Returned {A} a.
Arguments Thrown {A} e.

Definition M (A : Type) : Type := World -> Outcome A * World.

Definition ret {A} (a : A) : M A := fun s => (Returned a, s).

Definition bind {A B} (m : M A) (k : A -> M B) : M B :=
  fun s =>
    match m s with
    | (Returned a, s') => k a s'
    | (Thrown e, s') => (Thrown e, s')
    end.

Definition throw {A} (e : Exception) : M A := fun s => (Thrown e, s).

(** [try { body } catch (error) { handler }]: the effects of the body up to
    the throw are kept. *)
Definition try_catch {A} (body : M A) (handler : Exception -> M A) : M A :=
  fun s =>
    match body s with
    | (Returned a, s') => (Returned a, s')
    | (Thrown e, s') => handler e s'
    end.

Definition gets {A} (f : World -> A) : M A := fun s => (Returned (f s), s).

Definition modify (f : World -> World) : M unit := fun s => (Returned tt, f s).

Declare Scope js_scope.
Delimit Scope js_scope with js.
Notation "x <- c1 ;; c2" := (bind c1 (fun x => c2))
  (at level 61, c1 at next level, right associativity) : js_scope.
Notation "c1 ;; c2" := (bind c1 (fun _ => c2))
  (at level 61, right associativity) : js_scope.
Open Scope js_scope.

(** [v.k] for the property names the server reads ([type], [channel],
    [targetId], [data], [message]): a TypeError on [null] and [undefined],
    [undefined] on the other primitives and on arrays. *)
Definition get_prop (v : JSValue) (k : string) : M JSValue :=
  match v with
  | JUndefined | JNull => throw TypeError
  | JObj props => ret (lookup_prop props k)
  | _ => ret JUndefined
  end.

Definition Date_now : M Z :=
  fun s => (Returned (clock s (ticks s)), set_ticks (S (ticks s)) s).

(** [socket.send(JSON.stringify(data))] *)
Definition ws_send (socket : nat) (data : JSValue) : M unit :=
  modify (fun s => set_wire (wire s ++ [mkSent socket data (writable (sockets s socket))]) s).

(** [socket.readyState === WebSocket.OPEN] *)
Definition is_open (socket : nat) : M bool :=
  gets (fun s => ReadyState_eqb (readyState (sockets s socket)) OPEN).

(** The text of a log line, built by a template literal or by [join] from
    the values [vs]: a TypeError when one of them has no string form. *)
Definition template (vs : list JSValue) : M unit :=
  if forallb printable vs then ret tt else throw TypeError.

(** [connections.forEach(callback)].  The local variables that the callback
    updates are threaded through as [acc].  No callback of the server adds
    to or deletes from the Map, so the entries seen are those present at the
    call. *)
Fixpoint forEach_entries {A} (callback : ConnectionInfo -> A -> M A)
    (entries : list (Z * ConnectionInfo)) (acc : A) : M A :=
  match entries with
  | [] => ret acc
  | (_, conn) :: rest =>
      acc' <- callback conn acc ;;
      forEach_entries callback rest acc'
  end.

Definition connections_forEach {A} (callback : ConnectionInfo -> A -> M A) (acc : A) : M A :=
  entries <- gets connections ;;
  forEach_entries callback entries acc.

(** ** The server *)

Definition initial (sockets0 : nat -> WebSocket) (clock0 : nat -> Z) : World :=
  mkWorld [] 0 sockets0 clock0 0%nat [].

(** [function broadcastToChannel(channel, message, excludeId = null)];
    the result is [sent]. *)
Definition broadcastToChannel (channel message excludeId : JSValue) : M Z :=
  let excludeId := match excludeId with JUndefined => JNull | v => v end in
  r <- connections_forEach (fun conn '(sent, totalChecked) =>
         let totalChecked := totalChecked + 1 in
         let isSubscribed := Set_has (channels conn) channel in
         let isNotExcluded := negb (strict_eq (JNum (id conn)) excludeId) in
         isOpen <- is_open (ws conn) ;;
         template (channels conn) ;;          (* the debug line lists the channels *)
         if isNotExcluded && isSubscribed && isOpen
         then ws_send (ws conn) message ;; ret (sent + 1, totalChecked)
         else ret (sent, totalChecked))
       (0, 0) ;;
  template [channel] ;;                       (* the summary line names the channel *)
  ret (fst r).

(** [app.post('/api/broadcast')] with [req.body = body]; the result is the
    object given to [res.json]. *)
Definition api_broadcast (body : JSValue) : M JSValue :=
  message <- get_prop body "message" ;;
  channel <- get_prop body "channel" ;;
  let channel := match channel with JUndefined => JStr "default" | v => v end in
  sent <- connections_forEach (fun conn sent =>
            isOpen <- is_open (ws conn) ;;
            if isOpen
            then now <- Date_now ;;
                 ws_send (ws conn)
                   (JObj [("type", JStr "broadcast"); ("channel", channel);
                          ("message", message); ("timestamp", JNum now)]) ;;
                 ret (sent + 1)
            else ret sent)
          0 ;;
  ret (JObj [("success", JBool true); ("recipients", JNum sent)]).

(** The callback of [setInterval]. *)
Definition heartbeat : M unit :=
  connections_forEach (fun conn (_ : unit) =>
    isOpen <- is_open (ws conn) ;;
    if isOpen
    then now <- Date_now ;;
         ws_send (ws conn) (JObj [("type", JStr "heartbeat"); ("timestamp", JNum now)])
    else ret tt)
  tt.

(** [wss.on('connection', (ws, req) => ...)].  The handlers registered on
    the socket close over [connectionId] and [ws]; the embedding returns
    [connectionId] so that they can be called with it. *)
Definition on_connection (socket : nat) (remoteAddress : string) : M Z :=
  counter <- gets connectionIdCounter ;;
  let connectionId := counter + 1 in
  modify (set_connectionIdCounter connectionId) ;;
  now <- Date_now ;;
  let connectionInfo :=
    mkConnectionInfo connectionId socket remoteAddress [JStr "default"] now in
  modify (fun s => set_connections (Map_set (connections s) connectionId connectionInfo) s) ;;
  now <- Date_now ;;
  ws_send socket
    (JObj [("type", JStr "connection"); ("connectionId", JNum connectionId);
           ("message", JStr "Connected to WebSocket server with multiplexing support");
           ("timestamp", JNum now)]) ;;
  ret connectionId.

(** [ws.on('close')] *)
Definition on_close (connectionId : Z) : M unit :=
  modify (fun s => set_connections (Map_delete (connections s) connectionId) s).

(** [ws.on('error')]: the error is logged. *)
Definition on_error (connectionId : Z) : M unit := ret tt.

Section Handler.

(** [JSON.parse]: [None] stands for a SyntaxError. *)
Variable JSON_parse : string -> option JSValue.

Definition parse (data : string) : M JSValue :=
  match JSON_parse data with
  | Some v => ret v
  | None => throw SyntaxError
  end.

Definition case_subscribe (connectionId : Z) (socket : nat) (message : JSValue) : M unit :=
  conn <- gets (fun s => Map_get (connections s) connectionId) ;;
  match conn with
  | Some _ =>
      channel <- get_prop message "channel" ;;
      modify (fun s => set_connections
                (update_channels (connections s) connectionId (fun cs => Set_add cs channel)) s) ;;
      channel <- get_prop message "channel" ;;
      now <- Date_now ;;
      ws_send socket (JObj [("type", JStr "subscribed"); ("channel", channel);
                            ("timestamp", JNum now)]) ;;
      channel <- get_prop message "channel" ;;
      template [channel]                      (* the log line names the channel *)
  | None => ret tt
  end.

Definition case_unsubscribe (connectionId : Z) (socket : nat) (message : JSValue) : M unit :=
  connUnsub <- gets (fun s => Map_get (connections s) connectionId) ;;
  match connUnsub with
  | Some _ =>
      channel <- get_prop message "channel" ;;
      modify (fun s => set_connections
                (update_channels (connections s) connectionId (fun cs => Set_delete cs channel)) s) ;;
      channel <- get_prop message "channel" ;;
      now <- Date_now ;;
      ws_send socket (JObj [("type", JStr "unsubscribed"); ("channel", channel);
                            ("timestamp", JNum now)]) ;;
      channel <- get_prop message "channel" ;;
      template [channel]                      (* the log line names the channel *)
  | None => ret tt
  end.

Definition case_message (connectionId : Z) (message : JSValue) : M unit :=
  c <- get_prop message "channel" ;;
  let channel := js_or c (JStr "default") in
  data <- get_prop message "data" ;;
  now <- Date_now ;;
  broadcastToChannel channel
    (JObj [("type", JStr "channel_message"); ("channel", channel);
           ("connectionId", JNum connectionId); ("data", data);
           ("timestamp", JNum now)])
    JUndefined ;;
  ret tt.

Definition case_direct (connectionId : Z) (message : JSValue) : M unit :=
  targetId <- get_prop message "targetId" ;;
  targetConn <- gets (fun s => Map_get_value (connections s) targetId) ;;
  match targetConn with
  | Some target =>
      isOpen <- is_open (ws target) ;;
      if isOpen
      then data <- get_prop message "data" ;;
           now <- Date_now ;;
           ws_send (ws target)
             (JObj [("type", JStr "direct_message"); ("from", JNum connectionId);
                    ("data", data); ("timestamp", JNum now)])
      else ret tt
  | None => ret tt
  end.

Definition case_ping (socket : nat) : M unit :=
  now <- Date_now ;;
  ws_send socket (JObj [("type", JStr "pong"); ("timestamp", JNum now)]).

Definition case_default (socket : nat) (message : JSValue) : M unit :=
  now <- Date_now ;;
  ws_send socket (JObj [("type", JStr "echo"); ("original", message);
                        ("timestamp", JNum now)]).

(** [ws.on('message', (data) => ...)] of the connection [connectionId] with
    socket [socket]. *)
Definition on_message (connectionId : Z) (socket : nat) (data : string) : M unit :=
  try_catch
    (message <- parse data ;;
     type <- get_prop message "type" ;;
     if strict_eq type (JStr "subscribe") then case_subscribe connectionId socket message
     else if strict_eq type (JStr "unsubscribe") then case_unsubscribe connectionId socket message
     else if strict_eq type (JStr "message") then case_message connectionId message
     else if strict_eq type (JStr "direct") then case_direct connectionId message
     else if strict_eq type (JStr "ping") then case_ping socket
     else case_default socket message)
    (fun error =>
       now <- Date_now ;;
       ws_send socket (JObj [("type", JStr "error");
                             ("message", JStr "Invalid message format");
                             ("timestamp", JNum now)])).

End Handler.

(** ** Vocabulary of the specification *)

(** The records of the Registry, in the order of the Map. *)
Definition records (s : World) : list ConnectionInfo := map snd (connections s).

(** Liveness of a record: its transport is open. *)
Definition live (s : World) (conn : ConnectionInfo) : bool :=
  ReadyState_eqb (readyState (sockets s (ws conn))) OPEN.

Definition open_records (s : World) : list ConnectionInfo := filter (live s) (records s).

(** [excludeId = null] when the argument is left out. *)
Definition effective_excludeId (excludeId : JSValue) : JSValue :=
  match excludeId with JUndefined => JNull | v => v end.

(** The recipients of a channel delivery, in the words of the contract:
    liveness true, id different from the excluded id, channel in the
    channel set of the record. *)
Definition qualifies (s : World) (channel excludeId : JSValue) (conn : ConnectionInfo) : bool :=
  live s conn
  && negb (strict_eq (JNum (id conn)) excludeId)
  && Set_has (channels conn) channel.

Definition recipients (s : World) (channel excludeId : JSValue) : list ConnectionInfo :=
  filter (qualifies s channel excludeId) (records s).

(** Every channel of the record has a string form. *)
Definition printable_record (conn : ConnectionInfo) : bool :=
  forallb printable (channels conn).

(** Every channel held in the Registry has a string form; so it is when
    the channels are strings. *)
Definition printable_registry (s : World) : bool :=
  forallb printable_record (records s).

(** The records a fan-out visits: those before the first record whose
    channels the debug line cannot list. *)
Fixpoint reached (rs : list ConnectionInfo) : list ConnectionInfo :=
  match rs with
  | [] => []
  | conn :: rest => if printable_record conn then conn :: reached rest else []
  end.

(** The outcome of a case that ends with the log line naming [channel]. *)
Definition logged (channel : JSValue) : Outcome unit :=
  if printable channel then Returned tt else Thrown TypeError.

(** The recipients a fan-out gets to. *)
Definition visited (s : World) (channel excludeId : JSValue) : list ConnectionInfo :=
  filter (qualifies s channel excludeId) (reached (records s)).

Definition nullish (v : JSValue) : bool :=
  match v with
  | JUndefined | JNull => true
  | _ => false
  end.

(** [v.k] on a value that is neither [null] nor [undefined]. *)
Definition prop_of (v : JSValue) (k : string) : JSValue :=
  match v with
  | JObj props => lookup_prop props k
  | _ => JUndefined
  end.

Definition props_of (v : JSValue) : list (string * JSValue) :=
  match v with
  | JObj props => props
  | _ => []
  end.

(** The discriminants that the [switch] of the message handler knows. *)
Definition recognized (type : JSValue) : bool :=
  strict_eq type (JStr "subscribe")
  || strict_eq type (JStr "unsubscribe")
  || strict_eq type (JStr "message")
  || strict_eq type (JStr "direct")
  || strict_eq type (JStr "ping").

(** The channel a [message] event is routed to. *)
Definition target_channel (message : JSValue) : JSValue :=
  js_or (prop_of message "channel") (JStr "default").

(** The [channel] of the request body, with its default. *)
Definition broadcast_channel (props : list (string * JSValue)) : JSValue :=
  let channel := lookup_prop props "channel" in
  match channel with JUndefined => JStr "default" | v => v end.

(** The record a direct message reaches: the one stored under [targetId],
    when there is one and it is live.  This is the test of the [direct]
    case of the message handler. *)
Definition direct_target (s : World) (targetId : JSValue) : option ConnectionInfo :=
  match Map_get_value (connections s) targetId with
  | Some target => if live s target then Some target else None
  | None => None
  end.

(** ** The log of writes *)

(** The log entry of one write of [message] to the socket of [conn]. *)
Definition deliver (s : World) (message : JSValue) (conn : ConnectionInfo) : Sent :=
  mkSent (ws conn) message (writable (sockets s (ws conn))).

(** The entries of a log that went to one socket. *)
Definition sends_to (socket : nat) (w : list Sent) : list Sent :=
  filter (fun e => Nat.eqb (dest e) socket) w.

(** The entries of a log whose write reached the peer. *)
Definition delivered (w : list Sent) : list Sent := filter written w.

(** The writes of a fan-out that reads the clock once per recipient: the
    recipient at position [i] gets the frame stamped with reading [t + i]. *)
Fixpoint stamped (s : World) (frame : Z -> JSValue) (t : nat) (rs : list ConnectionInfo)
  : list Sent :=
  match rs with
  | [] => []
  | conn :: rest =>
      mkSent (ws conn) (frame (clock s t)) (writable (sockets s (ws conn)))
        :: stamped s frame (S t) rest
  end.

(** The world after one reading of the clock and one write to [socket]. *)
Definition after_send (s : World) (socket : nat) (frame : Z -> JSValue) : World :=
  set_wire (wire s ++ [mkSent socket (frame (clock s (ticks s))) (writable (sockets s socket))])
    (set_ticks (S (ticks s)) s).

(** ** The frames the server writes *)

Definition welcome_frame (connectionId now : Z) : JSValue :=
  JObj [("type", JStr "connection"); ("connectionId", JNum connectionId);
        ("message", JStr "Connected to WebSocket server with multiplexing support");
        ("timestamp", JNum now)].

Definition ack_frame (kind : string) (channel : JSValue) (now : Z) : JSValue :=
  JObj [("type", JStr kind); ("channel", channel); ("timestamp", JNum now)].

Definition channel_message_frame (channel : JSValue) (connectionId : Z) (data : JSValue)
    (now : Z) : JSValue :=
  JObj [("type", JStr "channel_message"); ("channel", channel);
        ("connectionId", JNum connectionId); ("data", data); ("timestamp", JNum now)].

Definition direct_message_frame (from : Z) (data : JSValue) (now : Z) : JSValue :=
  JObj [("type", JStr "direct_message"); ("from", JNum from);
        ("data", data); ("timestamp", JNum now)].

Definition echo_frame (message : JSValue) (now : Z) : JSValue :=
  JObj [("type", JStr "echo"); ("original", message); ("timestamp", JNum now)].

Definition error_frame (now : Z) : JSValue :=
  JObj [("type", JStr "error"); ("message", JStr "Invalid message format");
        ("timestamp", JNum now)].

Definition broadcast_frame (channel message : JSValue) (now : Z) : JSValue :=
  JObj [("type", JStr "broadcast"); ("channel", channel);
        ("message", message); ("timestamp", JNum now)].

Definition heartbeat_frame (now : Z) : JSValue :=
  JObj [("type", JStr "heartbeat"); ("timestamp", JNum now)].

(** The record created for a new connection. *)
Definition new_record (s : World) (socket : nat) (remoteAddress : string) : ConnectionInfo :=
  mkConnectionInfo (connectionIdCounter s + 1) socket remoteAddress
    [JStr "default"] (clock s (ticks s)).

(** What the [catch] block of the message handler makes of the outcome of
    a case that ended in world [s]: an exception is answered with an
    [error] frame on the socket of the connection. *)
Definition caught (outcome : Outcome unit) (socket : nat) (s : World)
    : Outcome unit * World :=
  match outcome with
  | Returned a => (Returned a, s)
  | Thrown _ => (Returned tt, after_send s socket error_frame)
  end.

(** ** The effect of an inbound frame, whatever its content *)

Definition message_effect (connectionId : Z) (socket : nat) (s s' : World) : Prop :=
  (connections s' = connections s
   \/ exists f, connections s' = update_channels (connections s) connectionId f)
  /\ connectionIdCounter s' = connectionIdCounter s
  /\ sockets s' = sockets s
  /\ exists new,
       wire s' = wire s ++ new
       /\ Forall (fun e => dest e = socket \/ In (dest e) (map ws (records s))) new.

(** ** Runs of the server *)

Inductive Event : Type :=
| EConnection (socket : nat) (remoteAddress : string)
| EMessage (connectionId : Z) (socket : nat) (data : string)
| EClose (connectionId : Z)
| EError (connectionId : Z)
| EBroadcast (body : JSValue)
| EHeartbeat
| ETransport (socket : nat) (state : WebSocket).

Definition set_socket (socket : nat) (state : WebSocket) (s : World) : World :=
  set_sockets (fun h => if Nat.eqb h socket then state else sockets s h) s.

(** One turn of the event loop.  The result is the id handed out, when the
    event is a new connection.  An exception that leaves a handler ends
    that handler only. *)
Definition dispatch (JSON_parse : string -> option JSValue) (e : Event) (s : World)
  : option Z * World :=
  match e with
  | EConnection socket remoteAddress =>
      match on_connection socket remoteAddress s with
      | (Returned connectionId, s') => (Some connectionId, s')
      | (Thrown _, s') => (None, s')
      end
  | EMessage connectionId socket data =>
      (None, snd (on_message JSON_parse connectionId socket data s))
  | EClose connectionId => (None, snd (on_close connectionId s))
  | EError connectionId => (None, snd (on_error connectionId s))
  | EBroadcast body => (None, snd (api_broadcast body s))
  | EHeartbeat => (None, snd (heartbeat s))
  | ETransport socket state => (None, set_socket socket state s)
  end.

(** The ids handed out during a run, oldest first, and the final world. *)
Fixpoint run (JSON_parse : string -> option JSValue) (es : list Event) (s : World)
  : list Z * World :=
  match es with
  | [] => ([], s)
  | e :: rest =>
      let '(r, s') := dispatch JSON_parse e s in
      let '(ids, s'') := run JSON_parse rest s' in
      (match r with Some i => i :: ids | None => ids end, s'')
  end.

(** ** Properties of the Registry *)

(** Every record is stored under its own id. *)
Definition keys_are_ids (s : World) : Prop :=
  Forall (fun e => id (snd e) = fst e) (connections s).

(** The socket belongs to the connection [connectionId]: a record that
    holds it has that id. *)
Definition owns (s : World) (connectionId : Z) (socket : nat) : Prop :=
  Forall (fun c => ws c = socket -> id c = connectionId) (records s).

(** No record of the Registry holds [socket]. *)
Definition absent (socket : nat) (s : World) : Prop :=
  Forall (fun c => ws c <> socket) (records s).

(** The id was handed out and its record is not in the Registry. *)
Definition removed (connectionId : Z) (s : World) : Prop :=
  Map_get (connections s) connectionId = None
  /\ connectionId <= connectionIdCounter s.

(** The transport raises no event on [socket]: no handler is registered on
    it again and no frame arrives from it. *)
Definition quiet (socket : nat) (e : Event) : Prop :=
  match e with
  | EConnection h _ => h <> socket
  | EMessage _ h _ => h <> socket
  | _ => True
  end.

(** What a subscription event may change in an entry of the Registry: the
    channel set, and that of the acting connection only. *)
Definition same_but_channels (connectionId : Z) (e e' : Z * ConnectionInfo) : Prop :=
  fst e' = fst e
  /\ id (snd e') = id (snd e)
  /\ ws (snd e') = ws (snd e)
  /\ ip (snd e') = ip (snd e)
  /\ connectedAt (snd e') = connectedAt (snd e)
  /\ (fst e <> connectionId -> snd e' = snd e).

(** The reading of C4 that the code does not meet: the count returned by a
    channel delivery is the number of recipients whose write succeeded. *)
Definition count_excludes_failed_writes : Prop :=
  forall (s : World) (channel message excludeId : JSValue),
    fst (broadcastToChannel channel message excludeId s)
    = Returned (Z.of_nat (List.length
        (delivered (skipn (List.length (wire s))
                      (wire (snd (broadcastToChannel channel message excludeId s))))))).

(** ** An example world *)

(** A decoder for the frames of the examples; the frames are named rather
    than spelled out in JSON. *)
Definition demo_parse (data : string) : option JSValue :=
  if String.eqb data "subscribe gaming"
  then Some (JObj [("type", JStr "subscribe"); ("channel", JStr "gaming")])
  else if String.eqb data "unsubscribe gaming"
  then Some (JObj [("type", JStr "unsubscribe"); ("channel", JStr "gaming")])
  else if String.eqb data "message gaming hi"
  then Some (JObj [("type", JStr "message"); ("channel", JStr "gaming"); ("data", JStr "hi")])
  else if String.eqb data "direct 2 x"
  then Some (JObj [("type", JStr "direct"); ("targetId", JNum 2); ("data", JStr "x")])
  else if String.eqb data "direct 99 x"
  then Some (JObj [("type", JStr "direct"); ("targetId", JNum 99); ("data", JStr "x")])
  else if String.eqb data "ping"
  then Some (JObj [("type", JStr "ping")])
  else if String.eqb data "hello"
  then Some (JObj [("type", JStr "hello"); ("text", JStr "world")])
  else if String.eqb data "null"
  then Some JNull
  else None.

(** Socket 1 is open but its writes fail; socket 2 is closed. *)
Definition demo_sockets (h : nat) : WebSocket :=
  match h with
  | 1%nat => mkWebSocket OPEN false
  | 2%nat => mkWebSocket CLOSED true
  | _ => mkWebSocket OPEN true
  end.

Definition demo_clock (n : nat) : Z := 1000 + Z.of_nat n.

(** Four connections; the first two subscribe to [gaming]. *)
Definition demo_events : list Event :=
  [EConnection 0 "10.0.0.1"; EConnection 1 "10.0.0.2"; EConnection 2 "10.0.0.3";
   EConnection 3 "10.0.0.4";
   EMessage 1 0 "subscribe gaming"; EMessage 2 1 "subscribe gaming"].

Definition demo_world : World :=
  snd (run demo_parse demo_events (initial demo_sockets demo_clock)).

(** ** A world with a channel that has no string form *)

Definition unprintable : JSValue := JObj [("toString", JNull)].

(** The decoder of the examples, with three more frames. *)
Definition poison_parse (data : string) : option JSValue :=
  if String.eqb data "subscribe unprintable"
  then Some (JObj [("type", JStr "subscribe"); ("channel", unprintable)])
  else if String.eqb data "unsubscribe unprintable"
  then Some (JObj [("type", JStr "unsubscribe"); ("channel", unprintable)])
  else if String.eqb data "message default hi"
  then Some (JObj [("type", JStr "message"); ("channel", JStr "default");
                   ("data", JStr "hi")])
  else demo_parse data.

(** The example world after connection 2 has subscribed to the channel
    [{toString: null}]. *)
Definition poisoned_world : World :=
  snd (on_message poison_parse 2 1%nat "subscribe unprintable" demo_world).

(** ** The status route and the shape of the Registry *)

Definition Map_size (m : list (Z * ConnectionInfo)) : Z := Z.of_nat (List.length m).

(** [app.get('/api/status')].  The readings of [process.uptime()] and of
    [new Date().toISOString()] come from the environment; the result is the
    object given to [res.json]. *)
Definition api_status (uptime : JSValue) (timestamp : string) : M JSValue :=
  size <- gets (fun s => Map_size (connections s)) ;;
  ret (JObj [("status", JStr "online"); ("connections", JNum size);
             ("uptime", uptime); ("timestamp", JStr timestamp)]).

(** The shape of the Registry in a world the server can reach: the keys
    are distinct, every record is stored under its own id, and every id
    lies between 1 and the counter. *)
Definition registry_ok (s : World) : Prop :=
  0 <= connectionIdCounter s
  /\ NoDup (map fst (connections s))
  /\ Forall (fun e => id (snd e) = fst e /\ 1 <= fst e <= connectionIdCounter s)
       (connections s).

(** * The client (client.js)

    The class [MultiplexedWebSocketClient], with explicit state passing.
    [State] is the object [this]; [World] adds what the methods act on: the
    socket objects of the transport, the frames handed to [ws.send], the
    calls of registered handlers, the timers set and the sockets closed.
    Channel names and handler types are strings.  A registered handler is a
    callback of the user: its call is logged, what it does is not
    modelled.  The promise returned by [connect] has no effect on the state
    and is left out, and so is the command shell.  Log lines are treated as
    in the server: a line that interpolates a value of a frame throws when
    the value has no string form. *)

Module Client.

Record State : Type := mkState {
  url : string;
  ws : option nat;                          (* null, or the socket object *)
  connectionId : JSValue;                   (* null until the welcome arrives *)
  subscribedChannels : list JSValue;
  messageHandlers : list (string * nat);    (* the Map from type to handler *)
  reconnectAttempts : Z;
  maxReconnectAttempts : Z
}.

Record World : Type := mkWorld {
  self : State;
  sockets : nat -> ReadyState;              (* owned by the transport *)
  created : nat;                            (* sockets created so far *)
  sent : list (nat * JSValue);              (* calls of ws.send, oldest first *)
  called : list (nat * JSValue);            (* calls of handlers, oldest first *)
  timers : list Z;                          (* delays given to setTimeout *)
  closed : list nat                         (* calls of ws.close *)
}.

Definition set_self (c : State) (w : World) : World :=
  mkWorld c (sockets w) (created w) (sent w) (called w) (timers w) (closed w).

Definition set_ws (h : option nat) (c : State) : State :=
  mkState (url c) h (connectionId c) (subscribedChannels c) (messageHandlers c)
    (reconnectAttempts c) (maxReconnectAttempts c).

Definition set_connectionId (v : JSValue) (c : State) : State :=
  mkState (url c) (ws c) v (subscribedChannels c) (messageHandlers c)
    (reconnectAttempts c) (maxReconnectAttempts c).

Definition set_subscribedChannels (cs : list JSValue) (c : State) : State :=
  mkState (url c) (ws c) (connectionId c) cs (messageHandlers c)
    (reconnectAttempts c) (maxReconnectAttempts c).

Definition set_messageHandlers (m : list (string * nat)) (c : State) : State :=
  mkState (url c) (ws c) (connectionId c) (subscribedChannels c) m
    (reconnectAttempts c) (maxReconnectAttempts c).

Definition set_reconnectAttempts (n : Z) (c : State) : State :=
  mkState (url c) (ws c) (connectionId c) (subscribedChannels c) (messageHandlers c)
    n (maxReconnectAttempts c).

(** [constructor(url)] *)
Definition constructor (url0 : string) : State :=
  mkState url0 None JNull [JStr "default"] [] 0 5.

(** A process that has just built its client. *)
Definition start (url0 : string) (sockets0 : nat -> ReadyState) : World :=
  mkWorld (constructor url0) sockets0 0%nat [] [] [] [].

(** [this.ws && this.ws.readyState === WebSocket.OPEN] *)
Definition connected (w : World) : bool :=
  match ws (self w) with
  | Some h => ReadyState_eqb (sockets w h) OPEN
  | None => false
  end.

(** [send(message)] *)
Definition send (message : JSValue) (w : World) : World :=
  match ws (self w) with
  | Some h =>
      if ReadyState_eqb (sockets w h) OPEN
      then mkWorld (self w) (sockets w) (created w) (sent w ++ [(h, message)])
             (called w) (timers w) (closed w)
      else w
  | None => w
  end.

(** [subscribe(channel)] *)
Definition subscribe (channel : string) (w : World) : World :=
  if connected w
  then send (JObj [("type", JStr "subscribe"); ("channel", JStr channel)])
         (set_self (set_subscribedChannels
                      (Set_add (subscribedChannels (self w)) (JStr channel)) (self w)) w)
  else w.

(** [unsubscribe(channel)] *)
Definition unsubscribe (channel : string) (w : World) : World :=
  if connected w
  then send (JObj [("type", JStr "unsubscribe"); ("channel", JStr channel)])
         (set_self (set_subscribedChannels
                      (Set_delete (subscribedChannels (self w)) (JStr channel)) (self w)) w)
  else w.

(** [sendToChannel(channel, data)] *)
Definition sendToChannel (channel : string) (data : JSValue) : World -> World :=
  send (JObj [("type", JStr "message"); ("channel", JStr channel); ("data", data)]).

(** [sendDirect(targetId, data)] *)
Definition sendDirect (targetId data : JSValue) : World -> World :=
  send (JObj [("type", JStr "direct"); ("targetId", targetId); ("data", data)]).

(** [ping()] *)
Definition ping : World -> World := send (JObj [("type", JStr "ping")]).

Fixpoint handlers_get (m : list (string * nat)) (k : string) : option nat :=
  match m with
  | [] => None
  | (k', v) :: rest => if String.eqb k k' then Some v else handlers_get rest k
  end.

Fixpoint handlers_set (m : list (string * nat)) (k : string) (v : nat)
  : list (string * nat) :=
  match m with
  | [] => [(k, v)]
  | (k', v') :: rest =>
      if String.eqb k k' then (k, v) :: rest else (k', v') :: handlers_set rest k v
  end.

(** [onMessage(type, handler)] *)
Definition onMessage (type : string) (handler : nat) (w : World) : World :=
  set_self (set_messageHandlers (handlers_set (messageHandlers (self w)) type handler)
              (self w)) w.

(** The handler registered for the [type] of a frame; the keys of the Map
    are strings, a [type] of another kind finds none. *)
Definition handler_for (c : State) (type : JSValue) : option nat :=
  match type with
  | JStr t => handlers_get (messageHandlers c) t
  | _ => None
  end.

(** The values that the log line of the [switch] of [handleMessage]
    interpolates, by the [type] of the frame. *)
Definition interpolated (message : JSValue) : list JSValue :=
  let type := prop_of message "type" in
  if strict_eq type (JStr "channel_message")
  then [prop_of message "channel"; prop_of message "connectionId"]
  else if strict_eq type (JStr "direct_message") then [prop_of message "from"]
  else if strict_eq type (JStr "subscribed") then [prop_of message "channel"]
  else if strict_eq type (JStr "unsubscribed") then [prop_of message "channel"]
  else if strict_eq type (JStr "broadcast") then [prop_of message "channel"]
  else [].

(** [handleMessage(message)].  It throws the TypeError of reading [type]
    on [null], and the TypeError of a log line that interpolates a value
    with no string form: the line after the assignment of the id, or the
    line of the [switch]; both come before the handlers are looked up. *)
Definition handleMessage (message : JSValue) (w : World) : Outcome unit * World :=
  if nullish message then (Thrown TypeError, w)
  else
    let type := prop_of message "type" in
    let w1 :=
      if strict_eq type (JStr "connection")
      then set_self (set_connectionId (prop_of message "connectionId") (self w)) w
      else w in
    if strict_eq type (JStr "connection") && negb (printable (connectionId (self w1)))
    then (Thrown TypeError, w1)
    else if negb (forallb printable (interpolated message))
    then (Thrown TypeError, w1)
    else
      match handler_for (self w1) type with
      | Some handler =>
          (Returned tt,
           mkWorld (self w1) (sockets w1) (created w1) (sent w1)
             (called w1 ++ [(handler, message)]) (timers w1) (closed w1))
      | None => (Returned tt, w1)
      end.

(** [attemptReconnect()] *)
Definition attemptReconnect (w : World) : World :=
  if reconnectAttempts (self w) <? maxReconnectAttempts (self w)
  then
    let attempts := reconnectAttempts (self w) + 1 in
    let delay := Z.min (1000 * 2 ^ attempts) 10000 in
    mkWorld (set_reconnectAttempts attempts (self w)) (sockets w) (created w) (sent w)
      (called w) (timers w ++ [delay]) (closed w)
  else w.

(** [connect()]: [new WebSocket(url)] is a socket object that is
    connecting; the four listeners below are registered on it. *)
Definition connect (w : World) : World :=
  let h := created w in
  mkWorld (set_ws (Some h) (self w))
    (fun k => if Nat.eqb k h then CONNECTING else sockets w k)
    (S h) (sent w) (called w) (timers w) (closed w).

(** The listener of ['open']. *)
Definition on_open (w : World) : World :=
  set_self (set_reconnectAttempts 0 (self w)) w.

(** The listener of ['close']. *)
Definition on_close (w : World) : World := attemptReconnect w.

(** The listener of ['error'] rejects the promise of [connect]. *)
Definition on_error (w : World) : World := w.

(** [disconnect()] *)
Definition disconnect (w : World) : World :=
  match ws (self w) with
  | Some h =>
      mkWorld (self w) (sockets w) (created w) (sent w) (called w) (timers w)
        (closed w ++ [h])
  | None => w
  end.

Section Listener.

Variable JSON_parse : string -> option JSValue.

(** The listener of ['message']: what is thrown inside the [try] is
    logged and dropped; what [handleMessage] did before it threw stays
    done. *)
Definition on_message (data : string) (w : World) : World :=
  match JSON_parse data with
  | Some message => snd (handleMessage message w)
  | None => w
  end.

End Listener.

(** The calls a user makes on the subscription methods. *)
Inductive Call : Type :=
| Subscribe (channel : string)
| Unsubscribe (channel : string).

Definition call (c : Call) : World -> World :=
  match c with
  | Subscribe channel => subscribe channel
  | Unsubscribe channel => unsubscribe channel
  end.

End Client.

(** ** Client and server together *)

(** The server handles, in order, the frames that the client has handed to
    its socket; [encode] stands for [JSON.stringify]. *)
Definition relay (JSON_parse : string -> option JSValue) (encode : JSValue -> string)
    (connectionId : Z) (socket : nat) (frames : list (nat * JSValue)) (s : World) : World :=
  fold_left
    (fun s frame => snd (on_message JSON_parse connectionId socket (encode (snd frame)) s))
    frames s.

(** The user calls one subscription method and the server handles what the
    client sent. *)
Definition call_and_relay (JSON_parse : string -> option JSValue)
    (encode : JSValue -> string) (connectionId : Z) (socket : nat)
    (c : Client.Call) (both : Client.World * World) : Client.World * World :=
  let cw' := Client.call c (fst both) in
  (cw',
   relay JSON_parse encode connectionId socket
     (skipn (List.length (Client.sent (fst both))) (Client.sent cw')) (snd both)).

(** The frame of a subscription call, as the client builds it. *)
Definition call_frame (c : Client.Call) : JSValue :=
  match c with
  | Client.Subscribe channel =>
      JObj [("type", JStr "subscribe"); ("channel", JStr channel)]
  | Client.Unsubscribe channel =>
      JObj [("type", JStr "unsubscribe"); ("channel", JStr channel)]
  end.

(** The delays of the reconnection attempts of a client. *)
Definition backoff : list Z := [2000; 4000; 8000; 10000; 10000].

(** The transport reports [n] closes in a row. *)
Fixpoint after_closes (n : nat) (w : Client.World) : Client.World :=
  match n with
  | O => w
  | S k => after_closes k (Client.on_close w)
  end.

(** An encoder for the subscription frames of the examples, the inverse of
    [demo_parse] on them. *)
Definition demo_encode (v : JSValue) : string :=
  match v with
  | JObj [("type", JStr t); ("channel", JStr c)] => String.append t (String.append " " c)
  | _ => ""
  end.

(** A client whose socket, number 0, is open. *)
Definition demo_client : Client.World :=
  Client.mkWorld
    (Client.mkState "ws://localhost:3000" (Some 0%nat) (JNum 1) [JStr "default"] [] 0 5)
    (fun _ => OPEN) 1%nat [] [] [] [].

(** * Proofs *)

(** ** Basic facts *)

Lemma set_wire_same (s : World) : set_wire (wire s) s = s.
Proof. destruct s; reflexivity. Qed.

Lemma set_wire_nil (s : World) : set_wire (wire s ++ []) s = s.
Proof. rewrite app_nil_r. apply set_wire_same. Qed.

Lemma qualifies_code (s : World) (channel excludeId : JSValue) (conn : ConnectionInfo) :
  negb (strict_eq (JNum (id conn)) excludeId) && Set_has (channels conn) channel
    && ReadyState_eqb (readyState (sockets s (ws conn))) OPEN
  = qualifies s channel excludeId conn.
Proof.
  unfold qualifies, live.
  destruct (strict_eq _ _), (Set_has _ _), (ReadyState_eqb _ _); reflexivity.
Qed.

Lemma qualifies_set_wire (w : list Sent) (s : World) :
  qualifies (set_wire w s) = qualifies s.
Proof. reflexivity. Qed.

Lemma deliver_set_wire (w : list Sent) (s : World) :
  deliver (set_wire w s) = deliver s.
Proof. reflexivity. Qed.

Lemma set_wire_set_wire (w1 w2 : list Sent) (s : World) :
  set_wire w2 (set_wire w1 s) = set_wire w2 s.
Proof. reflexivity. Qed.

Lemma reached_all (rs : list ConnectionInfo) :
  forallb printable_record rs = true -> reached rs = rs.
Proof.
  induction rs as [|c rest IH]; simpl; [reflexivity|].
  intros H. apply andb_true_iff in H as [Hc Hrest]. rewrite Hc, IH by exact Hrest.
  reflexivity.
Qed.

Lemma reached_incl (rs : list ConnectionInfo) : incl (reached rs) rs.
Proof.
  induction rs as [|c rest IH]; simpl; [intros x []|].
  destruct (printable_record c); [|intros x []].
  intros x [<-|Hx]; [left; reflexivity|right; apply IH, Hx].
Qed.

Lemma visited_In (s : World) (channel excludeId : JSValue) (r : ConnectionInfo) :
  In r (visited s channel excludeId) ->
  In r (records s) /\ qualifies s channel excludeId r = true.
Proof.
  unfold visited. intros H. apply filter_In in H as [Hin Hq].
  split; [apply reached_incl, Hin|exact Hq].
Qed.

Lemma visited_all (s : World) (channel excludeId : JSValue) :
  printable_registry s = true -> visited s channel excludeId = recipients s channel excludeId.
Proof.
  intros H. unfold visited, recipients. rewrite reached_all by exact H. reflexivity.
Qed.

Lemma visited_dests (s : World) (channel excludeId message : JSValue) :
  incl (map dest (map (deliver s message) (visited s channel excludeId)))
       (map ws (records s)).
Proof.
  rewrite map_map. intros h Hh. apply in_map_iff in Hh as (r & <- & Hr).
  apply visited_In in Hr as [Hin _]. simpl. apply in_map, Hin.
Qed.

Lemma forEach_broadcastToChannel
    (channel message excludeId : JSValue) (entries : list (Z * ConnectionInfo)) :
  forall (s : World) (sent totalChecked : Z),
    forEach_entries
      (fun conn '(sent, totalChecked) =>
         let totalChecked := totalChecked + 1 in
         let isSubscribed := Set_has (channels conn) channel in
         let isNotExcluded := negb (strict_eq (JNum (id conn)) excludeId) in
         isOpen <- is_open (ws conn) ;;
         template (channels conn) ;;
         if isNotExcluded && isSubscribed && isOpen
         then ws_send (ws conn) message ;; ret (sent + 1, totalChecked)
         else ret (sent, totalChecked))
      entries (sent, totalChecked) s
    = (if forallb printable_record (map snd entries)
       then Returned
              (sent + Z.of_nat (List.length
                         (filter (qualifies s channel excludeId) (map snd entries))),
               totalChecked + Z.of_nat (List.length entries))
       else Thrown TypeError,
       set_wire (wire s ++ map (deliver s message)
                   (filter (qualifies s channel excludeId) (reached (map snd entries)))) s).
Proof.
  induction entries as [|[k conn] rest IH]; intros s sent totalChecked.
  - simpl. unfold ret. rewrite set_wire_nil, !Z.add_0_r. reflexivity.
  - cbn [forEach_entries map filter snd forallb reached].
    unfold bind at 1. unfold bind at 1. unfold is_open at 1, gets at 1.
    cbv zeta. unfold bind at 1, template at 1. fold (printable_record conn).
    destruct (printable_record conn) eqn:Hp; cbn [andb].
    + unfold ret at 1. rewrite qualifies_code. cbn [filter].
      destruct (qualifies s channel excludeId conn) eqn:Hq.
      * unfold bind at 1, ws_send at 1, modify at 1, ret at 1.
        rewrite IH, qualifies_set_wire, deliver_set_wire, set_wire_set_wire.
        cbn [List.length map wire set_wire]. rewrite <- app_assoc.
        destruct (forallb printable_record (map snd rest)); [|reflexivity].
        f_equal. f_equal. f_equal; lia.
      * unfold ret at 1. rewrite IH. cbn [List.length].
        destruct (forallb printable_record (map snd rest)); [|reflexivity].
        f_equal. f_equal. f_equal. lia.
    + unfold throw. cbn [filter map]. rewrite set_wire_nil. reflexivity.
Qed.

(** What a call of [broadcastToChannel] does, in every world: it writes to
    the recipients it gets to, and returns their number unless a log line
    throws. *)
Lemma broadcastToChannel_run (channel message excludeId : JSValue) (s : World) :
  broadcastToChannel channel message excludeId s
  = (if printable_registry s && printable channel
     then Returned (Z.of_nat (List.length
                      (recipients s channel (effective_excludeId excludeId))))
     else Thrown TypeError,
     set_wire (wire s ++ map (deliver s message)
                 (visited s channel (effective_excludeId excludeId))) s).
Proof.
  unfold broadcastToChannel, connections_forEach.
  unfold bind at 1. unfold bind at 1. unfold gets at 1.
  fold (effective_excludeId excludeId).
  rewrite forEach_broadcastToChannel.
  fold (records s). fold (printable_registry s).
  fold (visited s channel (effective_excludeId excludeId)).
  fold (recipients s channel (effective_excludeId excludeId)).
  destruct (printable_registry s); cbn [andb]; [|reflexivity].
  unfold bind at 1, template at 1. cbn [forallb]. rewrite andb_true_r.
  destruct (printable channel); reflexivity.
Qed.

(** In a Registry whose channels all have a string form, the fan-out gets
    to every recipient. *)
Lemma broadcastToChannel_run_printable (channel message excludeId : JSValue) (s : World) :
  printable_registry s = true -> printable channel = true ->
  broadcastToChannel channel message excludeId s
  = (Returned (Z.of_nat (List.length (recipients s channel (effective_excludeId excludeId)))),
     set_wire (wire s ++ map (deliver s message)
                 (recipients s channel (effective_excludeId excludeId))) s).
Proof.
  intros Hr Hc. rewrite broadcastToChannel_run, Hr, Hc, visited_all by exact Hr.
  reflexivity.
Qed.

(** ** The fan-outs that stamp each frame *)

Lemma set_wire_ticks_nil (s : World) :
  set_wire (wire s ++ []) (set_ticks (ticks s + 0) s) = s.
Proof. rewrite app_nil_r, Nat.add_0_r. destruct s; reflexivity. Qed.

Lemma stamped_set (s : World) (w : list Sent) (n : nat) (frame : Z -> JSValue)
    (rs : list ConnectionInfo) :
  forall t, stamped (set_wire w (set_ticks n s)) frame t rs = stamped s frame t rs.
Proof.
  induction rs as [|conn rest IH]; intros t; simpl; [reflexivity|].
  rewrite IH. reflexivity.
Qed.

Lemma live_set (s : World) (w : list Sent) (n : nat) :
  live (set_wire w (set_ticks n s)) = live s.
Proof. reflexivity. Qed.

Lemma forEach_api_broadcast (channel message : JSValue) (entries : list (Z * ConnectionInfo)) :
  forall (s : World) (sent : Z),
    forEach_entries
      (fun conn sent =>
         isOpen <- is_open (ws conn) ;;
         if isOpen
         then now <- Date_now ;;
              ws_send (ws conn)
                (JObj [("type", JStr "broadcast"); ("channel", channel);
                       ("message", message); ("timestamp", JNum now)]) ;;
              ret (sent + 1)
         else ret sent)
      entries sent s
    = (Returned (sent + Z.of_nat (List.length (filter (live s) (map snd entries)))),
       set_wire (wire s ++ stamped s (broadcast_frame channel message) (ticks s)
                             (filter (live s) (map snd entries)))
         (set_ticks (ticks s + List.length (filter (live s) (map snd entries))) s)).
Proof.
  induction entries as [|[k conn] rest IH]; intros s sent.
  - simpl. unfold ret. rewrite set_wire_ticks_nil, Z.add_0_r. reflexivity.
  - cbn [forEach_entries map filter snd].
    unfold bind at 1. unfold bind at 1. unfold is_open at 1, gets at 1.
    fold (live s conn).
    destruct (live s conn) eqn:Hl.
    + unfold bind at 1, Date_now at 1, bind at 1, ws_send at 1, modify at 1, ret at 1.
      rewrite IH, live_set, stamped_set.
      cbn [List.length stamped wire set_wire set_ticks ticks connections
           connectionIdCounter sockets clock].
      rewrite <- app_assoc, Nat.add_succ_r.
      f_equal. f_equal. lia.
    + unfold ret at 1. rewrite IH. reflexivity.
Qed.

Lemma forEach_heartbeat (entries : list (Z * ConnectionInfo)) :
  forall (s : World),
    forEach_entries
      (fun conn (_ : unit) =>
         isOpen <- is_open (ws conn) ;;
         if isOpen
         then now <- Date_now ;;
              ws_send (ws conn) (JObj [("type", JStr "heartbeat"); ("timestamp", JNum now)])
         else ret tt)
      entries tt s
    = (Returned tt,
       set_wire (wire s ++ stamped s heartbeat_frame (ticks s)
                             (filter (live s) (map snd entries)))
         (set_ticks (ticks s + List.length (filter (live s) (map snd entries))) s)).
Proof.
  induction entries as [|[k conn] rest IH]; intros s.
  - simpl. unfold ret. rewrite set_wire_ticks_nil. reflexivity.
  - cbn [forEach_entries map filter snd].
    unfold bind at 1. unfold bind at 1. unfold is_open at 1, gets at 1.
    fold (live s conn).
    destruct (live s conn) eqn:Hl.
    + unfold bind at 1, Date_now at 1, ws_send at 1, modify at 1.
      rewrite IH, live_set, stamped_set.
      cbn [List.length stamped wire set_wire set_ticks ticks connections
           connectionIdCounter sockets clock].
      rewrite <- app_assoc, Nat.add_succ_r.
      reflexivity.
    + unfold ret at 1. rewrite IH. reflexivity.
Qed.

Lemma heartbeat_run (s : World) :
  heartbeat s
  = (Returned tt,
     set_wire (wire s ++ stamped s heartbeat_frame (ticks s) (open_records s))
       (set_ticks (ticks s + List.length (open_records s)) s)).
Proof.
  unfold heartbeat, connections_forEach.
  unfold bind at 1, gets at 1.
  apply forEach_heartbeat.
Qed.

Lemma api_broadcast_run (props : list (string * JSValue)) (s : World) :
  api_broadcast (JObj props) s
  = (Returned (JObj [("success", JBool true);
                     ("recipients", JNum (Z.of_nat (List.length (open_records s))))]),
     set_wire (wire s ++ stamped s (broadcast_frame (broadcast_channel props)
                                      (lookup_prop props "message"))
                           (ticks s) (open_records s))
       (set_ticks (ticks s + List.length (open_records s)) s)).
Proof.
  unfold api_broadcast, connections_forEach, get_prop.
  unfold bind at 1, ret at 1. unfold bind at 1, ret at 1.
  unfold bind at 1. unfold bind at 1, gets at 1.
  rewrite forEach_api_broadcast, Z.add_0_l. reflexivity.
Qed.

(** ** What each handler does to the world *)

Lemma on_connection_run (socket : nat) (remoteAddress : string) (s : World) :
  on_connection socket remoteAddress s
  = (Returned (connectionIdCounter s + 1),
     mkWorld
       (Map_set (connections s) (connectionIdCounter s + 1) (new_record s socket remoteAddress))
       (connectionIdCounter s + 1)
       (sockets s) (clock s) (S (S (ticks s)))
       (wire s ++ [mkSent socket
                     (welcome_frame (connectionIdCounter s + 1) (clock s (S (ticks s))))
                     (writable (sockets s socket))])).
Proof. reflexivity. Qed.

Lemma get_prop_defined (v : JSValue) (k : string) (s : World) :
  nullish v = false -> get_prop v k s = (Returned (prop_of v k), s).
Proof. destruct v; simpl; intros H; try discriminate; reflexivity. Qed.

Lemma get_prop_nullish (v : JSValue) (k : string) (s : World) :
  nullish v = true -> get_prop v k s = (Thrown TypeError, s).
Proof. destruct v; simpl; intros H; try discriminate; reflexivity. Qed.

Section HandlerFacts.

Variable JSON_parse : string -> option JSValue.
Variables (connectionId : Z) (socket : nat) (data : string) (message : JSValue).
Hypothesis parsed : JSON_parse data = Some message.
Hypothesis defined : nullish message = false.

Lemma on_message_dispatch (s : World) :
  on_message JSON_parse connectionId socket data s
  = try_catch
      (let type := prop_of message "type" in
       if strict_eq type (JStr "subscribe") then case_subscribe connectionId socket message
       else if strict_eq type (JStr "unsubscribe") then case_unsubscribe connectionId socket message
       else if strict_eq type (JStr "message") then case_message connectionId message
       else if strict_eq type (JStr "direct") then case_direct connectionId message
       else if strict_eq type (JStr "ping") then case_ping socket
       else case_default socket message)
      (fun error =>
         now <- Date_now ;;
         ws_send socket (error_frame now)) s.
Proof.
  unfold on_message, try_catch, parse. rewrite parsed.
  unfold bind at 1, ret at 1. unfold bind at 1.
  rewrite get_prop_defined by exact defined. reflexivity.
Qed.

Lemma case_subscribe_run (s : World) :
  case_subscribe connectionId socket message s
  = match Map_get (connections s) connectionId with
    | Some _ =>
        (logged (prop_of message "channel"),
         after_send
           (set_connections
              (update_channels (connections s) connectionId
                 (fun cs => Set_add cs (prop_of message "channel"))) s)
           socket (ack_frame "subscribed" (prop_of message "channel")))
    | None => (Returned tt, s)
    end.
Proof.
  unfold case_subscribe. unfold bind at 1, gets at 1.
  destruct (Map_get (connections s) connectionId); [|reflexivity].
  unfold bind at 1. rewrite get_prop_defined by exact defined.
  unfold bind at 1, modify at 1. unfold bind at 1.
  rewrite get_prop_defined by exact defined.
  unfold bind at 1, Date_now at 1. unfold bind at 1, ws_send at 1, modify at 1.
  unfold bind at 1. rewrite get_prop_defined by exact defined.
  unfold template, logged. cbn [forallb]. rewrite andb_true_r.
  destruct (printable (prop_of message "channel")); reflexivity.
Qed.

Lemma case_unsubscribe_run (s : World) :
  case_unsubscribe connectionId socket message s
  = match Map_get (connections s) connectionId with
    | Some _ =>
        (logged (prop_of message "channel"),
         after_send
           (set_connections
              (update_channels (connections s) connectionId
                 (fun cs => Set_delete cs (prop_of message "channel"))) s)
           socket (ack_frame "unsubscribed" (prop_of message "channel")))
    | None => (Returned tt, s)
    end.
Proof.
  unfold case_unsubscribe. unfold bind at 1, gets at 1.
  destruct (Map_get (connections s) connectionId); [|reflexivity].
  unfold bind at 1. rewrite get_prop_defined by exact defined.
  unfold bind at 1, modify at 1. unfold bind at 1.
  rewrite get_prop_defined by exact defined.
  unfold bind at 1, Date_now at 1. unfold bind at 1, ws_send at 1, modify at 1.
  unfold bind at 1. rewrite get_prop_defined by exact defined.
  unfold template, logged. cbn [forallb]. rewrite andb_true_r.
  destruct (printable (prop_of message "channel")); reflexivity.
Qed.

Lemma case_message_run (s : World) :
  case_message connectionId message s
  = (if printable_registry s && printable (target_channel message)
     then Returned tt else Thrown TypeError,
     set_wire
       (wire s ++
        map (deliver s (channel_message_frame (target_channel message) connectionId
                          (prop_of message "data") (clock s (ticks s))))
          (visited s (target_channel message) JNull))
       (set_ticks (S (ticks s)) s)).
Proof.
  unfold case_message. unfold bind at 1. rewrite get_prop_defined by exact defined.
  unfold bind at 1. rewrite get_prop_defined by exact defined.
  unfold bind at 1, Date_now at 1. unfold bind at 1.
  rewrite broadcastToChannel_run.
  change (printable_registry (set_ticks (S (ticks s)) s)) with (printable_registry s).
  fold (target_channel message).
  destruct (printable_registry s && printable (target_channel message)); reflexivity.
Qed.

Lemma case_direct_run (s : World) :
  case_direct connectionId message s
  = match Map_get_value (connections s) (prop_of message "targetId") with
    | Some target =>
        if live s target
        then (Returned tt,
              after_send s (ws target)
                (direct_message_frame connectionId (prop_of message "data")))
        else (Returned tt, s)
    | None => (Returned tt, s)
    end.
Proof.
  unfold case_direct. unfold bind at 1. rewrite get_prop_defined by exact defined.
  unfold bind at 1, gets at 1.
  destruct (Map_get_value (connections s) (prop_of message "targetId")) as [target|];
    [|reflexivity].
  unfold bind at 1, is_open at 1, gets at 1. fold (live s target).
  destruct (live s target); [|reflexivity].
  unfold bind at 1. rewrite get_prop_defined by exact defined. reflexivity.
Qed.

Lemma case_ping_run (s : World) :
  case_ping socket s
  = (Returned tt,
     after_send s socket (fun now => JObj [("type", JStr "pong"); ("timestamp", JNum now)])).
Proof. reflexivity. Qed.

Lemma case_default_run (s : World) :
  case_default socket message s = (Returned tt, after_send s socket (echo_frame message)).
Proof. reflexivity. Qed.

End HandlerFacts.

(** ** Facts on the Map *)

Lemma Map_get_In (m : list (Z * ConnectionInfo)) (k : Z) (c : ConnectionInfo) :
  Map_get m k = Some c -> In (k, c) m.
Proof.
  induction m as [|[k' v] rest IH]; simpl; [discriminate|].
  destruct (Z.eqb_spec k k') as [->|Hne]; intros H.
  - injection H as ->. left; reflexivity.
  - right; auto.
Qed.

Lemma Map_get_value_In (m : list (Z * ConnectionInfo)) (k : JSValue) (c : ConnectionInfo) :
  Map_get_value m k = Some c -> In c (map snd m).
Proof.
  destruct k; simpl; try discriminate.
  intros H. apply Map_get_In in H. change c with (snd (n, c)). apply in_map, H.
Qed.

Lemma Map_get_set_same (m : list (Z * ConnectionInfo)) (k : Z) (v : ConnectionInfo) :
  Map_get (Map_set m k v) k = Some v.
Proof.
  induction m as [|[k' v'] rest IH]; simpl.
  - rewrite Z.eqb_refl. reflexivity.
  - destruct (Z.eqb_spec k k') as [->|Hne]; simpl.
    + rewrite Z.eqb_refl. reflexivity.
    + destruct (Z.eqb_spec k k'); [contradiction|exact IH].
Qed.

Lemma Map_get_delete_same (m : list (Z * ConnectionInfo)) (k : Z) :
  Map_get (Map_delete m k) k = None.
Proof.
  induction m as [|[k' v'] rest IH]; simpl; [reflexivity|].
  destruct (Z.eqb_spec k k') as [->|Hne]; simpl; [exact IH|].
  destruct (Z.eqb_spec k k'); [contradiction|exact IH].
Qed.

Lemma Map_get_None_keys (m : list (Z * ConnectionInfo)) (k : Z) :
  ~ In k (map fst m) -> Map_get m k = None.
Proof.
  induction m as [|[k' v'] rest IH]; simpl; [reflexivity|].
  intros H. destruct (Z.eqb_spec k k') as [->|Hne]; [exfalso; auto|auto].
Qed.

Lemma Map_set_keys (m : list (Z * ConnectionInfo)) (k : Z) (v : ConnectionInfo) (k0 : Z) :
  In k0 (map fst (Map_set m k v)) -> k0 = k \/ In k0 (map fst m).
Proof.
  induction m as [|[k' v'] rest IH]; simpl.
  - intros [H|[]]; auto.
  - destruct (Z.eqb_spec k k') as [->|Hne]; simpl.
    + intros [H|H]; auto.
    + intros [H|H]; auto. destruct (IH H); auto.
Qed.

Lemma Map_set_In (m : list (Z * ConnectionInfo)) (k : Z) (v : ConnectionInfo)
    (e : Z * ConnectionInfo) :
  In e (Map_set m k v) -> e = (k, v) \/ In e m.
Proof.
  induction m as [|[k' v'] rest IH]; simpl.
  - intros [H|[]]; auto.
  - destruct (Z.eqb_spec k k') as [->|Hne]; simpl.
    + intros [H|H]; auto.
    + intros [H|H]; auto. destruct (IH H); auto.
Qed.

Lemma Map_delete_In (m : list (Z * ConnectionInfo)) (k : Z) (e : Z * ConnectionInfo) :
  In e (Map_delete m k) <-> In e m /\ fst e <> k.
Proof.
  unfold Map_delete. rewrite filter_In.
  destruct (Z.eqb_spec k (fst e)); simpl; split; intros [H1 H2]; split; auto; congruence.
Qed.

Lemma update_channels_keys (m : list (Z * ConnectionInfo)) (k : Z)
    (f : list JSValue -> list JSValue) :
  map fst (update_channels m k f) = map fst m.
Proof.
  induction m as [|[k' v] rest IH]; simpl; [reflexivity|].
  destruct (Z.eqb k k'); simpl; [reflexivity|]. rewrite IH. reflexivity.
Qed.

Lemma update_channels_In (m : list (Z * ConnectionInfo)) (k : Z)
    (f : list JSValue -> list JSValue) (e : Z * ConnectionInfo) :
  In e (update_channels m k f) ->
  exists c, In (fst e, c) m /\ id (snd e) = id c /\ ws (snd e) = ws c.
Proof.
  induction m as [|[k' v] rest IH]; simpl; [intros []|].
  destruct (Z.eqb k k'); simpl.
  - intros [<-|H]; simpl.
    + exists v. auto.
    + exists (snd e). destruct e; auto.
  - intros [<-|H]; simpl.
    + exists v. auto.
    + destruct (IH H) as (c & Hc & Hi). exists c. auto.
Qed.

Lemma update_channels_get (m : list (Z * ConnectionInfo)) (k : Z)
    (f : list JSValue -> list JSValue) (c : ConnectionInfo) :
  Map_get m k = Some c ->
  Map_get (update_channels m k f) k
  = Some (mkConnectionInfo (id c) (ws c) (ip c) (f (channels c)) (connectedAt c)).
Proof.
  induction m as [|[k' v] rest IH]; simpl; [discriminate|].
  destruct (Z.eqb_spec k k') as [->|Hne]; simpl.
  - rewrite Z.eqb_refl. intros H; injection H as ->. reflexivity.
  - destruct (Z.eqb_spec k k'); [contradiction|exact IH].
Qed.

Lemma update_channels_get_other (m : list (Z * ConnectionInfo)) (k k0 : Z)
    (f : list JSValue -> list JSValue) :
  k0 <> k -> Map_get (update_channels m k f) k0 = Map_get m k0.
Proof.
  intros Hne. induction m as [|[k' v] rest IH]; simpl; [reflexivity|].
  destruct (Z.eqb_spec k k') as [->|Hne']; simpl.
  - destruct (Z.eqb_spec k0 k'); [contradiction|reflexivity].
  - destruct (Z.eqb k0 k'); [reflexivity|exact IH].
Qed.

Lemma update_channels_same (m : list (Z * ConnectionInfo)) (k : Z)
    (f : list JSValue -> list JSValue) (c : ConnectionInfo) :
  Map_get m k = Some c -> f (channels c) = channels c -> update_channels m k f = m.
Proof.
  induction m as [|[k' v] rest IH]; simpl; [discriminate|].
  destruct (Z.eqb_spec k k') as [->|Hne]; intros H Hf.
  - injection H as ->. rewrite Hf. destruct c; reflexivity.
  - rewrite IH by assumption. reflexivity.
Qed.

(** ** Facts on the channel Set *)

Lemma Set_delete_absent (xs : list JSValue) (v : JSValue) :
  Set_has xs v = false -> Set_delete xs v = xs.
Proof.
  unfold Set_has, Set_delete. induction xs as [|x rest IH]; simpl; [reflexivity|].
  destruct (same_value_zero v x); simpl; [discriminate|].
  intros H. rewrite IH by exact H. reflexivity.
Qed.

Lemma Set_has_delete (xs : list JSValue) (v : JSValue) :
  Set_has (Set_delete xs v) v = false.
Proof.
  unfold Set_has, Set_delete. induction xs as [|x rest IH]; simpl; [reflexivity|].
  destruct (same_value_zero v x) eqn:E; simpl; [exact IH|].
  rewrite E. exact IH.
Qed.

Lemma Set_has_add (xs : list JSValue) (v : JSValue) :
  same_value_zero v v = true -> Set_has (Set_add xs v) v = true.
Proof.
  intros Hv. unfold Set_add. destruct (Set_has xs v) eqn:E; [exact E|].
  unfold Set_has. rewrite existsb_app. simpl. rewrite Hv.
  rewrite orb_true_r. reflexivity.
Qed.

(** ** Facts on the log of writes *)

Lemma sends_to_app (socket : nat) (w1 w2 : list Sent) :
  sends_to socket (w1 ++ w2) = sends_to socket w1 ++ sends_to socket w2.
Proof. apply filter_app. Qed.

Lemma sends_to_other (socket : nat) (w : list Sent) :
  Forall (fun e => dest e <> socket) w -> sends_to socket w = [].
Proof.
  induction 1 as [|e rest He _ IH]; simpl; [reflexivity|].
  destruct (Nat.eqb_spec (dest e) socket); [contradiction|exact IH].
Qed.

Lemma deliver_dests (s : World) (message : JSValue) (rs : list ConnectionInfo) :
  map dest (map (deliver s message) rs) = map ws rs.
Proof. rewrite map_map. reflexivity. Qed.

Lemma stamped_dests (s : World) (frame : Z -> JSValue) (rs : list ConnectionInfo) :
  forall t, map dest (stamped s frame t rs) = map ws rs.
Proof.
  induction rs as [|c rest IH]; intros t; simpl; [reflexivity|].
  rewrite IH. reflexivity.
Qed.

Lemma stamped_payloads (s : World) (frame : Z -> JSValue) (rs : list ConnectionInfo) :
  forall t, Forall (fun e => exists now, payload e = frame now) (stamped s frame t rs).
Proof.
  induction rs as [|c rest IH]; intros t; simpl; constructor.
  - exists (clock s t). reflexivity.
  - apply IH.
Qed.

Lemma dests_other (socket : nat) (w : list Sent) :
  ~ In socket (map dest w) -> Forall (fun e => dest e <> socket) w.
Proof.
  intros H. apply Forall_forall. intros e He Heq. apply H.
  rewrite <- Heq. apply in_map, He.
Qed.

(** One write per qualifying record: when the records hold distinct
    sockets, the socket of a record gets one copy if the record qualifies
    and none otherwise. *)
Lemma sends_to_deliver (s : World) (message : JSValue) (q : ConnectionInfo -> bool)
    (rs : list ConnectionInfo) :
  NoDup (map ws rs) ->
  forall conn, In conn rs ->
    sends_to (ws conn) (map (deliver s message) (filter q rs))
    = if q conn then [deliver s message conn] else [].
Proof.
  induction rs as [|c rest IH]; simpl; intros Hnd conn Hin; [contradiction|].
  inversion Hnd as [|? ? Hnotin Hnd']; subst.
  assert (Hrest : forall h, ~ In h (map ws rest) ->
            sends_to h (map (deliver s message) (filter q rest)) = []).
  { intros h Hh. apply sends_to_other, dests_other.
    rewrite deliver_dests. intros Hc. apply Hh.
    apply in_map_iff in Hc as (x & Hx & Hxin).
    apply filter_In in Hxin as [Hxin _]. rewrite <- Hx. apply in_map, Hxin. }
  destruct Hin as [->|Hin].
  - destruct (q conn); simpl.
    + rewrite Nat.eqb_refl, Hrest by exact Hnotin. reflexivity.
    + apply Hrest, Hnotin.
  - assert (Hne : ws c <> ws conn).
    { intros Heq. apply Hnotin. rewrite Heq. apply in_map, Hin. }
    destruct (q c); simpl.
    + destruct (Nat.eqb_spec (ws c) (ws conn)); [contradiction|]. apply IH; assumption.
    + apply IH; assumption.
Qed.

(** ** The effect of an inbound frame, whatever its content *)

Lemma on_message_malformed (JSON_parse : string -> option JSValue)
    (connectionId : Z) (socket : nat) (data : string) (s : World) :
  JSON_parse data = None ->
  on_message JSON_parse connectionId socket data s
  = (Returned tt, after_send s socket error_frame).
Proof.
  intros Hp. unfold on_message, try_catch, parse. rewrite Hp. reflexivity.
Qed.

Lemma on_message_nullish (JSON_parse : string -> option JSValue)
    (connectionId : Z) (socket : nat) (data : string) (message : JSValue) (s : World) :
  JSON_parse data = Some message -> nullish message = true ->
  on_message JSON_parse connectionId socket data s
  = (Returned tt, after_send s socket error_frame).
Proof.
  intros Hp Hn. unfold on_message, try_catch, parse. rewrite Hp.
  unfold bind at 1, ret at 1. unfold bind at 1.
  rewrite get_prop_nullish by exact Hn. reflexivity.
Qed.

Lemma effect_none (connectionId : Z) (socket : nat) (s : World) :
  message_effect connectionId socket s s.
Proof.
  split; [left; reflexivity|]. split; [reflexivity|]. split; [reflexivity|].
  exists []. split; [symmetry; apply app_nil_r|constructor].
Qed.

Lemma effect_reply (connectionId : Z) (socket : nat) (s s1 : World) (frame : Z -> JSValue) :
  message_effect connectionId socket s s1 ->
  message_effect connectionId socket s (after_send s1 socket frame).
Proof.
  intros (Hc & Hn & Hs & new & Hw & Hd).
  split; [exact Hc|]. split; [exact Hn|]. split; [exact Hs|].
  eexists. split.
  - unfold after_send. cbn [wire set_wire set_ticks]. rewrite Hw, <- app_assoc. reflexivity.
  - apply Forall_app. split; [exact Hd|]. constructor; [left; reflexivity|constructor].
Qed.

Lemma effect_channels (connectionId : Z) (socket : nat) (s : World)
    (f : list JSValue -> list JSValue) :
  message_effect connectionId socket s
    (set_connections (update_channels (connections s) connectionId f) s).
Proof.
  split; [right; exists f; reflexivity|]. split; [reflexivity|]. split; [reflexivity|].
  exists []. split; [symmetry; apply app_nil_r|constructor].
Qed.

Lemma effect_fanout (connectionId : Z) (socket : nat) (s : World) (frame : JSValue)
    (rs : list ConnectionInfo) (n : nat) :
  incl rs (records s) ->
  message_effect connectionId socket s
    (set_wire (wire s ++ map (deliver s frame) rs) (set_ticks n s)).
Proof.
  intros Hi. split; [left; reflexivity|]. split; [reflexivity|]. split; [reflexivity|].
  eexists. split; [reflexivity|]. apply Forall_forall. intros e He.
  apply in_map_iff in He as (r & <- & Hr). right. simpl. apply in_map, Hi, Hr.
Qed.

Lemma effect_direct (connectionId : Z) (socket : nat) (s : World)
    (target : ConnectionInfo) (frame : Z -> JSValue) :
  In target (records s) ->
  message_effect connectionId socket s (after_send s (ws target) frame).
Proof.
  intros Hin. split; [left; reflexivity|]. split; [reflexivity|]. split; [reflexivity|].
  eexists. split; [reflexivity|]. constructor; [|constructor].
  right. simpl. apply in_map, Hin.
Qed.

(** What [try ... catch] makes of the outcome of a case. *)
Lemma try_catch_run (body : M unit) (socket : nat) (s : World) :
  try_catch body
    (fun error => now <- Date_now ;; ws_send socket (error_frame now)) s
  = match body s with
    | (Returned a, s') => (Returned a, s')
    | (Thrown _, s') => (Returned tt, after_send s' socket error_frame)
    end.
Proof.
  unfold try_catch. destruct (body s) as [[a|e] s']; reflexivity.
Qed.

(** The message handler always returns: every exception of its body is
    caught, and the reply of the catch block cannot throw. *)
Lemma on_message_effect (JSON_parse : string -> option JSValue)
    (connectionId : Z) (socket : nat) (data : string) (s : World) :
  fst (on_message JSON_parse connectionId socket data s) = Returned tt
  /\ message_effect connectionId socket s
       (snd (on_message JSON_parse connectionId socket data s)).
Proof.
  destruct (JSON_parse data) as [message|] eqn:Hp.
  - destruct (nullish message) eqn:Hn.
    + rewrite on_message_nullish with (message := message) by assumption.
      split; [reflexivity|]. apply effect_reply, effect_none.
    + rewrite (on_message_dispatch _ _ _ _ _ Hp Hn). rewrite try_catch_run. cbv zeta.
      destruct (strict_eq (prop_of message "type") (JStr "subscribe")).
      { rewrite case_subscribe_run by exact Hn.
        destruct (Map_get (connections s) connectionId);
          [|split; [reflexivity|apply effect_none]].
        unfold logged. destruct (printable (prop_of message "channel"));
          (split; [reflexivity|]); cbn [snd];
          repeat apply effect_reply; apply effect_channels. }
      destruct (strict_eq (prop_of message "type") (JStr "unsubscribe")).
      { rewrite case_unsubscribe_run by exact Hn.
        destruct (Map_get (connections s) connectionId);
          [|split; [reflexivity|apply effect_none]].
        unfold logged. destruct (printable (prop_of message "channel"));
          (split; [reflexivity|]); cbn [snd];
          repeat apply effect_reply; apply effect_channels. }
      destruct (strict_eq (prop_of message "type") (JStr "message")).
      { rewrite case_message_run by exact Hn.
        assert (Hi : incl (visited s (target_channel message) JNull) (records s)).
        { intros r Hr. apply visited_In in Hr as [Hin _]. exact Hin. }
        destruct (printable_registry s && printable (target_channel message));
          (split; [reflexivity|]); cbn [snd];
          [|apply effect_reply]; apply effect_fanout, Hi. }
      destruct (strict_eq (prop_of message "type") (JStr "direct")).
      { rewrite case_direct_run by exact Hn.
        destruct (Map_get_value (connections s) (prop_of message "targetId"))
          as [target|] eqn:Ht; [|split; [reflexivity|apply effect_none]].
        destruct (live s target); split; try reflexivity.
        - apply effect_direct. eapply Map_get_value_In, Ht.
        - apply effect_none. }
      destruct (strict_eq (prop_of message "type") (JStr "ping")).
      { rewrite case_ping_run. split; [reflexivity|]. apply effect_reply, effect_none. }
      rewrite case_default_run. split; [reflexivity|]. apply effect_reply, effect_none.
  - rewrite on_message_malformed by exact Hp.
    split; [reflexivity|]. apply effect_reply, effect_none.
Qed.

(** ** The counter of ids *)

Lemma message_effect_counter (connectionId : Z) (socket : nat) (s s' : World) :
  message_effect connectionId socket s s' ->
  connectionIdCounter s' = connectionIdCounter s.
Proof. intros (_ & H & _). exact H. Qed.

Lemma api_broadcast_defined (body : JSValue) (s : World) :
  nullish body = false -> api_broadcast body s = api_broadcast (JObj (props_of body)) s.
Proof. destruct body; simpl; intros H; try discriminate; reflexivity. Qed.

Lemma api_broadcast_nullish (body : JSValue) (s : World) :
  nullish body = true -> api_broadcast body s = (Thrown TypeError, s).
Proof. destruct body; simpl; intros H; try discriminate; reflexivity. Qed.

Lemma dispatch_counter (JSON_parse : string -> option JSValue) (e : Event) (s : World) :
  match fst (dispatch JSON_parse e s) with
  | Some i =>
      i = connectionIdCounter s + 1
      /\ connectionIdCounter (snd (dispatch JSON_parse e s)) = i
  | None => connectionIdCounter (snd (dispatch JSON_parse e s)) = connectionIdCounter s
  end.
Proof.
  destruct e; cbn [dispatch fst snd].
  - rewrite on_connection_run. simpl. auto.
  - eapply message_effect_counter, on_message_effect.
  - reflexivity.
  - reflexivity.
  - destruct (nullish body) eqn:Hn.
    + rewrite api_broadcast_nullish by exact Hn. reflexivity.
    + rewrite api_broadcast_defined, api_broadcast_run by exact Hn. reflexivity.
  - rewrite heartbeat_run. reflexivity.
  - reflexivity.
Qed.

Lemma run_cons (JSON_parse : string -> option JSValue) (e : Event) (es : list Event)
    (s : World) :
  run JSON_parse (e :: es) s
  = (match fst (dispatch JSON_parse e s) with
     | Some i => i :: fst (run JSON_parse es (snd (dispatch JSON_parse e s)))
     | None => fst (run JSON_parse es (snd (dispatch JSON_parse e s)))
     end,
     snd (run JSON_parse es (snd (dispatch JSON_parse e s)))).
Proof.
  cbn [run]. destruct (dispatch JSON_parse e s) as [r s']. cbn [fst snd].
  destruct (run JSON_parse es s') as [ids s'']. reflexivity.
Qed.

Lemma run_ids_above (JSON_parse : string -> option JSValue) (es : list Event) :
  forall s : World,
    StronglySorted Z.lt (fst (run JSON_parse es s))
    /\ Forall (fun i => connectionIdCounter s < i) (fst (run JSON_parse es s)).
Proof.
  induction es as [|e rest IH]; intros s.
  - simpl. split; constructor.
  - rewrite run_cons. cbn [fst].
    pose proof (dispatch_counter JSON_parse e s) as Hc.
    destruct (IH (snd (dispatch JSON_parse e s))) as [Hs Ha].
    destruct (fst (dispatch JSON_parse e s)) as [i|].
    + destruct Hc as [Hi Hc']. rewrite Hc' in Ha. split.
      * constructor; assumption.
      * constructor; [lia|].
        eapply Forall_impl; [|exact Ha]. simpl. intros; lia.
    + rewrite Hc in Ha. split; assumption.
Qed.

Lemma StronglySorted_lt_NoDup (l : list Z) : StronglySorted Z.lt l -> NoDup l.
Proof.
  induction 1 as [|a l Hs IH Ha]; constructor; [|exact IH].
  intros Hin. rewrite Forall_forall in Ha. specialize (Ha a Hin). lia.
Qed.

(** ** A connection that has gone *)

Lemma Map_get_None_iff (m : list (Z * ConnectionInfo)) (k : Z) :
  Map_get m k = None <-> ~ In k (map fst m).
Proof.
  split; [|apply Map_get_None_keys].
  induction m as [|[k' v'] rest IH]; simpl; [auto|].
  destruct (Z.eqb_spec k k') as [->|Hne]; [discriminate|].
  intros H [Heq|Hin]; [congruence|]. exact (IH H Hin).
Qed.

Lemma absent_fanout (socket : nat) (s : World) (w : list Sent) :
  absent socket s -> incl (map dest w) (map ws (records s)) ->
  sends_to socket w = [].
Proof.
  intros Ha Hi. apply sends_to_other, dests_other. intros Hin.
  apply Hi in Hin. apply in_map_iff in Hin as (c & Hc & Hcin).
  unfold absent in Ha. rewrite Forall_forall in Ha. exact (Ha c Hcin Hc).
Qed.

Lemma absent_fanout_app (socket : nat) (s : World) (w0 w : list Sent) :
  absent socket s -> incl (map dest w) (map ws (records s)) ->
  sends_to socket (w0 ++ w) = sends_to socket w0.
Proof.
  intros Ha Hi. rewrite sends_to_app, (absent_fanout socket s w Ha Hi). apply app_nil_r.
Qed.

Lemma incl_map_filter {A B} (f : A -> B) (q : A -> bool) (l : list A) :
  incl (map f (filter q l)) (map f l).
Proof.
  intros x Hx. apply in_map_iff in Hx as (a & Ha & Hin).
  apply filter_In in Hin as [Hin _]. rewrite <- Ha. apply in_map, Hin.
Qed.

Lemma sends_to_after_send (socket h : nat) (s : World) (frame : Z -> JSValue) :
  h <> socket ->
  sends_to socket (wire (after_send s h frame)) = sends_to socket (wire s).
Proof.
  intros Hne. unfold after_send. simpl. rewrite sends_to_app. simpl.
  destruct (Nat.eqb_spec h socket); [contradiction|]. apply app_nil_r.
Qed.

Lemma message_effect_gone (connectionId0 : Z) (socket0 : nat) (connectionId : Z)
    (socket : nat) (s s' : World) :
  message_effect connectionId0 socket0 s s' ->
  socket0 <> socket -> absent socket s -> removed connectionId s ->
  absent socket s' /\ removed connectionId s'
  /\ sends_to socket (wire s') = sends_to socket (wire s).
Proof.
  intros (Hc & Hn & _ & new & Hw & Hd) Hne Ha [Hg Hle].
  assert (Hwire : sends_to socket (wire s') = sends_to socket (wire s)).
  { rewrite Hw, sends_to_app, (sends_to_other socket new), app_nil_r; [reflexivity|].
    eapply Forall_impl; [|exact Hd]. simpl. intros e [He|He] Heq.
    - apply Hne. congruence.
    - rewrite Heq in He. apply in_map_iff in He as (c & Hc' & Hcin).
      unfold absent in Ha. rewrite Forall_forall in Ha. exact (Ha c Hcin Hc'). }
  destruct Hc as [Hc|[f Hc]].
  - unfold absent, removed, records. rewrite Hc, Hn. auto.
  - repeat split.
    + unfold absent, records. rewrite Hc. apply Forall_forall.
      intros c Hcin. apply in_map_iff in Hcin as ([k c'] & <- & Hcin).
      apply update_channels_In in Hcin as (c0 & Hc0 & _ & Hws). simpl in *.
      rewrite Hws. unfold absent in Ha. rewrite Forall_forall in Ha.
      apply Ha. unfold records. change c0 with (snd (k, c0)). apply in_map, Hc0.
    + rewrite Hc. apply Map_get_None_iff. rewrite update_channels_keys.
      apply Map_get_None_iff, Hg.
    + rewrite Hn. exact Hle.
    + exact Hwire.
Qed.

Lemma Map_get_set_other (m : list (Z * ConnectionInfo)) (k k0 : Z) (v : ConnectionInfo) :
  k0 <> k -> Map_get (Map_set m k v) k0 = Map_get m k0.
Proof.
  intros Hne. induction m as [|[k' v'] rest IH]; simpl.
  - destruct (Z.eqb_spec k0 k); [contradiction|reflexivity].
  - destruct (Z.eqb_spec k k') as [->|Hne']; simpl.
    + destruct (Z.eqb_spec k0 k'); [contradiction|reflexivity].
    + destruct (Z.eqb k0 k'); [reflexivity|exact IH].
Qed.

Lemma dispatch_gone (JSON_parse : string -> option JSValue) (connectionId : Z)
    (socket : nat) (e : Event) (s : World) :
  quiet socket e -> absent socket s -> removed connectionId s ->
  absent socket (snd (dispatch JSON_parse e s))
  /\ removed connectionId (snd (dispatch JSON_parse e s))
  /\ sends_to socket (wire (snd (dispatch JSON_parse e s))) = sends_to socket (wire s).
Proof.
  intros Hq Ha Hr. pose proof Hr as [Hg Hle].
  destruct e; cbn [dispatch quiet fst snd] in Hq |- *.
  - rewrite on_connection_run. cbn [fst snd]. repeat split.
    + unfold absent, records. simpl. apply Forall_forall.
      intros c Hc. apply in_map_iff in Hc as (e & <- & He).
      apply Map_set_In in He as [->|He]; [exact Hq|].
      unfold absent in Ha. rewrite Forall_forall in Ha. apply Ha, in_map, He.
    + simpl. rewrite Map_get_set_other by lia. exact Hg.
    + simpl. lia.
    + cbn [wire]. rewrite sends_to_app. simpl.
      destruct (Nat.eqb_spec socket0 socket); [contradiction|]. apply app_nil_r.
  - eapply message_effect_gone; eauto. apply on_message_effect.
  - repeat split; simpl; try assumption.
    + unfold absent, records. simpl. apply Forall_forall.
      intros c Hc. apply in_map_iff in Hc as (e & <- & He).
      apply Map_delete_In in He as [He _].
      unfold absent in Ha. rewrite Forall_forall in Ha. apply Ha, in_map, He.
    + apply Map_get_None_iff. intros Hin.
      apply in_map_iff in Hin as (e & He1 & He2).
      apply Map_delete_In in He2 as [He2 _].
      apply Map_get_None_iff in Hg. apply Hg. rewrite <- He1. apply in_map, He2.
  - repeat split; assumption.
  - destruct (nullish body) eqn:Hn.
    + rewrite api_broadcast_nullish by exact Hn. repeat split; assumption.
    + rewrite api_broadcast_defined, api_broadcast_run by exact Hn.
      repeat split; try assumption.
      simpl. apply (absent_fanout_app socket s); [exact Ha|].
      rewrite stamped_dests. apply incl_map_filter.
  - rewrite heartbeat_run. repeat split; try assumption.
    simpl. apply (absent_fanout_app socket s); [exact Ha|].
    rewrite stamped_dests. apply incl_map_filter.
  - repeat split; assumption.
Qed.

Lemma run_gone (JSON_parse : string -> option JSValue) (connectionId : Z)
    (socket : nat) (es : list Event) :
  forall s : World,
    Forall (quiet socket) es -> absent socket s -> removed connectionId s ->
    absent socket (snd (run JSON_parse es s))
    /\ removed connectionId (snd (run JSON_parse es s))
    /\ sends_to socket (wire (snd (run JSON_parse es s))) = sends_to socket (wire s).
Proof.
  induction es as [|e rest IH]; intros s Hq Ha Hr.
  - simpl. auto.
  - rewrite run_cons. cbn [snd].
    inversion Hq as [|? ? Hqe Hqrest]; subst.
    destruct (dispatch_gone JSON_parse connectionId socket e s Hqe Ha Hr) as (Ha' & Hr' & Hw').
    destruct (IH _ Hqrest Ha' Hr') as (Ha'' & Hr'' & Hw'').
    repeat split; try assumption; try apply Hr''. congruence.
Qed.

(** ** The example world *)

Example demo_world_connections :
  connections demo_world
  = [(1, mkConnectionInfo 1 0 "10.0.0.1" [JStr "default"; JStr "gaming"] 1000);
     (2, mkConnectionInfo 2 1 "10.0.0.2" [JStr "default"; JStr "gaming"] 1002);
     (3, mkConnectionInfo 3 2 "10.0.0.3" [JStr "default"] 1004);
     (4, mkConnectionInfo 4 3 "10.0.0.4" [JStr "default"] 1006)].
Proof. reflexivity. Qed.

Example demo_world_ids :
  fst (run demo_parse demo_events (initial demo_sockets demo_clock)) = [1; 2; 3; 4].
Proof. reflexivity. Qed.

(** ** The Registry stores every record under its own id *)

Lemma initial_keys_are_ids (sockets0 : nat -> WebSocket) (clock0 : nat -> Z) :
  keys_are_ids (initial sockets0 clock0).
Proof. constructor. Qed.

Lemma message_effect_keys_are_ids (connectionId : Z) (socket : nat) (s s' : World) :
  message_effect connectionId socket s s' -> keys_are_ids s -> keys_are_ids s'.
Proof.
  intros ([Hc|[f Hc]] & _) Hk; unfold keys_are_ids in *; rewrite Hc; [exact Hk|].
  rewrite Forall_forall in *.
  intros e Hin. apply update_channels_In in Hin as (c & Hc' & Hid & _).
  rewrite Hid. exact (Hk _ Hc').
Qed.

Lemma dispatch_keys_are_ids (JSON_parse : string -> option JSValue) (e : Event) (s : World) :
  keys_are_ids s -> keys_are_ids (snd (dispatch JSON_parse e s)).
Proof.
  intros Hk. destruct e; cbn [dispatch fst snd].
  - rewrite on_connection_run. cbn [snd]. unfold keys_are_ids in *. cbn [connections].
    rewrite Forall_forall in *. intros e Hin.
    apply Map_set_In in Hin as [->|Hin]; [reflexivity|exact (Hk _ Hin)].
  - eapply message_effect_keys_are_ids; [apply on_message_effect|exact Hk].
  - unfold keys_are_ids in *. simpl. rewrite Forall_forall in *.
    intros e Hin. apply Map_delete_In in Hin as [Hin _]. exact (Hk _ Hin).
  - exact Hk.
  - destruct (nullish body) eqn:Hn.
    + rewrite api_broadcast_nullish by exact Hn. exact Hk.
    + rewrite api_broadcast_defined, api_broadcast_run by exact Hn. exact Hk.
  - rewrite heartbeat_run. exact Hk.
  - exact Hk.
Qed.

Lemma run_keys_are_ids (JSON_parse : string -> option JSValue) (es : list Event) :
  forall s : World, keys_are_ids s -> keys_are_ids (snd (run JSON_parse es s)).
Proof.
  induction es as [|e rest IH]; intros s Hk; [exact Hk|].
  rewrite run_cons. cbn [snd]. apply IH, dispatch_keys_are_ids, Hk.
Qed.

(** ** The message handler on the three channel cases *)

Lemma caught_try_catch (body : M unit) (socket : nat) (s : World) :
  try_catch body
    (fun error => now <- Date_now ;; ws_send socket (error_frame now)) s
  = caught (fst (body s)) socket (snd (body s)).
Proof.
  rewrite try_catch_run. destruct (body s) as [[a|e] s']; reflexivity.
Qed.

Lemma on_message_subscribe_run
    (JSON_parse : string -> option JSValue) (connectionId : Z) (socket : nat)
    (data : string) (message : JSValue) (s : World) :
  JSON_parse data = Some message ->
  nullish message = false ->
  prop_of message "type" = JStr "subscribe" ->
  on_message JSON_parse connectionId socket data s
  = match Map_get (connections s) connectionId with
    | Some _ =>
        caught (logged (prop_of message "channel")) socket
          (after_send
             (set_connections
                (update_channels (connections s) connectionId
                   (fun cs => Set_add cs (prop_of message "channel"))) s)
             socket (ack_frame "subscribed" (prop_of message "channel")))
    | None => (Returned tt, s)
    end.
Proof.
  intros Hp Hn Ht.
  rewrite on_message_dispatch with (message := message) by assumption.
  rewrite caught_try_catch. cbv zeta. rewrite Ht.
  cbn [strict_eq String.eqb Ascii.eqb Bool.eqb].
  rewrite case_subscribe_run by exact Hn.
  destruct (Map_get (connections s) connectionId); reflexivity.
Qed.

Lemma on_message_unsubscribe_run
    (JSON_parse : string -> option JSValue) (connectionId : Z) (socket : nat)
    (data : string) (message : JSValue) (s : World) :
  JSON_parse data = Some message ->
  nullish message = false ->
  prop_of message "type" = JStr "unsubscribe" ->
  on_message JSON_parse connectionId socket data s
  = match Map_get (connections s) connectionId with
    | Some _ =>
        caught (logged (prop_of message "channel")) socket
          (after_send
             (set_connections
                (update_channels (connections s) connectionId
                   (fun cs => Set_delete cs (prop_of message "channel"))) s)
             socket (ack_frame "unsubscribed" (prop_of message "channel")))
    | None => (Returned tt, s)
    end.
Proof.
  intros Hp Hn Ht.
  rewrite on_message_dispatch with (message := message) by assumption.
  rewrite caught_try_catch. cbv zeta. rewrite Ht.
  cbn [strict_eq String.eqb Ascii.eqb Bool.eqb].
  rewrite case_unsubscribe_run by exact Hn.
  destruct (Map_get (connections s) connectionId); reflexivity.
Qed.

Lemma on_message_message_run
    (JSON_parse : string -> option JSValue) (connectionId : Z) (socket : nat)
    (data : string) (message : JSValue) (s : World) :
  JSON_parse data = Some message ->
  nullish message = false ->
  prop_of message "type" = JStr "message" ->
  on_message JSON_parse connectionId socket data s
  = caught (if printable_registry s && printable (target_channel message)
            then Returned tt else Thrown TypeError)
      socket
      (set_wire
         (wire s ++
          map (deliver s (channel_message_frame (target_channel message) connectionId
                            (prop_of message "data") (clock s (ticks s))))
            (visited s (target_channel message) JNull))
         (set_ticks (S (ticks s)) s)).
Proof.
  intros Hp Hn Ht.
  rewrite on_message_dispatch with (message := message) by assumption.
  rewrite caught_try_catch. cbv zeta. rewrite Ht.
  cbn [strict_eq String.eqb Ascii.eqb Bool.eqb].
  rewrite case_message_run by exact Hn. reflexivity.
Qed.

Lemma on_message_message_run_printable
    (JSON_parse : string -> option JSValue) (connectionId : Z) (socket : nat)
    (data : string) (message : JSValue) (s : World) :
  JSON_parse data = Some message ->
  nullish message = false ->
  prop_of message "type" = JStr "message" ->
  printable_registry s = true ->
  printable (target_channel message) = true ->
  on_message JSON_parse connectionId socket data s
  = (Returned tt,
     set_wire
       (wire s ++
        map (deliver s (channel_message_frame (target_channel message) connectionId
                          (prop_of message "data") (clock s (ticks s))))
          (recipients s (target_channel message) JNull))
       (set_ticks (S (ticks s)) s)).
Proof.
  intros Hp Hn Ht Hreg Hc.
  rewrite (on_message_message_run _ _ _ _ _ _ Hp Hn Ht).
  rewrite Hreg, Hc, visited_all by exact Hreg. reflexivity.
Qed.

Lemma on_message_subscribe_run_printable
    (JSON_parse : string -> option JSValue) (connectionId : Z) (socket : nat)
    (data : string) (message : JSValue) (record : ConnectionInfo) (s : World) :
  JSON_parse data = Some message ->
  nullish message = false ->
  prop_of message "type" = JStr "subscribe" ->
  Map_get (connections s) connectionId = Some record ->
  printable (prop_of message "channel") = true ->
  on_message JSON_parse connectionId socket data s
  = (Returned tt,
     after_send
       (set_connections
          (update_channels (connections s) connectionId
             (fun cs => Set_add cs (prop_of message "channel"))) s)
       socket (ack_frame "subscribed" (prop_of message "channel"))).
Proof.
  intros Hp Hn Ht Hg Hc.
  rewrite (on_message_subscribe_run _ _ _ _ _ _ Hp Hn Ht), Hg.
  unfold logged. rewrite Hc. reflexivity.
Qed.

Lemma on_message_unsubscribe_run_printable
    (JSON_parse : string -> option JSValue) (connectionId : Z) (socket : nat)
    (data : string) (message : JSValue) (record : ConnectionInfo) (s : World) :
  JSON_parse data = Some message ->
  nullish message = false ->
  prop_of message "type" = JStr "unsubscribe" ->
  Map_get (connections s) connectionId = Some record ->
  printable (prop_of message "channel") = true ->
  on_message JSON_parse connectionId socket data s
  = (Returned tt,
     after_send
       (set_connections
          (update_channels (connections s) connectionId
             (fun cs => Set_delete cs (prop_of message "channel"))) s)
       socket (ack_frame "unsubscribed" (prop_of message "channel"))).
Proof.
  intros Hp Hn Ht Hg Hc.
  rewrite (on_message_unsubscribe_run _ _ _ _ _ _ Hp Hn Ht), Hg.
  unfold logged. rewrite Hc. reflexivity.
Qed.

Lemma Set_add_printable (cs : list JSValue) (v : JSValue) :
  forallb printable cs = true -> printable v = true ->
  forallb printable (Set_add cs v) = true.
Proof.
  intros Hcs Hv. unfold Set_add. destruct (Set_has cs v); [exact Hcs|].
  rewrite forallb_app, Hcs. simpl. rewrite Hv. reflexivity.
Qed.

Lemma update_channels_printable (m : list (Z * ConnectionInfo)) (k : Z)
    (f : list JSValue -> list JSValue) :
  (forall cs, forallb printable cs = true -> forallb printable (f cs) = true) ->
  forallb printable_record (map snd m) = true ->
  forallb printable_record (map snd (update_channels m k f)) = true.
Proof.
  intros Hf. induction m as [|[k' v] rest IH]; simpl; [reflexivity|].
  rewrite andb_true_iff. intros [Hv Hrest].
  destruct (Z.eqb k k'); simpl; rewrite andb_true_iff; split; auto.
  unfold printable_record in *. simpl. apply Hf, Hv.
Qed.

(** ** Channels that have no string form *)

Lemma unprintable_is_fresh (cs : list JSValue) (v : JSValue) :
  printable v = false -> Set_has cs v = false.
Proof.
  intros Hv. unfold Set_has, same_value_zero.
  induction cs as [|c rest IH]; [reflexivity|]. simpl. rewrite IH, orb_false_r.
  destruct v; try discriminate Hv; reflexivity.
Qed.

Lemma Set_add_unprintable (cs : list JSValue) (v : JSValue) :
  printable v = false -> forallb printable (Set_add cs v) = false.
Proof.
  intros Hv. unfold Set_add. rewrite unprintable_is_fresh by exact Hv.
  rewrite forallb_app. simpl. rewrite Hv. apply andb_false_r.
Qed.

Lemma update_channels_unprintable (m : list (Z * ConnectionInfo)) (k : Z)
    (f : list JSValue -> list JSValue) (r : ConnectionInfo) :
  Map_get m k = Some r ->
  forallb printable (f (channels r)) = false ->
  forallb printable_record (map snd (update_channels m k f)) = false.
Proof.
  induction m as [|[k' v] rest IH]; simpl; [discriminate|].
  intros Hg Hf. destruct (Z.eqb k k').
  - injection Hg as ->. simpl. unfold printable_record at 1. simpl. rewrite Hf. reflexivity.
  - simpl. rewrite (IH Hg Hf). apply andb_false_r.
Qed.

Lemma reached_prefix (before after : list ConnectionInfo) (conn : ConnectionInfo) :
  forallb printable_record before = true ->
  printable_record conn = false ->
  reached (before ++ conn :: after) = before.
Proof.
  intros Hb Hc. induction before as [|b rest IH]; simpl.
  - rewrite Hc. reflexivity.
  - simpl in Hb. apply andb_true_iff in Hb as [Hb Hrest].
    rewrite Hb, (IH Hrest). reflexivity.
Qed.

(** The catch block leaves the Registry, the counter and the sockets as
    the case left them. *)
Lemma caught_connections (outcome : Outcome unit) (socket : nat) (s : World) :
  connections (snd (caught outcome socket s)) = connections s.
Proof. destruct outcome; reflexivity. Qed.

Lemma caught_counter (outcome : Outcome unit) (socket : nat) (s : World) :
  connectionIdCounter (snd (caught outcome socket s)) = connectionIdCounter s.
Proof. destruct outcome; reflexivity. Qed.

Lemma caught_sockets (outcome : Outcome unit) (socket : nat) (s : World) :
  sockets (snd (caught outcome socket s)) = sockets s.
Proof. destruct outcome; reflexivity. Qed.

Lemma caught_returns (outcome : Outcome unit) (socket : nat) (s : World) :
  fst (caught outcome socket s) = Returned tt.
Proof. destruct outcome as [[]|e]; reflexivity. Qed.

(** * The claims *)

(** C1.  A channel delivery does not reach every live subscriber where a
    record of the Registry holds a channel that has no string form.
    Connection 2 of the example world has subscribed to the channel
    [{toString: null}].  Connections 1, 2 and 4
    are live subscribers of [default], but a delivery to [default] writes
    to connection 1 only: the debug line of the loop throws at the record
    of connection 2, no count is returned, and connection 4, which sent the
    message, gets an [error] event instead of its own message. *)
Lemma unprintable_channel_aborts_fanout :
  map ws (recipients poisoned_world (JStr "default") JNull) = [0%nat; 1%nat; 3%nat]
  /\ broadcastToChannel (JStr "default") (JStr "hi") JUndefined poisoned_world
     = (Thrown TypeError,
        set_wire (wire poisoned_world ++ [mkSent 0 (JStr "hi") true]) poisoned_world)
  /\ skipn (List.length (wire poisoned_world))
       (wire (snd (on_message poison_parse 4 3%nat "message default hi" poisoned_world)))
     = [mkSent 0
          (JObj [("type", JStr "channel_message"); ("channel", JStr "default");
                 ("connectionId", JNum 4); ("data", JStr "hi");
                 ("timestamp", JNum 1012)])
          true;
        mkSent 3
          (JObj [("type", JStr "error"); ("message", JStr "Invalid message format");
                 ("timestamp", JNum 1013)])
          true].
Proof. split; [|split]; vm_compute; reflexivity. Qed.

(** C2.  In every run of the server, from any world, the ids handed out to
    new connections are strictly increasing, hence pairwise distinct, and
    all of them are above the counter the run started with. *)
Theorem register_ids_strictly_increasing
    (JSON_parse : string -> option JSValue) (es : list Event) (s : World) :
  StronglySorted Z.lt (fst (run JSON_parse es s))
  /\ NoDup (fst (run JSON_parse es s))
  /\ Forall (fun i => connectionIdCounter s < i) (fst (run JSON_parse es s)).
Proof.
  destruct (run_ids_above JSON_parse es s) as [Hs Ha].
  split; [exact Hs|]. split; [|exact Ha].
  apply StronglySorted_lt_NoDup, Hs.
Qed.

(** C3.  A new connection gets the next id; a record with that id, the
    socket of the connection and the channel set [{default}] is stored
    under the id; and the handler writes one frame, the welcome event of
    type [connection] that carries the id, to the socket of the new
    connection and to no other. *)
Theorem on_connection_registers_and_welcomes
    (s : World) (socket : nat) (remoteAddress : string) :
  let connectionId := connectionIdCounter s + 1 in
  let s' := snd (on_connection socket remoteAddress s) in
  fst (on_connection socket remoteAddress s) = Returned connectionId
  /\ Map_get (connections s') connectionId
     = Some (mkConnectionInfo connectionId socket remoteAddress
               [JStr "default"] (clock s (ticks s)))
  /\ connectionIdCounter s' = connectionId
  /\ wire s'
     = wire s ++ [mkSent socket
                    (JObj [("type", JStr "connection");
                           ("connectionId", JNum connectionId);
                           ("message",
                            JStr "Connected to WebSocket server with multiplexing support");
                           ("timestamp", JNum (clock s (S (ticks s))))])
                    (writable (sockets s socket))].
Proof.
  intros connectionId s'. unfold s'. rewrite on_connection_run. cbn [fst snd].
  split; [reflexivity|]. split; [|split; reflexivity].
  cbn [connections]. apply Map_get_set_same.
Qed.

(** C4, counterexample.  In the example world connections 1 and 2 are live
    subscribers of [gaming] and the write to connection 2 fails: the
    delivery returns 2, and one frame reached its peer. *)
Lemma count_includes_failed_write :
  fst (broadcastToChannel (JStr "gaming") (JStr "hi") JUndefined demo_world) = Returned 2
  /\ delivered (skipn (List.length (wire demo_world))
       (wire (snd (broadcastToChannel (JStr "gaming") (JStr "hi") JUndefined demo_world))))
     = [mkSent 0 (JStr "hi") true]
  /\ ~ count_excludes_failed_writes.
Proof.
  split; [reflexivity|]. split; [reflexivity|].
  intros H. specialize (H demo_world (JStr "gaming") (JStr "hi") JUndefined).
  vm_compute in H. discriminate H.
Qed.

(** C4, amended.  In a Registry whose channels all have a string form,
    and for a channel that has one, the count returned by a channel
    delivery is the number of qualifying records, a record whose write
    fails included.  A write that fails (the transport reports the failure
    after [send] has returned) does not stop the fan-out: every qualifying
    record gets its write, the frame reaches every qualifying record whose
    own socket is writable, and it is lost for the others only. *)
Theorem fanout_counts_attempts_and_continues
    (s : World) (channel message excludeId : JSValue) :
  printable_registry s = true ->
  printable channel = true ->
  let rs := recipients s channel (effective_excludeId excludeId) in
  let s' := snd (broadcastToChannel channel message excludeId s) in
  fst (broadcastToChannel channel message excludeId s) = Returned (Z.of_nat (List.length rs))
  /\ wire s' = wire s ++ map (deliver s message) rs
  /\ (forall conn, In conn rs -> writable (sockets s (ws conn)) = true ->
        In (mkSent (ws conn) message true) (delivered (map (deliver s message) rs)))
  /\ (forall conn, In conn rs -> writable (sockets s (ws conn)) = false ->
        In (mkSent (ws conn) message false) (map (deliver s message) rs)
        /\ ~ In (mkSent (ws conn) message false) (delivered (map (deliver s message) rs))).
Proof.
  intros Hreg Hc rs s'. unfold s'.
  rewrite broadcastToChannel_run_printable by assumption. cbn [fst snd].
  split; [reflexivity|]. split; [reflexivity|]. split.
  - intros conn Hin Hw. unfold delivered. apply filter_In. split; [|reflexivity].
    apply in_map_iff. exists conn. split; [|exact Hin].
    unfold deliver. rewrite Hw. reflexivity.
  - intros conn Hin Hw. split.
    + apply in_map_iff. exists conn. split; [|exact Hin].
      unfold deliver. rewrite Hw. reflexivity.
    + unfold delivered. rewrite filter_In. simpl. intros [_ Hf]. discriminate Hf.
Qed.

(** In the example world the write to connection 2 fails and the frame
    still reaches connection 1. *)
Lemma fanout_counts_attempts_and_continues_witness :
  In (mkSent 0 (JStr "hi") true)
     (delivered (map (deliver demo_world (JStr "hi"))
                   (recipients demo_world (JStr "gaming") JNull)))
  /\ In (mkSent 1 (JStr "hi") false)
        (map (deliver demo_world (JStr "hi"))
           (recipients demo_world (JStr "gaming") JNull)).
Proof.
  pose proof (fanout_counts_attempts_and_continues
                demo_world (JStr "gaming") (JStr "hi") JUndefined eq_refl eq_refl)
    as (_ & _ & Hok & Hfail).
  split.
  - apply (Hok (mkConnectionInfo 1 0 "10.0.0.1" [JStr "default"; JStr "gaming"] 1000)).
    + vm_compute. left; reflexivity.
    + reflexivity.
  - apply (Hfail (mkConnectionInfo 2 1 "10.0.0.2" [JStr "default"; JStr "gaming"] 1002)).
    + vm_compute. right; left; reflexivity.
    + reflexivity.
Defined.

Lemma on_close_absent (s : World) (connectionId : Z) (socket : nat) :
  keys_are_ids s -> owns s connectionId socket ->
  absent socket (snd (on_close connectionId s)).
Proof.
  unfold keys_are_ids, owns, absent, records, on_close, modify. simpl.
  rewrite !Forall_forall. intros Hk Ho c Hc Hws.
  apply in_map_iff in Hc as (e & <- & He).
  apply Map_delete_In in He as [He Hne].
  apply Hne. rewrite <- (Hk e He). apply Ho; [apply in_map, He|exact Hws].
Qed.

(** C5, counterexample.  In the example world the transport reports an
    error on connection 1: the record is still found, and the next channel
    delivery still writes to its socket. *)
Lemma on_error_keeps_record :
  Map_get (connections (snd (on_error 1 demo_world))) 1
  = Some (mkConnectionInfo 1 0 "10.0.0.1" [JStr "default"; JStr "gaming"] 1000)
  /\ sends_to 0%nat
       (skipn (List.length (wire demo_world))
          (wire (snd (broadcastToChannel (JStr "gaming") (JStr "hi") JUndefined
                        (snd (on_error 1 demo_world))))))
     = [mkSent 0 (JStr "hi") true]
  /\ ~ (forall (s : World) (connectionId : Z),
          Map_get (connections (snd (on_error connectionId s))) connectionId = None).
Proof.
  split; [reflexivity|]. split; [reflexivity|].
  intros H. specialize (H demo_world 1). vm_compute in H. discriminate H.
Qed.

(** C5, amended.  When the transport reports the closure of a connection,
    its record is removed, whatever the state of the Registry; the report
    of an error alone leaves the world as it is.  After the removal the id
    is not found, and it stays so in every later run of the server; in a
    Registry whose records are stored under their ids, and as long as the
    transport raises no further event on the closed socket, no record
    holds the socket and nothing is written to it any more: not by a
    channel delivery, not by a direct message of another connection, not
    by the broadcast route and not by the heartbeat. *)
Theorem on_close_removes_connection
    (JSON_parse : string -> option JSValue) (s : World) (connectionId : Z)
    (socket : nat) (es : list Event) :
  keys_are_ids s ->
  owns s connectionId socket ->
  connectionId <= connectionIdCounter s ->
  Forall (quiet socket) es ->
  let closed := snd (on_close connectionId s) in
  let later := snd (run JSON_parse es closed) in
  fst (on_close connectionId s) = Returned tt
  /\ Map_get (connections closed) connectionId = None
  /\ Map_get_value (connections later) (JNum connectionId) = None
  /\ absent socket later
  /\ sends_to socket (wire later) = sends_to socket (wire s)
  /\ (forall channel message excludeId,
        sends_to socket (wire (snd (broadcastToChannel channel message excludeId later)))
        = sends_to socket (wire s))
  /\ (forall fromId other data, other <> socket ->
        sends_to socket (wire (snd (on_message JSON_parse fromId other data later)))
        = sends_to socket (wire s))
  /\ (forall body,
        sends_to socket (wire (snd (api_broadcast body later))) = sends_to socket (wire s))
  /\ sends_to socket (wire (snd (heartbeat later))) = sends_to socket (wire s)
  /\ snd (on_error connectionId s) = s.
Proof.
  intros Hk Ho Hle Hq closed later.
  assert (Hgone : Map_get (connections closed) connectionId = None)
    by apply Map_get_delete_same.
  assert (Ha : absent socket closed) by (apply on_close_absent; assumption).
  assert (Hr : removed connectionId closed) by (split; [exact Hgone|exact Hle]).
  assert (Hwc : wire closed = wire s) by reflexivity.
  assert (Hstep : forall e, quiet socket e ->
            sends_to socket (wire (snd (run JSON_parse (es ++ [e]) closed)))
            = sends_to socket (wire s)).
  { intros e He.
    assert (Hq' : Forall (quiet socket) (es ++ [e])).
    { apply Forall_app. split; [exact Hq|]. constructor; [exact He|constructor]. }
    destruct (run_gone JSON_parse connectionId socket (es ++ [e]) closed Hq' Ha Hr)
      as (_ & _ & Hw).
    rewrite Hw, Hwc. reflexivity. }
  assert (Hsnoc : forall e,
            snd (run JSON_parse (es ++ [e]) closed) = snd (dispatch JSON_parse e later)).
  { intros e. unfold later. generalize closed. clear.
    induction es as [|e0 rest IH]; intros s0.
    - rewrite app_nil_l, run_cons. reflexivity.
    - rewrite <- app_comm_cons, !run_cons. cbn [snd]. apply IH. }
  destruct (run_gone JSON_parse connectionId socket es closed Hq Ha Hr) as (Ha' & Hr' & Hw').
  rewrite Hwc in Hw'.
  split; [reflexivity|]. split; [exact Hgone|]. split; [apply Hr'|].
  split; [exact Ha'|]. split; [exact Hw'|]. split; [|split; [|split; [|split]]].
  - intros channel message excludeId. rewrite broadcastToChannel_run. cbn [snd].
    rewrite <- Hw'. simpl. apply (absent_fanout_app socket later); [exact Ha'|].
    apply visited_dests.
  - intros fromId other data Hne.
    specialize (Hstep (EMessage fromId other data) Hne).
    rewrite Hsnoc in Hstep. exact Hstep.
  - intros body. specialize (Hstep (EBroadcast body) I).
    rewrite Hsnoc in Hstep. exact Hstep.
  - specialize (Hstep EHeartbeat I). rewrite Hsnoc in Hstep. exact Hstep.
  - reflexivity.
Qed.

(** In the example world connection 1 closes; connection 4 then sends on
    [gaming], the heartbeat fires and a new connection arrives: nothing
    more is written to socket 0. *)
Lemma on_close_removes_connection_witness :
  keys_are_ids demo_world
  /\ owns demo_world 1 0%nat
  /\ Map_get (connections (snd (on_close 1 demo_world))) 1 = None
  /\ sends_to 0%nat
       (wire (snd (run demo_parse
                     [EMessage 4 3 "message gaming hi"; EHeartbeat; EConnection 4 "10.0.0.5"]
                     (snd (on_close 1 demo_world)))))
     = sends_to 0%nat (wire demo_world).
Proof.
  assert (Hk : keys_are_ids demo_world).
  { unfold keys_are_ids. rewrite demo_world_connections.
    repeat constructor. }
  assert (Ho : owns demo_world 1 0%nat).
  { unfold owns, records. rewrite demo_world_connections.
    repeat constructor; simpl; intros H; try discriminate H; reflexivity. }
  assert (Hq : Forall (quiet 0%nat)
                 [EMessage 4 3 "message gaming hi"; EHeartbeat; EConnection 4 "10.0.0.5"]).
  { repeat constructor; simpl; discriminate. }
  assert (Hle : 1 <= connectionIdCounter demo_world) by (vm_compute; discriminate).
  pose proof (on_close_removes_connection demo_parse demo_world 1 0%nat _ Hk Ho Hle Hq)
    as (_ & Hgone & _ & _ & Hw & _).
  split; [exact Hk|]. split; [exact Ho|]. split; [exact Hgone|exact Hw].
Defined.

(** C6.  A [direct] event from connection [fromId]: when the target id is
    registered and live, the handler writes one frame, a [direct_message]
    that carries [fromId] as sender and the data, to the socket of the
    target and to no other; when the target id is not found or not live,
    the world is left as it was, with no frame to anyone.  In both cases
    the handler returns normally.  The handler has no result value; what
    the contract calls its report is the outcome of the test. *)
Theorem direct_message_reaches_target_only
    (JSON_parse : string -> option JSValue) (s : World) (fromId : Z) (socket : nat)
    (data : string) (message : JSValue) :
  JSON_parse data = Some message ->
  nullish message = false ->
  prop_of message "type" = JStr "direct" ->
  let targetId := prop_of message "targetId" in
  let s' := snd (on_message JSON_parse fromId socket data s) in
  fst (on_message JSON_parse fromId socket data s) = Returned tt
  /\ (forall target,
        Map_get_value (connections s) targetId = Some target -> live s target = true ->
        direct_target s targetId = Some target
        /\ wire s'
           = wire s ++ [mkSent (ws target)
                          (JObj [("type", JStr "direct_message"); ("from", JNum fromId);
                                 ("data", prop_of message "data");
                                 ("timestamp", JNum (clock s (ticks s)))])
                          (writable (sockets s (ws target)))]
        /\ connections s' = connections s)
  /\ (Map_get_value (connections s) targetId = None
      \/ (exists target, Map_get_value (connections s) targetId = Some target
                         /\ live s target = false) ->
      direct_target s targetId = None /\ s' = s).
Proof.
  intros Hp Hn Ht targetId s'.
  assert (Hrun : on_message JSON_parse fromId socket data s
                 = match direct_target s targetId with
                   | Some target =>
                       (Returned tt,
                        after_send s (ws target)
                          (direct_message_frame fromId (prop_of message "data")))
                   | None => (Returned tt, s)
                   end).
  { rewrite on_message_dispatch with (message := message) by assumption.
    unfold try_catch. cbv zeta. rewrite Ht. cbn [strict_eq String.eqb Ascii.eqb Bool.eqb].
    rewrite case_direct_run by exact Hn. unfold direct_target. fold targetId.
    destruct (Map_get_value (connections s) targetId) as [target|]; [|reflexivity].
    destruct (live s target); reflexivity. }
  unfold s'. rewrite Hrun. split; [|split].
  - destruct (direct_target s targetId); reflexivity.
  - intros target Hg Hl. unfold direct_target. rewrite Hg, Hl. repeat split.
  - intros [Hg|(target & Hg & Hl)]; unfold direct_target; rewrite Hg; [|rewrite Hl];
      split; reflexivity.
Qed.

(** In the example world connection 1 writes to connection 2, which is
    live, and to connection 99, which was never registered. *)
Lemma direct_message_reaches_target_only_witness :
  map dest (skipn (List.length (wire demo_world))
              (wire (snd (on_message demo_parse 1 0%nat "direct 2 x" demo_world))))
  = [1%nat]
  /\ snd (on_message demo_parse 1 0%nat "direct 99 x" demo_world) = demo_world.
Proof.
  split.
  - destruct (direct_message_reaches_target_only demo_parse demo_world 1 0%nat "direct 2 x"
                (JObj [("type", JStr "direct"); ("targetId", JNum 2); ("data", JStr "x")])
                eq_refl eq_refl eq_refl) as (_ & Hyes & _).
    destruct (Hyes (mkConnectionInfo 2 1 "10.0.0.2" [JStr "default"; JStr "gaming"] 1002)
                eq_refl eq_refl) as (_ & Hw & _).
    rewrite Hw. rewrite skipn_app, skipn_all, Nat.sub_diag. reflexivity.
  - destruct (direct_message_reaches_target_only demo_parse demo_world 1 0%nat "direct 99 x"
                (JObj [("type", JStr "direct"); ("targetId", JNum 99); ("data", JStr "x")])
                eq_refl eq_refl eq_refl) as (_ & _ & Hno).
    apply Hno. left. reflexivity.
Defined.

(** C7.  An [unsubscribe] for a channel that has no string form is
    answered with an error, although it is acknowledged first.  In the
    example world connection 3 unsubscribes from the channel
    [{toString: null}], which is not in its channel set: the Registry is
    left as it was and the acknowledgement is written, but the log line
    after it throws, and the handler writes a second frame, an [error]
    event, to the same socket. *)
Lemma unprintable_channel_unsubscribe_gets_error :
  Set_has [JStr "default"] unprintable = false
  /\ Map_get (connections demo_world) 3
     = Some (mkConnectionInfo 3 2 "10.0.0.3" [JStr "default"] 1004)
  /\ connections (snd (on_message poison_parse 3 2%nat "unsubscribe unprintable" demo_world))
     = connections demo_world
  /\ skipn (List.length (wire demo_world))
       (wire (snd (on_message poison_parse 3 2%nat "unsubscribe unprintable" demo_world)))
     = [mkSent 2
          (JObj [("type", JStr "unsubscribed"); ("channel", unprintable);
                 ("timestamp", JNum 1010)])
          true;
        mkSent 2
          (JObj [("type", JStr "error"); ("message", JStr "Invalid message format");
                 ("timestamp", JNum 1011)])
          true].
Proof. split; [|split; [|split]]; vm_compute; reflexivity. Qed.

(** C8.  An inbound frame that decodes to a value other than [null], and
    whose [type] is none of [subscribe], [unsubscribe], [message],
    [direct] and [ping], is not an error: the handler returns normally and
    writes one frame, [{type: 'echo', original: <the decoded value>}] with
    a timestamp, to the socket of the connection and to no other; the
    Registry is untouched. *)
Theorem unknown_type_is_echoed
    (JSON_parse : string -> option JSValue) (s : World) (connectionId : Z) (socket : nat)
    (data : string) (message : JSValue) :
  JSON_parse data = Some message ->
  nullish message = false ->
  recognized (prop_of message "type") = false ->
  let s' := snd (on_message JSON_parse connectionId socket data s) in
  fst (on_message JSON_parse connectionId socket data s) = Returned tt
  /\ wire s'
     = wire s ++ [mkSent socket
                    (JObj [("type", JStr "echo"); ("original", message);
                           ("timestamp", JNum (clock s (ticks s)))])
                    (writable (sockets s socket))]
  /\ connections s' = connections s
  /\ connectionIdCounter s' = connectionIdCounter s.
Proof.
  intros Hp Hn Hr s'.
  assert (Hrun : on_message JSON_parse connectionId socket data s
                 = (Returned tt, after_send s socket (echo_frame message))).
  { rewrite on_message_dispatch with (message := message) by assumption.
    unfold try_catch. cbv zeta. unfold recognized in Hr.
    rewrite !orb_false_iff in Hr. destruct Hr as ((((H1 & H2) & H3) & H4) & H5).
    rewrite H1, H2, H3, H4, H5. rewrite case_default_run. reflexivity. }
  unfold s'. rewrite Hrun. repeat split.
Qed.

(** In the example world connection 1 sends a frame of type [hello]. *)
Lemma unknown_type_is_echoed_witness :
  wire (snd (on_message demo_parse 1 0%nat "hello" demo_world))
  = wire demo_world
    ++ [mkSent 0
          (JObj [("type", JStr "echo");
                 ("original", JObj [("type", JStr "hello"); ("text", JStr "world")]);
                 ("timestamp", JNum (clock demo_world (ticks demo_world)))])
          true].
Proof.
  destruct (unknown_type_is_echoed demo_parse demo_world 1 0%nat "hello"
              (JObj [("type", JStr "hello"); ("text", JStr "world")])
              eq_refl eq_refl eq_refl) as (_ & Hw & _).
  exact Hw.
Defined.

(** A frame that decodes to [null] has no [type] to read: the handler
    answers with the [error] event, not with an echo. *)
Example null_frame_is_an_error :
  wire (snd (on_message demo_parse 1 0%nat "null" demo_world))
  = wire demo_world
    ++ [mkSent 0 (error_frame (clock demo_world (ticks demo_world))) true].
Proof. vm_compute. reflexivity. Qed.

(** C9.  The broadcast route, called with a body [{channel, message}],
    writes one [broadcast] frame to every record of the Registry whose
    socket is open, whatever the channel set of the record, in the order of
    the Registry, and reports the number of those records.  The channel of
    the body is only a field of the frames; it is [default] when the body
    has none. *)
Theorem api_broadcast_reaches_every_open_connection
    (s : World) (props : list (string * JSValue)) :
  let s' := snd (api_broadcast (JObj props) s) in
  let label := broadcast_channel props in
  let sent := skipn (List.length (wire s)) (wire s') in
  fst (api_broadcast (JObj props) s)
  = Returned (JObj [("success", JBool true);
                    ("recipients", JNum (Z.of_nat (List.length (filter (live s) (records s)))))])
  /\ wire s' = wire s ++ sent
  /\ map dest sent = map ws (filter (live s) (records s))
  /\ Forall (fun e => exists now,
               payload e = JObj [("type", JStr "broadcast"); ("channel", label);
                                 ("message", lookup_prop props "message");
                                 ("timestamp", JNum now)]) sent
  /\ label = (if strict_eq (lookup_prop props "channel") JUndefined
              then JStr "default"
              else lookup_prop props "channel")
  /\ connections s' = connections s.
Proof.
  intros s' label sent. unfold sent, s'. rewrite api_broadcast_run. cbn [fst snd].
  cbn [wire set_wire set_ticks]. rewrite skipn_app, skipn_all, Nat.sub_diag. cbn [skipn app].
  split; [reflexivity|]. split; [reflexivity|]. split; [apply stamped_dests|].
  split; [apply stamped_payloads|]. split; [|reflexivity].
  unfold label, broadcast_channel. cbv zeta.
  destruct (lookup_prop props "channel"); reflexivity.
Qed.

(** In the example world the route is called with a channel nobody has
    subscribed to: the three open connections get the frame. *)
Example api_broadcast_ignores_subscriptions :
  let body := JObj [("channel", JStr "nobody"); ("message", JStr "hi")] in
  fst (api_broadcast body demo_world)
  = Returned (JObj [("success", JBool true); ("recipients", JNum 3)])
  /\ map dest (skipn (List.length (wire demo_world))
                 (wire (snd (api_broadcast body demo_world))))
     = [0%nat; 1%nat; 3%nat].
Proof. split; reflexivity. Qed.

Lemma same_but_channels_refl (connectionId : Z) (m : list (Z * ConnectionInfo)) :
  Forall2 (same_but_channels connectionId) m m.
Proof.
  induction m as [|e rest IH]; constructor; [|exact IH].
  unfold same_but_channels. repeat split; reflexivity.
Qed.

Lemma update_channels_frame (connectionId : Z) (f : list JSValue -> list JSValue)
    (m : list (Z * ConnectionInfo)) :
  Forall2 (same_but_channels connectionId) m (update_channels m connectionId f).
Proof.
  induction m as [|[k v] rest IH]; simpl; [constructor|].
  destruct (Z.eqb_spec connectionId k) as [->|Hne]; constructor.
  - unfold same_but_channels. simpl. repeat split; try reflexivity.
    intros H. contradiction.
  - apply same_but_channels_refl.
  - unfold same_but_channels. repeat split; reflexivity.
  - exact IH.
Qed.

(** C10.  A [subscribe] or [unsubscribe] event of connection
    [connectionId] changes nothing in the Registry but the channel set of
    that connection: the ids registered and their order are the same,
    every entry of another id is the same, the entry of the acting id
    keeps its id, socket, address and creation time, and the counter of
    ids and the state of the sockets are the same. *)
Theorem subscription_changes_own_channels_only
    (JSON_parse : string -> option JSValue) (s : World) (connectionId : Z) (socket : nat)
    (data : string) (message : JSValue) :
  JSON_parse data = Some message ->
  nullish message = false ->
  prop_of message "type" = JStr "subscribe" \/ prop_of message "type" = JStr "unsubscribe" ->
  let s' := snd (on_message JSON_parse connectionId socket data s) in
  map fst (connections s') = map fst (connections s)
  /\ Forall2 (same_but_channels connectionId) (connections s) (connections s')
  /\ (forall other, other <> connectionId ->
        Map_get (connections s') other = Map_get (connections s) other)
  /\ connectionIdCounter s' = connectionIdCounter s
  /\ sockets s' = sockets s.
Proof.
  intros Hp Hn Ht s'. unfold s'.
  destruct Ht as [Ht|Ht];
    [rewrite (on_message_subscribe_run _ _ _ _ _ _ Hp Hn Ht)
    |rewrite (on_message_unsubscribe_run _ _ _ _ _ _ Hp Hn Ht)];
    destruct (Map_get (connections s) connectionId); cbn [fst snd];
    try (repeat split; auto using same_but_channels_refl; fail);
    rewrite caught_connections, caught_counter, caught_sockets;
    (split; [apply update_channels_keys|]; split; [apply update_channels_frame|];
     split; [intros other Hne; apply update_channels_get_other, Hne|split; reflexivity]).
Qed.

(** In the example world connection 3 subscribes to [gaming]: the entries
    of connections 1, 2 and 4 are the same afterwards. *)
Lemma subscription_changes_own_channels_only_witness :
  map fst (connections (snd (on_message demo_parse 3 2%nat "subscribe gaming" demo_world)))
  = [1; 2; 3; 4]
  /\ Map_get (connections (snd (on_message demo_parse 3 2%nat "subscribe gaming" demo_world))) 1
     = Map_get (connections demo_world) 1.
Proof.
  destruct (subscription_changes_own_channels_only demo_parse demo_world 3 2%nat
              "subscribe gaming"
              (JObj [("type", JStr "subscribe"); ("channel", JStr "gaming")])
              eq_refl eq_refl (or_introl eq_refl)) as (Hk & _ & Ho & _).
  split.
  - rewrite Hk. reflexivity.
  - apply Ho. discriminate.
Defined.

(** * Further properties of the server *)

(** ** The message handler as a whole *)

Lemma message_effect_frame (connectionId : Z) (socket : nat) (s s' : World) :
  message_effect connectionId socket s s' ->
  map fst (connections s') = map fst (connections s)
  /\ sockets s' = sockets s
  /\ exists new, wire s' = wire s ++ new.
Proof.
  intros (Hc & _ & Hs & new & Hw & _).
  split; [|split; [exact Hs|exists new; exact Hw]].
  destruct Hc as [Hc|[f Hc]]; rewrite Hc; [reflexivity|apply update_channels_keys].
Qed.

(** X1.  Whatever bytes arrive, the message handler returns normally: no
    exception leaves it.  It never registers or removes a connection (the
    ids of the Registry and their order are the same afterwards), never
    touches the counter of ids or the sockets, and only adds to the log of
    writes. *)
Theorem on_message_never_throws
    (JSON_parse : string -> option JSValue) (connectionId : Z) (socket : nat)
    (data : string) (s : World) :
  let s' := snd (on_message JSON_parse connectionId socket data s) in
  fst (on_message JSON_parse connectionId socket data s) = Returned tt
  /\ map fst (connections s') = map fst (connections s)
  /\ connectionIdCounter s' = connectionIdCounter s
  /\ sockets s' = sockets s
  /\ exists new, wire s' = wire s ++ new.
Proof.
  intros s'. destruct (on_message_effect JSON_parse connectionId socket data s) as [Hr He].
  split; [exact Hr|].
  destruct (message_effect_frame _ _ _ _ He) as (Hk & Hs & Hw).
  split; [exact Hk|]. split; [|split; assumption].
  eapply message_effect_counter, He.
Qed.

(** X2.  A frame that does not decode, or that decodes to [null], is
    answered with exactly one [error] event, "Invalid message format", on
    the socket it came from; the Registry is untouched, so the connection
    stays registered. *)
Theorem undecodable_frame_gets_error_reply
    (JSON_parse : string -> option JSValue) (connectionId : Z) (socket : nat)
    (data : string) (s : World) :
  JSON_parse data = None \/ JSON_parse data = Some JNull ->
  let s' := snd (on_message JSON_parse connectionId socket data s) in
  fst (on_message JSON_parse connectionId socket data s) = Returned tt
  /\ wire s'
     = wire s ++ [mkSent socket
                    (JObj [("type", JStr "error");
                           ("message", JStr "Invalid message format");
                           ("timestamp", JNum (clock s (ticks s)))])
                    (writable (sockets s socket))]
  /\ connections s' = connections s.
Proof.
  intros [Hp|Hp] s'; unfold s'.
  - rewrite on_message_malformed by exact Hp. repeat split.
  - rewrite on_message_nullish with (message := JNull) by (exact Hp || reflexivity).
    repeat split.
Qed.

Lemma undecodable_frame_gets_error_reply_witness :
  map dest (skipn (List.length (wire demo_world))
              (wire (snd (on_message demo_parse 3 2%nat "{oops" demo_world))))
  = [2%nat]
  /\ connections (snd (on_message demo_parse 3 2%nat "null" demo_world))
     = connections demo_world.
Proof.
  split.
  - destruct (undecodable_frame_gets_error_reply demo_parse 3 2%nat "{oops" demo_world
                (or_introl eq_refl)) as (_ & Hw & _).
    rewrite Hw, skipn_app, skipn_all, Nat.sub_diag. reflexivity.
  - destruct (undecodable_frame_gets_error_reply demo_parse 3 2%nat "null" demo_world
                (or_intror eq_refl)) as (_ & _ & Hc).
    exact Hc.
Defined.

(** X3.  A [ping] is answered with exactly one [pong] on the socket it came
    from, whether or not the connection is still registered; nobody else
    gets a frame and the Registry is untouched. *)
Theorem ping_gets_pong
    (JSON_parse : string -> option JSValue) (connectionId : Z) (socket : nat)
    (data : string) (message : JSValue) (s : World) :
  JSON_parse data = Some message ->
  nullish message = false ->
  prop_of message "type" = JStr "ping" ->
  let s' := snd (on_message JSON_parse connectionId socket data s) in
  fst (on_message JSON_parse connectionId socket data s) = Returned tt
  /\ wire s'
     = wire s ++ [mkSent socket
                    (JObj [("type", JStr "pong");
                           ("timestamp", JNum (clock s (ticks s)))])
                    (writable (sockets s socket))]
  /\ connections s' = connections s.
Proof.
  intros Hp Hn Ht s'. unfold s'.
  rewrite on_message_dispatch with (message := message) by assumption.
  unfold try_catch. cbv zeta. rewrite Ht. cbn [strict_eq String.eqb Ascii.eqb Bool.eqb].
  rewrite case_ping_run. repeat split.
Qed.

Lemma ping_gets_pong_witness :
  map dest (skipn (List.length (wire demo_world))
              (wire (snd (on_message demo_parse 99 7%nat "ping" demo_world))))
  = [7%nat].
Proof.
  destruct (ping_gets_pong demo_parse 99 7%nat "ping" (JObj [("type", JStr "ping")])
              demo_world eq_refl eq_refl eq_refl) as (_ & Hw & _).
  rewrite Hw, skipn_app, skipn_all, Nat.sub_diag. reflexivity.
Defined.

(** ** Subscriptions *)

Lemma In_skipped {A} (x : A) (n : nat) (l : list A) : In x (skipn n l) -> In x l.
Proof.
  intros H. rewrite <- (firstn_skipn n l). apply in_or_app. right. exact H.
Qed.

Lemma Set_add_present (xs : list JSValue) (v : JSValue) :
  Set_has xs v = true -> Set_add xs v = xs.
Proof. unfold Set_add. intros ->. reflexivity. Qed.

(** X4.  A [subscribe] event on a registered connection, for a channel
    that has a string form and a record whose channels all have one (the
    log line of the case prints them), puts the channel into the channel
    set of the record and is acknowledged with one [subscribed] frame on
    its own socket.  For a channel that is a string, a number or a boolean
    the channel is in the set afterwards, and subscribing to a channel
    already in the set leaves the Registry exactly as it was: so a second
    identical [subscribe] changes nothing. *)
Theorem subscribe_adds_channel_once
    (JSON_parse : string -> option JSValue) (connectionId : Z) (socket : nat)
    (data : string) (message : JSValue) (record : ConnectionInfo) (s : World) :
  JSON_parse data = Some message ->
  nullish message = false ->
  prop_of message "type" = JStr "subscribe" ->
  Map_get (connections s) connectionId = Some record ->
  printable (prop_of message "channel") = true ->
  printable_record record = true ->
  let channel := prop_of message "channel" in
  let s' := snd (on_message JSON_parse connectionId socket data s) in
  let s'' := snd (on_message JSON_parse connectionId socket data s') in
  wire s'
  = wire s ++ [mkSent socket
                 (JObj [("type", JStr "subscribed"); ("channel", channel);
                        ("timestamp", JNum (clock s (ticks s)))])
                 (writable (sockets s socket))]
  /\ Map_get (connections s') connectionId
     = Some (mkConnectionInfo (id record) (ws record) (ip record)
               (Set_add (channels record) channel) (connectedAt record))
  /\ (Set_has (channels record) channel = true -> connections s' = connections s)
  /\ (strict_eq channel channel = true ->
      Set_has (Set_add (channels record) channel) channel = true
      /\ connections s'' = connections s').
Proof.
  intros Hp Hn Ht Hg Hc _ channel s' s''.
  assert (Hrun := on_message_subscribe_run_printable JSON_parse connectionId socket data
                    message record s Hp Hn Ht Hg Hc).
  assert (Hg' : Map_get (connections s') connectionId
                = Some (mkConnectionInfo (id record) (ws record) (ip record)
                          (Set_add (channels record) channel) (connectedAt record))).
  { unfold s'. rewrite Hrun. simpl. apply update_channels_get, Hg. }
  split; [unfold s'; rewrite Hrun; reflexivity|]. split; [exact Hg'|]. split.
  - intros Hhas. unfold s'. rewrite Hrun. simpl.
    apply update_channels_same with (c := record); [exact Hg|].
    apply Set_add_present, Hhas.
  - intros Hrefl. split; [apply Set_has_add, Hrefl|].
    unfold s''.
    rewrite (on_message_subscribe_run_printable JSON_parse connectionId socket data
               message _ s' Hp Hn Ht Hg' Hc).
    simpl. eapply update_channels_same; [exact Hg'|].
    simpl. apply Set_add_present, Set_has_add, Hrefl.
Qed.

Lemma subscribe_adds_channel_once_witness :
  Map_get (connections (snd (on_message demo_parse 3 2%nat "subscribe gaming" demo_world))) 3
  = Some (mkConnectionInfo 3 2 "10.0.0.3" [JStr "default"; JStr "gaming"] 1004)
  /\ connections (snd (on_message demo_parse 1 0%nat "subscribe gaming" demo_world))
     = connections demo_world.
Proof.
  split.
  - destruct (subscribe_adds_channel_once demo_parse 3 2%nat "subscribe gaming"
                (JObj [("type", JStr "subscribe"); ("channel", JStr "gaming")])
                (mkConnectionInfo 3 2 "10.0.0.3" [JStr "default"] 1004) demo_world
                eq_refl eq_refl eq_refl eq_refl eq_refl eq_refl) as (_ & Hg & _).
    exact Hg.
  - destruct (subscribe_adds_channel_once demo_parse 1 0%nat "subscribe gaming"
                (JObj [("type", JStr "subscribe"); ("channel", JStr "gaming")])
                (mkConnectionInfo 1 0 "10.0.0.1" [JStr "default"; JStr "gaming"] 1000)
                demo_world eq_refl eq_refl eq_refl eq_refl eq_refl eq_refl)
      as (_ & _ & Hsame & _).
    apply Hsame. reflexivity.
Defined.

(** X5.  Subscribing and then sending, in a Registry whose channels all
    have a string form: once a registered connection whose socket is open
    has subscribed to a channel (a string, number or boolean that [||]
    does not replace by [default]), the next [message] event on that
    channel, from any connection, is written to its socket, tagged with
    the channel and the id of the sender. *)
Theorem subscribe_then_message_is_delivered
    (JSON_parse : string -> option JSValue) (connectionId : Z) (socket : nat)
    (data : string) (message : JSValue) (record : ConnectionInfo)
    (senderId : Z) (senderSocket : nat) (data2 : string) (message2 : JSValue) (s : World) :
  JSON_parse data = Some message ->
  nullish message = false ->
  prop_of message "type" = JStr "subscribe" ->
  Map_get (connections s) connectionId = Some record ->
  live s record = true ->
  strict_eq (prop_of message "channel") (prop_of message "channel") = true ->
  printable_registry s = true ->
  JSON_parse data2 = Some message2 ->
  nullish message2 = false ->
  prop_of message2 "type" = JStr "message" ->
  target_channel message2 = prop_of message "channel" ->
  let s' := snd (on_message JSON_parse connectionId socket data s) in
  let s'' := snd (on_message JSON_parse senderId senderSocket data2 s') in
  In (mkSent (ws record)
        (JObj [("type", JStr "channel_message"); ("channel", prop_of message "channel");
               ("connectionId", JNum senderId); ("data", prop_of message2 "data");
               ("timestamp", JNum (clock s (S (ticks s))))])
        (writable (sockets s (ws record))))
     (skipn (List.length (wire s')) (wire s'')).
Proof.
  intros Hp Hn Ht Hg Hl Hrefl Hreg Hp2 Hn2 Ht2 Htopic s' s''.
  assert (Hc : printable (prop_of message "channel") = true)
    by (destruct (prop_of message "channel"); try reflexivity; discriminate Hrefl).
  assert (Hrun := on_message_subscribe_run_printable JSON_parse connectionId socket data
                    message record s Hp Hn Ht Hg Hc).
  assert (Hreg' : printable_registry s' = true).
  { unfold s'. rewrite Hrun. unfold printable_registry, records. simpl.
    apply update_channels_printable; [|exact Hreg].
    intros cs Hcs. apply Set_add_printable; assumption. }
  assert (Hc2 : printable (target_channel message2) = true) by (rewrite Htopic; exact Hc).
  unfold s''.
  rewrite (on_message_message_run_printable _ _ _ _ _ s' Hp2 Hn2 Ht2 Hreg' Hc2).
  cbn [snd wire set_wire]. rewrite skipn_app, skipn_all, Nat.sub_diag. cbn [skipn app].
  rewrite Htopic.
  set (record' := mkConnectionInfo (id record) (ws record) (ip record)
                    (Set_add (channels record) (prop_of message "channel"))
                    (connectedAt record)).
  assert (Hg' : Map_get (connections s') connectionId = Some record').
  { unfold s'. rewrite Hrun. simpl. apply update_channels_get, Hg. }
  assert (Hsock : sockets s' = sockets s) by (unfold s'; rewrite Hrun; reflexivity).
  assert (Hclock : clock s' (ticks s') = clock s (S (ticks s)))
    by (unfold s'; rewrite Hrun; reflexivity).
  apply in_map_iff. exists record'. split.
  - unfold deliver, channel_message_frame. rewrite Hsock, Hclock. reflexivity.
  - unfold recipients. apply filter_In. split.
    + apply Map_get_In in Hg'. unfold records.
      change record' with (snd (connectionId, record')). apply in_map, Hg'.
    + unfold qualifies, live. rewrite Hsock. unfold live in Hl. simpl. rewrite Hl.
      simpl. apply Set_has_add, Hrefl.
Qed.

Lemma subscribe_then_message_is_delivered_witness :
  In (mkSent 3
        (JObj [("type", JStr "channel_message"); ("channel", JStr "gaming");
               ("connectionId", JNum 1); ("data", JStr "hi");
               ("timestamp", JNum 1011)])
        true)
     (wire (snd (on_message demo_parse 1 0%nat "message gaming hi"
                   (snd (on_message demo_parse 4 3%nat "subscribe gaming" demo_world))))).
Proof.
  pose proof (subscribe_then_message_is_delivered demo_parse 4 3%nat "subscribe gaming"
                (JObj [("type", JStr "subscribe"); ("channel", JStr "gaming")])
                (mkConnectionInfo 4 3 "10.0.0.4" [JStr "default"] 1006)
                1 0%nat "message gaming hi"
                (JObj [("type", JStr "message"); ("channel", JStr "gaming");
                       ("data", JStr "hi")])
                demo_world eq_refl eq_refl eq_refl eq_refl eq_refl eq_refl eq_refl eq_refl
                eq_refl eq_refl eq_refl) as H.
  cbv zeta in H. exact (In_skipped _ _ _ H).
Defined.

Lemma update_channels_socket (m : list (Z * ConnectionInfo)) (k : Z)
    (f : list JSValue -> list JSValue) (r : ConnectionInfo) :
  Map_get m k = Some r ->
  NoDup (map ws (map snd m)) ->
  forall r', In r' (map snd (update_channels m k f)) -> ws r' = ws r ->
             channels r' = f (channels r).
Proof.
  induction m as [|[k' v] rest IH]; simpl; [discriminate|].
  intros Hg Hnd r' Hin Hws. inversion Hnd as [|? ? Hnotin Hnd']; subst.
  destruct (Z.eqb_spec k k') as [->|Hne].
  - injection Hg as ->. simpl in Hin. destruct Hin as [<-|Hin]; [reflexivity|].
    exfalso. apply Hnotin. rewrite <- Hws. apply in_map, Hin.
  - simpl in Hin. destruct Hin as [<-|Hin].
    + exfalso. apply Hnotin. rewrite Hws.
      apply Map_get_In in Hg. apply in_map.
      change r with (snd (k, r)). apply in_map, Hg.
    + apply IH; assumption.
Qed.

(** X6.  Unsubscribing and then delivering: in a Registry whose records
    hold distinct sockets, once a registered connection has unsubscribed
    from a channel, a delivery to that channel writes nothing to its
    socket, whatever the payload and the excluded id. *)
Theorem unsubscribe_then_delivery_skips_connection
    (JSON_parse : string -> option JSValue) (connectionId : Z) (socket : nat)
    (data : string) (message : JSValue) (record : ConnectionInfo) (s : World)
    (payload0 excludeId : JSValue) :
  JSON_parse data = Some message ->
  nullish message = false ->
  prop_of message "type" = JStr "unsubscribe" ->
  Map_get (connections s) connectionId = Some record ->
  NoDup (map ws (records s)) ->
  let channel := prop_of message "channel" in
  let s' := snd (on_message JSON_parse connectionId socket data s) in
  let s'' := snd (broadcastToChannel channel payload0 excludeId s') in
  sends_to (ws record) (skipn (List.length (wire s')) (wire s'')) = [].
Proof.
  intros Hp Hn Ht Hg Hnd channel s' s''.
  assert (Hrun : connections s'
                 = update_channels (connections s) connectionId
                     (fun cs => Set_delete cs channel)).
  { unfold s'. rewrite (on_message_unsubscribe_run _ _ _ _ _ _ Hp Hn Ht), Hg.
    rewrite caught_connections. reflexivity. }
  unfold s''. rewrite broadcastToChannel_run. cbn [snd wire set_wire].
  rewrite skipn_app, skipn_all, Nat.sub_diag. cbn [skipn app].
  apply sends_to_other. apply Forall_forall. intros e He Hd.
  apply in_map_iff in He as (r' & <- & Hr'). simpl in Hd.
  apply visited_In in Hr' as [Hin Hq].
  assert (Hch : channels r' = Set_delete (channels record) channel).
  { apply (update_channels_socket (connections s) connectionId
             (fun cs => Set_delete cs channel) record Hg Hnd); [|exact Hd].
    unfold records in Hin. rewrite Hrun in Hin. exact Hin. }
  unfold qualifies in Hq. rewrite Hch, Set_has_delete, andb_false_r in Hq.
  discriminate Hq.
Qed.

Lemma unsubscribe_then_delivery_skips_connection_witness :
  sends_to 0%nat
    (skipn (List.length
              (wire (snd (on_message demo_parse 1 0%nat "unsubscribe gaming" demo_world))))
       (wire (snd (broadcastToChannel (JStr "gaming") (JStr "hi") JUndefined
                     (snd (on_message demo_parse 1 0%nat "unsubscribe gaming" demo_world))))))
  = [].
Proof.
  apply (unsubscribe_then_delivery_skips_connection demo_parse 1 0%nat "unsubscribe gaming"
           (JObj [("type", JStr "unsubscribe"); ("channel", JStr "gaming")])
           (mkConnectionInfo 1 0 "10.0.0.1" [JStr "default"; JStr "gaming"] 1000)
           demo_world (JStr "hi") JUndefined eq_refl eq_refl eq_refl eq_refl).
  vm_compute. repeat constructor; simpl; intuition discriminate.
Defined.

(** ** Routing edge cases *)

(** X7.  In a Registry whose channels all have a string form, a [message]
    event whose channel is missing or falsy (absent, [null], [false], [0]
    or the empty string) goes to the channel [default]: it is written to
    the live records subscribed to [default], and the frame names
    [default] as its channel. *)
Theorem message_without_channel_goes_to_default
    (JSON_parse : string -> option JSValue) (connectionId : Z) (socket : nat)
    (data : string) (message : JSValue) (s : World) :
  JSON_parse data = Some message ->
  nullish message = false ->
  prop_of message "type" = JStr "message" ->
  truthy (prop_of message "channel") = false ->
  printable_registry s = true ->
  let s' := snd (on_message JSON_parse connectionId socket data s) in
  wire s'
  = wire s ++
    map (deliver s (JObj [("type", JStr "channel_message"); ("channel", JStr "default");
                          ("connectionId", JNum connectionId);
                          ("data", prop_of message "data");
                          ("timestamp", JNum (clock s (ticks s)))]))
      (recipients s (JStr "default") JNull).
Proof.
  intros Hp Hn Ht Hf Hreg s'. unfold s'.
  assert (Htopic : target_channel message = JStr "default")
    by (unfold target_channel, js_or; rewrite Hf; reflexivity).
  rewrite on_message_message_run_printable with (message := message);
    try assumption; rewrite Htopic; reflexivity.
Qed.

(** Connection 1 of the example world sends with an empty channel name:
    the four subscribers of [default] are tried, the closed one is
    skipped. *)
Lemma message_without_channel_goes_to_default_witness :
  map dest
    (skipn (List.length (wire demo_world))
       (wire (snd (on_message
                     (fun _ => Some (JObj [("type", JStr "message"); ("channel", JStr "");
                                           ("data", JStr "hi")]))
                     1 0%nat "any" demo_world))))
  = [0%nat; 1%nat; 3%nat].
Proof.
  rewrite (message_without_channel_goes_to_default
             (fun _ => Some (JObj [("type", JStr "message"); ("channel", JStr "");
                                   ("data", JStr "hi")]))
             1 0%nat "any" _ demo_world eq_refl eq_refl eq_refl eq_refl eq_refl).
  rewrite skipn_app, skipn_all, Nat.sub_diag. vm_compute. reflexivity.
Defined.

(** X8.  The ids of the Registry are numbers.  A [direct] event whose
    [targetId] is not a number (a string of digits, [null], a missing
    field) finds no record: nothing is written to anyone and the world is
    left as it was. *)
Theorem direct_to_non_number_is_dropped
    (JSON_parse : string -> option JSValue) (connectionId : Z) (socket : nat)
    (data : string) (message : JSValue) (s : World) :
  JSON_parse data = Some message ->
  nullish message = false ->
  prop_of message "type" = JStr "direct" ->
  (forall n, prop_of message "targetId" <> JNum n) ->
  on_message JSON_parse connectionId socket data s = (Returned tt, s).
Proof.
  intros Hp Hn Ht Hnum.
  rewrite on_message_dispatch with (message := message) by assumption.
  unfold try_catch. cbv zeta. rewrite Ht. cbn [strict_eq String.eqb Ascii.eqb Bool.eqb].
  rewrite case_direct_run by exact Hn.
  destruct (prop_of message "targetId") as [| | | n | | |] eqn:E; try reflexivity.
  exfalso. exact (Hnum n eq_refl).
Qed.

(** Connection 2 is registered and live in the example world; a direct
    message addressed to the string "2" does not reach it. *)
Lemma direct_to_non_number_is_dropped_witness :
  on_message
    (fun _ => Some (JObj [("type", JStr "direct"); ("targetId", JStr "2");
                          ("data", JStr "x")]))
    1 0%nat "any" demo_world
  = (Returned tt, demo_world).
Proof.
  apply (direct_to_non_number_is_dropped
           (fun _ => Some (JObj [("type", JStr "direct"); ("targetId", JStr "2");
                                 ("data", JStr "x")]))
           1 0%nat "any" _ demo_world eq_refl eq_refl eq_refl).
  intros n. simpl. discriminate.
Defined.

(** X9.  A [subscribe] or [unsubscribe] event of a connection whose record
    is not in the Registry (it was removed by a close) is ignored: no
    record is created, no acknowledgement is written, the world is left as
    it was. *)
Theorem subscription_of_removed_connection_is_ignored
    (JSON_parse : string -> option JSValue) (connectionId : Z) (socket : nat)
    (data : string) (message : JSValue) (s : World) :
  JSON_parse data = Some message ->
  nullish message = false ->
  prop_of message "type" = JStr "subscribe" \/ prop_of message "type" = JStr "unsubscribe" ->
  Map_get (connections s) connectionId = None ->
  on_message JSON_parse connectionId socket data s = (Returned tt, s).
Proof.
  intros Hp Hn Ht Hg.
  rewrite on_message_dispatch with (message := message) by assumption.
  unfold try_catch. cbv zeta.
  destruct Ht as [Ht|Ht]; rewrite Ht; cbn [strict_eq String.eqb Ascii.eqb Bool.eqb];
    [rewrite case_subscribe_run by exact Hn|rewrite case_unsubscribe_run by exact Hn];
    rewrite Hg; reflexivity.
Qed.

Lemma subscription_of_removed_connection_is_ignored_witness :
  on_message demo_parse 1 0%nat "subscribe gaming" (snd (on_close 1 demo_world))
  = (Returned tt, snd (on_close 1 demo_world)).
Proof.
  apply (subscription_of_removed_connection_is_ignored demo_parse 1 0%nat
           "subscribe gaming"
           (JObj [("type", JStr "subscribe"); ("channel", JStr "gaming")])
           (snd (on_close 1 demo_world)) eq_refl eq_refl (or_introl eq_refl)).
  reflexivity.
Defined.

(** ** The heartbeat *)

Lemma stamped_payload_seq (s : World) (frame : Z -> JSValue) (rs : list ConnectionInfo) :
  forall t, map payload (stamped s frame t rs)
            = map (fun i => frame (clock s i)) (seq t (List.length rs)).
Proof.
  induction rs as [|c rest IH]; intros t; simpl; [reflexivity|].
  rewrite IH. reflexivity.
Qed.

(** X10.  A tick of the heartbeat writes one [heartbeat] frame to every
    record whose socket is open, in the order of the Registry, and none to
    a record whose socket is not open; each frame carries its own reading
    of the clock, the readings being taken one after the other.  The tick
    returns normally and leaves the Registry untouched; with no open
    connection it writes nothing. *)
Theorem heartbeat_reaches_every_open_connection (s : World) :
  let s' := snd (heartbeat s) in
  let opened := filter (live s) (records s) in
  let new := skipn (List.length (wire s)) (wire s') in
  fst (heartbeat s) = Returned tt
  /\ wire s' = wire s ++ new
  /\ map dest new = map ws opened
  /\ map payload new
     = map (fun i => JObj [("type", JStr "heartbeat"); ("timestamp", JNum (clock s i))])
         (seq (ticks s) (List.length opened))
  /\ connections s' = connections s
  /\ connectionIdCounter s' = connectionIdCounter s.
Proof.
  intros s' opened new. unfold new, s'. rewrite heartbeat_run. cbn [fst snd wire set_wire].
  rewrite skipn_app, skipn_all, Nat.sub_diag. cbn [skipn app].
  split; [reflexivity|]. split; [reflexivity|]. split; [apply stamped_dests|].
  split; [|split; reflexivity].
  apply (stamped_payload_seq s heartbeat_frame).
Qed.

(** ** The shape of the Registry *)

Lemma Map_set_fresh (m : list (Z * ConnectionInfo)) (k : Z) (v : ConnectionInfo) :
  ~ In k (map fst m) -> Map_set m k v = m ++ [(k, v)].
Proof.
  induction m as [|[k' v'] rest IH]; simpl; intros H; [reflexivity|].
  destruct (Z.eqb_spec k k') as [->|Hne]; [exfalso; auto|].
  rewrite IH by auto. reflexivity.
Qed.

Lemma Map_delete_absent (m : list (Z * ConnectionInfo)) (k : Z) :
  ~ In k (map fst m) -> Map_delete m k = m.
Proof.
  unfold Map_delete. induction m as [|[k' v'] rest IH]; simpl; intros H; [reflexivity|].
  destruct (Z.eqb_spec k k') as [->|Hne]; [exfalso; auto|].
  simpl. rewrite IH by auto. reflexivity.
Qed.

Lemma Map_delete_keys_NoDup (m : list (Z * ConnectionInfo)) (k : Z) :
  NoDup (map fst m) -> NoDup (map fst (Map_delete m k)).
Proof.
  unfold Map_delete. induction m as [|[k' v'] rest IH]; simpl; intros H; [constructor|].
  inversion H as [|? ? Hnotin Hnd]; subst.
  destruct (Z.eqb k k'); simpl; [apply IH, Hnd|].
  constructor; [|apply IH, Hnd].
  intros Hin. apply Hnotin. apply in_map_iff in Hin as (e & He & Hein).
  apply filter_In in Hein as [Hein _]. rewrite <- He. apply in_map, Hein.
Qed.

Lemma NoDup_snoc {A} (l : list A) (x : A) : NoDup l -> ~ In x l -> NoDup (l ++ [x]).
Proof.
  induction 1 as [|a l Ha Hnd IH]; simpl; intros Hx.
  - constructor; [intros []|constructor].
  - constructor.
    + intros Hin. apply in_app_or in Hin as [Hin|[Hin|[]]]; [auto|]. apply Hx. left. symmetry. exact Hin.
    + apply IH. intros Hin. apply Hx. right. exact Hin.
Qed.

Lemma keys_below_counter_fresh (s : World) :
  registry_ok s -> ~ In (connectionIdCounter s + 1) (map fst (connections s)).
Proof.
  intros (_ & _ & Hb) Hin. apply in_map_iff in Hin as (e & He & Hein).
  rewrite Forall_forall in Hb. destruct (Hb e Hein) as [_ Hr]. lia.
Qed.

Lemma message_effect_registry_ok (connectionId : Z) (socket : nat) (s s' : World) :
  message_effect connectionId socket s s' -> registry_ok s -> registry_ok s'.
Proof.
  intros (Hc & Hn & _) (H0 & Hnd & Hb). unfold registry_ok. rewrite Hn.
  destruct Hc as [Hc|[f Hc]]; rewrite Hc; [auto|].
  split; [exact H0|]. split; [rewrite update_channels_keys; exact Hnd|].
  rewrite Forall_forall in *. intros e Hin.
  apply update_channels_In in Hin as (c & Hc' & Hid & _).
  destruct (Hb _ Hc') as [Hi Hr]. simpl in Hi, Hr. rewrite Hid. auto.
Qed.

Lemma dispatch_registry_ok (JSON_parse : string -> option JSValue) (e : Event) (s : World) :
  registry_ok s -> registry_ok (snd (dispatch JSON_parse e s)).
Proof.
  intros Hok. destruct e; cbn [dispatch fst snd].
  - pose proof (keys_below_counter_fresh s Hok) as Hfresh.
    destruct Hok as (H0 & Hnd & Hb).
    rewrite on_connection_run. cbn [snd]. unfold registry_ok.
    cbn [connections connectionIdCounter]. rewrite Map_set_fresh by exact Hfresh.
    split; [lia|]. split.
    + rewrite map_app. simpl. apply NoDup_snoc; assumption.
    + apply Forall_app. split.
      * eapply Forall_impl; [|exact Hb]. simpl. intros a [Hi Hr]. split; [exact Hi|lia].
      * constructor; [|constructor]. simpl. split; [reflexivity|lia].
  - eapply message_effect_registry_ok; [apply on_message_effect|exact Hok].
  - destruct Hok as (H0 & Hnd & Hb). unfold registry_ok. simpl.
    split; [exact H0|]. split; [apply Map_delete_keys_NoDup, Hnd|].
    rewrite Forall_forall in *. intros e Hin.
    apply Map_delete_In in Hin as [Hin _]. exact (Hb _ Hin).
  - exact Hok.
  - destruct (nullish body) eqn:Hn.
    + rewrite api_broadcast_nullish by exact Hn. exact Hok.
    + rewrite api_broadcast_defined, api_broadcast_run by exact Hn. exact Hok.
  - rewrite heartbeat_run. exact Hok.
  - exact Hok.
Qed.

Lemma run_registry_ok (JSON_parse : string -> option JSValue) (es : list Event) :
  forall s : World, registry_ok s -> registry_ok (snd (run JSON_parse es s)).
Proof.
  induction es as [|e rest IH]; intros s Hok; [exact Hok|].
  rewrite run_cons. cbn [snd]. apply IH, dispatch_registry_ok, Hok.
Qed.

Lemma initial_registry_ok (sockets0 : nat -> WebSocket) (clock0 : nat -> Z) :
  registry_ok (initial sockets0 clock0).
Proof. split; [simpl; lia|]. split; constructor. Qed.

Lemma run_counter (JSON_parse : string -> option JSValue) (es : list Event) :
  forall s : World,
    connectionIdCounter (snd (run JSON_parse es s))
    = connectionIdCounter s + Z.of_nat (List.length (fst (run JSON_parse es s))).
Proof.
  induction es as [|e rest IH]; intros s.
  - simpl. lia.
  - rewrite run_cons. cbn [fst snd]. rewrite IH.
    pose proof (dispatch_counter JSON_parse e s) as Hc.
    destruct (fst (dispatch JSON_parse e s)) as [i|].
    + destruct Hc as [Hi Hc]. rewrite Hc. simpl List.length. lia.
    + rewrite Hc. reflexivity.
Qed.

Lemma NoDup_map_to_nat (l : list Z) :
  Forall (fun k => 0 <= k) l -> NoDup l -> NoDup (map Z.to_nat l).
Proof.
  induction 1 as [|a l Ha Hl IH]; simpl; intros Hnd; [constructor|].
  inversion Hnd as [|? ? Hnotin Hnd']; subst. constructor; [|apply IH, Hnd'].
  intros Hin. apply in_map_iff in Hin as (b & Hb & Hbin).
  rewrite Forall_forall in Hl. specialize (Hl b Hbin).
  apply Z2Nat.inj in Hb; try lia. subst b. contradiction.
Qed.

Lemma bounded_keys_length (l : list Z) (c : Z) :
  NoDup l -> Forall (fun k => 1 <= k <= c) l -> Z.of_nat (List.length l) <= Z.max 0 c.
Proof.
  intros Hnd Hb.
  assert (Hincl : incl (map Z.to_nat l) (seq 1 (Z.to_nat c))).
  { intros n Hn. apply in_map_iff in Hn as (k & <- & Hk).
    rewrite Forall_forall in Hb. specialize (Hb k Hk).
    apply in_seq. lia. }
  assert (Hnd' : NoDup (map Z.to_nat l)).
  { apply NoDup_map_to_nat; [|exact Hnd].
    eapply Forall_impl; [|exact Hb]. simpl. intros; lia. }
  pose proof (NoDup_incl_length Hnd' Hincl) as Hlen.
  rewrite length_map, length_seq in Hlen. lia.
Qed.

(** X11.  In every world the server reaches from its start, whatever the
    events: the ids of the Registry are pairwise distinct, every record is
    stored under its own id, every id lies between 1 and the counter, the
    counter is the number of connections accepted so far, and the Registry
    never holds more records than connections were accepted. *)
Theorem reachable_registry_is_well_formed
    (JSON_parse : string -> option JSValue) (es : list Event)
    (sockets0 : nat -> WebSocket) (clock0 : nat -> Z) :
  let s := snd (run JSON_parse es (initial sockets0 clock0)) in
  let accepted := fst (run JSON_parse es (initial sockets0 clock0)) in
  NoDup (map fst (connections s))
  /\ Forall (fun e => id (snd e) = fst e /\ 1 <= fst e <= connectionIdCounter s)
       (connections s)
  /\ connectionIdCounter s = Z.of_nat (List.length accepted)
  /\ Map_size (connections s) <= Z.of_nat (List.length accepted).
Proof.
  intros s accepted.
  destruct (run_registry_ok JSON_parse es _ (initial_registry_ok sockets0 clock0))
    as (H0 & Hnd & Hb).
  fold s in H0, Hnd, Hb.
  assert (Hc : connectionIdCounter s = Z.of_nat (List.length accepted)).
  { unfold s, accepted. rewrite run_counter. reflexivity. }
  split; [exact Hnd|]. split; [exact Hb|]. split; [exact Hc|].
  unfold Map_size. rewrite <- (length_map fst).
  pose proof (bounded_keys_length (map fst (connections s)) (connectionIdCounter s) Hnd)
    as Hlen.
  rewrite <- Hc.
  assert (Hk : Forall (fun k => 1 <= k <= connectionIdCounter s) (map fst (connections s))).
  { rewrite Forall_forall in *. intros k Hk.
    apply in_map_iff in Hk as (e & <- & He). exact (proj2 (Hb e He)). }
  specialize (Hlen Hk). lia.
Qed.

(** ** Registration and removal *)

(** X12.  Removing is idempotent: a close for an id that is not in the
    Registry (never registered, or already removed) leaves the world
    exactly as it is, and a second close for the same id changes nothing
    after the first. *)
Theorem on_close_is_idempotent (s : World) (connectionId : Z) :
  snd (on_close connectionId (snd (on_close connectionId s))) = snd (on_close connectionId s)
  /\ (Map_get (connections s) connectionId = None -> snd (on_close connectionId s) = s).
Proof.
  assert (Habs : forall w, Map_get (connections w) connectionId = None ->
                           snd (on_close connectionId w) = w).
  { intros w Hg. unfold on_close, modify. simpl.
    rewrite Map_delete_absent by (apply Map_get_None_iff, Hg).
    destruct w; reflexivity. }
  split; [|apply Habs].
  apply Habs. apply Map_get_delete_same.
Qed.

Lemma on_close_is_idempotent_witness :
  snd (on_close 99 demo_world) = demo_world.
Proof.
  apply (on_close_is_idempotent demo_world 99). reflexivity.
Defined.

(** X13.  In a well-formed Registry a new connection is stored after all
    the records already there, which are left exactly as they were: their
    order, ids, sockets and channel sets do not change, and the number of
    records grows by one. *)
Theorem on_connection_appends_record
    (s : World) (socket : nat) (remoteAddress : string) :
  registry_ok s ->
  let s' := snd (on_connection socket remoteAddress s) in
  connections s'
  = connections s
    ++ [(connectionIdCounter s + 1,
         mkConnectionInfo (connectionIdCounter s + 1) socket remoteAddress
           [JStr "default"] (clock s (ticks s)))]
  /\ Map_size (connections s') = Map_size (connections s) + 1
  /\ (forall other, other <> connectionIdCounter s + 1 ->
        Map_get (connections s') other = Map_get (connections s) other)
  /\ registry_ok s'.
Proof.
  intros Hok s'.
  assert (Hc : connections s'
               = connections s ++ [(connectionIdCounter s + 1, new_record s socket remoteAddress)]).
  { unfold s'. rewrite on_connection_run. cbn [snd connections].
    apply Map_set_fresh, keys_below_counter_fresh, Hok. }
  split; [exact Hc|]. split; [|split].
  - unfold Map_size. rewrite Hc, length_app. simpl. lia.
  - intros other Hne. unfold s'. rewrite on_connection_run. cbn [snd connections].
    apply Map_get_set_other, Hne.
  - apply (dispatch_registry_ok (fun _ => None) (EConnection socket remoteAddress) s Hok).
Qed.

Lemma on_connection_appends_record_witness :
  map fst (connections (snd (on_connection 9%nat "10.0.0.9" demo_world))) = [1; 2; 3; 4; 5].
Proof.
  destruct (on_connection_appends_record demo_world 9%nat "10.0.0.9") as (Hc & _).
  - apply (run_registry_ok demo_parse demo_events), initial_registry_ok.
  - rewrite Hc. reflexivity.
Defined.

(** X14.  Registering and then closing is a round trip on the Registry: in
    a well-formed Registry, when the connection just accepted is closed,
    the Registry is exactly what it was before the connection arrived.
    The counter is not taken back, so the id is not handed out again. *)
Theorem connect_then_close_restores_registry
    (s : World) (socket : nat) (remoteAddress : string) :
  registry_ok s ->
  let s' := snd (on_connection socket remoteAddress s) in
  let s'' := snd (on_close (connectionIdCounter s + 1) s') in
  fst (on_connection socket remoteAddress s) = Returned (connectionIdCounter s + 1)
  /\ connections s'' = connections s
  /\ connectionIdCounter s'' = connectionIdCounter s + 1.
Proof.
  intros Hok s' s''. split; [reflexivity|]. split; [|reflexivity].
  pose proof (keys_below_counter_fresh s Hok) as Hfresh.
  unfold s'', s'. rewrite on_connection_run. unfold on_close, modify.
  cbn [snd connections set_connections].
  rewrite Map_set_fresh by exact Hfresh.
  unfold Map_delete. rewrite filter_app. simpl. rewrite Z.eqb_refl. simpl.
  rewrite app_nil_r. apply Map_delete_absent, Hfresh.
Qed.

Lemma connect_then_close_restores_registry_witness :
  connections (snd (on_close 5 (snd (on_connection 9%nat "10.0.0.9" demo_world))))
  = connections demo_world.
Proof.
  destruct (connect_then_close_restores_registry demo_world 9%nat "10.0.0.9") as (_ & Hc & _).
  - apply (run_registry_ok demo_parse demo_events), initial_registry_ok.
  - exact Hc.
Defined.

(** ** The status route *)

Lemma filter_length_bound {A} (p : A -> bool) (l : list A) :
  (List.length (filter p l) <= List.length l)%nat.
Proof.
  induction l as [|a l IH]; simpl; [lia|]. destruct (p a); simpl; lia.
Qed.

(** X15.  The status route reports the number of records in the Registry
    and changes nothing.  It counts every registered connection, open or
    not: the number of recipients that the broadcast route reports in the
    same world is never larger than the number of connections that the
    status route reports. *)
Theorem api_status_counts_registered_connections
    (s : World) (uptime : JSValue) (timestamp : string)
    (props : list (string * JSValue)) :
  api_status uptime timestamp s
  = (Returned (JObj [("status", JStr "online");
                     ("connections", JNum (Z.of_nat (List.length (records s))));
                     ("uptime", uptime); ("timestamp", JStr timestamp)]),
     s)
  /\ exists recipients0,
       fst (api_broadcast (JObj props) s)
       = Returned (JObj [("success", JBool true); ("recipients", JNum recipients0)])
       /\ 0 <= recipients0 <= Z.of_nat (List.length (records s)).
Proof.
  split.
  - unfold api_status, bind, gets, ret, Map_size, records. rewrite length_map. reflexivity.
  - rewrite api_broadcast_run. eexists. split; [reflexivity|].
    pose proof (filter_length_bound (live s) (records s)). unfold open_records. lia.
Qed.

(** In the example world four connections are registered and three of them
    are open. *)
Example api_status_demo :
  fst (api_status (JNum 12) "2024-01-01T00:00:00.000Z" demo_world)
  = Returned (JObj [("status", JStr "online"); ("connections", JNum 4);
                    ("uptime", JNum 12); ("timestamp", JStr "2024-01-01T00:00:00.000Z")]).
Proof. vm_compute. reflexivity. Qed.

(** ** Channel delivery in a Registry of printable channels *)

(** X25.  In a Registry whose channels all have a string form (as they
    have when they are strings), a call of [broadcastToChannel] for a
    channel that has a string form writes the payload to exactly the
    records of the Registry that are live, are not the excluded id and
    have the channel in their channel set: one write per such record, in
    the order of the Registry, and the count returned is the number of such
    records.  When the records hold distinct sockets, the socket of a
    qualifying record gets exactly one copy and every other socket of the
    Registry none.  A [message] event is routed this way with no id
    excluded, its payload tagged with the channel, the id of the sender and
    a timestamp; so a sender that is a live subscriber of the channel gets
    its own message. *)
Theorem broadcastToChannel_delivers_to_subscribers
    (s : World) (channel payload0 excludeId : JSValue) :
  printable_registry s = true ->
  let ex := effective_excludeId excludeId in
  let rs := recipients s channel ex in
  (printable channel = true ->
   broadcastToChannel channel payload0 excludeId s
   = (Returned (Z.of_nat (List.length rs)),
      set_wire (wire s ++ map (deliver s payload0) rs) s))
  /\ (forall conn,
        In conn rs <->
        In conn (records s) /\ live s conn = true
        /\ strict_eq (JNum (id conn)) ex = false
        /\ Set_has (channels conn) channel = true)
  /\ (NoDup (map ws (records s)) ->
      forall conn, In conn (records s) ->
        map payload (sends_to (ws conn) (map (deliver s payload0) rs))
        = if qualifies s channel ex conn then [payload0] else [])
  /\ (forall JSON_parse connectionId socket data message,
        JSON_parse data = Some message ->
        nullish message = false ->
        prop_of message "type" = JStr "message" ->
        printable (target_channel message) = true ->
        let topic := target_channel message in
        let frame := channel_message_frame topic connectionId
                       (prop_of message "data") (clock s (ticks s)) in
        on_message JSON_parse connectionId socket data s
        = (Returned tt,
           set_wire (wire s ++ map (deliver s frame) (recipients s topic JNull))
             (set_ticks (S (ticks s)) s))
        /\ (forall me,
              In me (records s) -> id me = connectionId -> live s me = true ->
              Set_has (channels me) topic = true ->
              In (deliver s frame me) (map (deliver s frame) (recipients s topic JNull)))).
Proof.
  intros Hreg ex rs. split; [intros Hc; apply broadcastToChannel_run_printable; assumption|].
  split; [|split].
  - intros conn. unfold rs, recipients, qualifies. rewrite filter_In.
    rewrite !andb_true_iff, negb_true_iff. tauto.
  - intros Hnd conn Hin. unfold rs, recipients.
    rewrite sends_to_deliver by assumption.
    destruct (qualifies s channel ex conn); reflexivity.
  - intros JSON_parse connectionId socket data message Hp Hn Ht Hc topic frame. split.
    + rewrite on_message_dispatch with (message := message) by assumption.
      rewrite try_catch_run. cbv zeta. rewrite Ht.
      cbn [strict_eq String.eqb Ascii.eqb Bool.eqb].
      rewrite case_message_run by exact Hn.
      rewrite Hreg, Hc, visited_all by exact Hreg. reflexivity.
    + intros me Hin Hid Hl Hs. apply in_map. unfold recipients, qualifies.
      apply filter_In. split; [exact Hin|]. rewrite Hl, Hs. reflexivity.
Qed.

(** In the example world, connection 1 sends [hi] on [gaming]: it is open
    and subscribed, and the frame comes back to its own socket as well as
    to the socket of connection 2. *)
Lemma broadcastToChannel_delivers_to_subscribers_witness :
  NoDup (map ws (records demo_world))
  /\ map payload
       (sends_to 0%nat
          (map (deliver demo_world (JStr "hi"))
             (recipients demo_world (JStr "gaming") JNull)))
     = [JStr "hi"]
  /\ map dest (skipn (List.length (wire demo_world))
                 (wire (snd (on_message demo_parse 1 0%nat "message gaming hi" demo_world))))
     = [0%nat; 1%nat]
  /\ In (mkSent 0
           (JObj [("type", JStr "channel_message"); ("channel", JStr "gaming");
                  ("connectionId", JNum 1); ("data", JStr "hi");
                  ("timestamp", JNum 1010)])
           true)
        (wire (snd (on_message demo_parse 1 0%nat "message gaming hi" demo_world))).
Proof.
  pose proof (broadcastToChannel_delivers_to_subscribers
                demo_world (JStr "gaming") (JStr "hi") JUndefined eq_refl)
    as (_ & _ & Hone & Hmsg).
  assert (Hnd : NoDup (map ws (records demo_world))).
  { vm_compute. repeat constructor; simpl; intuition discriminate. }
  destruct (Hmsg demo_parse 1 0%nat "message gaming hi"
              (JObj [("type", JStr "message"); ("channel", JStr "gaming");
                     ("data", JStr "hi")])
              eq_refl eq_refl eq_refl eq_refl) as [Hrun Hme].
  split; [exact Hnd|]. split; [|split].
  - apply (Hone Hnd (mkConnectionInfo 1 0 "10.0.0.1" [JStr "default"; JStr "gaming"] 1000)).
    vm_compute. left; reflexivity.
  - rewrite Hrun. vm_compute. reflexivity.
  - rewrite Hrun. cbn [snd wire set_wire]. apply in_or_app. right.
    apply (Hme (mkConnectionInfo 1 0 "10.0.0.1" [JStr "default"; JStr "gaming"] 1000)).
    + vm_compute. left; reflexivity.
    + reflexivity.
    + reflexivity.
    + reflexivity.
Defined.

(** ** Unsubscription from a printable channel *)

(** X26.  An [unsubscribe] event on a registered connection, for a
    channel that has a string form and a record whose channels all have
    one (the log line of the case prints them), removes the channel from
    the channel set of the record; when the channel is not in the set, the
    Registry is left exactly as it was.  In every such case the handler
    returns normally and writes one frame, the [unsubscribed]
    acknowledgement that carries the channel, to the socket of the
    connection and to no other. *)
Theorem unsubscribe_is_idempotent_and_acknowledged
    (JSON_parse : string -> option JSValue) (s : World) (connectionId : Z) (socket : nat)
    (data : string) (message : JSValue) (record : ConnectionInfo) :
  JSON_parse data = Some message ->
  nullish message = false ->
  prop_of message "type" = JStr "unsubscribe" ->
  Map_get (connections s) connectionId = Some record ->
  printable (prop_of message "channel") = true ->
  printable_record record = true ->
  let channel := prop_of message "channel" in
  let s' := snd (on_message JSON_parse connectionId socket data s) in
  fst (on_message JSON_parse connectionId socket data s) = Returned tt
  /\ wire s'
     = wire s ++ [mkSent socket
                    (JObj [("type", JStr "unsubscribed"); ("channel", channel);
                           ("timestamp", JNum (clock s (ticks s)))])
                    (writable (sockets s socket))]
  /\ Map_get (connections s') connectionId
     = Some (mkConnectionInfo (id record) (ws record) (ip record)
               (Set_delete (channels record) channel) (connectedAt record))
  /\ (Set_has (channels record) channel = false -> connections s' = connections s)
  /\ Set_has (Set_delete (channels record) channel) channel = false.
Proof.
  intros Hp Hn Ht Hg Hc _ channel s'.
  unfold s'. rewrite (on_message_unsubscribe_run_printable _ _ _ _ _ _ _ Hp Hn Ht Hg Hc).
  cbn [fst snd].
  split; [reflexivity|]. split; [reflexivity|]. split; [|split].
  - simpl. apply update_channels_get, Hg.
  - intros Habs. simpl. apply update_channels_same with (c := record); [exact Hg|].
    apply Set_delete_absent, Habs.
  - apply Set_has_delete.
Qed.

(** In the example world connection 3 unsubscribes from [gaming], to which
    it never subscribed: the Registry is unchanged and the acknowledgement
    goes to its socket. *)
Lemma unsubscribe_is_idempotent_and_acknowledged_witness :
  connections (snd (on_message demo_parse 3 2%nat "unsubscribe gaming" demo_world))
  = connections demo_world
  /\ map dest (skipn (List.length (wire demo_world))
                 (wire (snd (on_message demo_parse 3 2%nat "unsubscribe gaming" demo_world))))
     = [2%nat].
Proof.
  destruct (unsubscribe_is_idempotent_and_acknowledged demo_parse demo_world 3 2%nat
              "unsubscribe gaming"
              (JObj [("type", JStr "unsubscribe"); ("channel", JStr "gaming")])
              (mkConnectionInfo 3 2 "10.0.0.3" [JStr "default"] 1004)
              eq_refl eq_refl eq_refl eq_refl eq_refl eq_refl) as (_ & Hw & _ & Hsame & _).
  split.
  - apply Hsame. reflexivity.
  - rewrite Hw. rewrite skipn_app, skipn_all, Nat.sub_diag. reflexivity.
Defined.

(** ** Channels that have no string form *)

(** X27.  A [subscribe] event on a registered connection for a channel
    that has no string form (an object with a property [toString], or an
    array that holds one) is answered with two frames on the socket of the
    connection: the [subscribed] acknowledgement and then, the log line
    having thrown, an [error] event with a later timestamp.  The channel is
    in the channel set of the record all the same, and in the world that
    the event leaves every channel delivery throws, whatever its
    channel. *)
Theorem subscribe_to_unprintable_channel_gets_error
    (JSON_parse : string -> option JSValue) (connectionId : Z) (socket : nat)
    (data : string) (message : JSValue) (record : ConnectionInfo) (s : World) :
  JSON_parse data = Some message ->
  nullish message = false ->
  prop_of message "type" = JStr "subscribe" ->
  Map_get (connections s) connectionId = Some record ->
  printable (prop_of message "channel") = false ->
  let channel := prop_of message "channel" in
  let s' := snd (on_message JSON_parse connectionId socket data s) in
  fst (on_message JSON_parse connectionId socket data s) = Returned tt
  /\ wire s'
     = wire s ++ [mkSent socket
                    (JObj [("type", JStr "subscribed"); ("channel", channel);
                           ("timestamp", JNum (clock s (ticks s)))])
                    (writable (sockets s socket));
                  mkSent socket
                    (JObj [("type", JStr "error");
                           ("message", JStr "Invalid message format");
                           ("timestamp", JNum (clock s (S (ticks s))))])
                    (writable (sockets s socket))]
  /\ Map_get (connections s') connectionId
     = Some (mkConnectionInfo (id record) (ws record) (ip record)
               (channels record ++ [channel]) (connectedAt record))
  /\ (forall topic payload0 excludeId,
        fst (broadcastToChannel topic payload0 excludeId s') = Thrown TypeError).
Proof.
  intros Hp Hn Ht Hg Hc channel s'.
  assert (Hrun : on_message JSON_parse connectionId socket data s
                 = caught (Thrown TypeError) socket
                     (after_send
                        (set_connections
                           (update_channels (connections s) connectionId
                              (fun cs => Set_add cs channel)) s)
                        socket (ack_frame "subscribed" channel))).
  { rewrite (on_message_subscribe_run _ _ _ _ _ _ Hp Hn Ht), Hg.
    unfold logged. rewrite Hc. reflexivity. }
  unfold s'. rewrite Hrun. cbn [caught fst snd].
  split; [reflexivity|]. split; [|split].
  - unfold after_send. cbn [wire set_wire set_ticks set_connections sockets clock ticks].
    rewrite <- app_assoc. reflexivity.
  - cbn [after_send connections set_wire set_ticks set_connections].
    rewrite (update_channels_get _ _ _ _ Hg). unfold Set_add.
    rewrite (unprintable_is_fresh _ _ Hc). reflexivity.
  - intros topic payload0 excludeId. rewrite broadcastToChannel_run. cbn [fst].
    replace (printable_registry _) with false; [reflexivity|].
    symmetry. unfold printable_registry, records.
    cbn [after_send connections set_wire set_ticks set_connections].
    apply update_channels_unprintable with (r := record); [exact Hg|].
    apply Set_add_unprintable, Hc.
Qed.

(** The frame that makes the poisoned world of the examples. *)
Lemma subscribe_to_unprintable_channel_gets_error_witness :
  map dest (skipn (List.length (wire demo_world)) (wire poisoned_world)) = [1%nat; 1%nat]
  /\ fst (broadcastToChannel (JStr "sports") (JStr "hi") JUndefined poisoned_world)
     = Thrown TypeError.
Proof.
  destruct (subscribe_to_unprintable_channel_gets_error poison_parse 2 1%nat
              "subscribe unprintable"
              (JObj [("type", JStr "subscribe"); ("channel", unprintable)])
              (mkConnectionInfo 2 1 "10.0.0.2" [JStr "default"; JStr "gaming"] 1002)
              demo_world eq_refl eq_refl eq_refl eq_refl eq_refl) as (_ & Hw & _ & Hthrow).
  split.
  - unfold poisoned_world. rewrite Hw, skipn_app, skipn_all, Nat.sub_diag. reflexivity.
  - apply Hthrow.
Defined.

(** X28.  What a channel delivery does in any Registry.  It writes the
    payload to the qualifying records that come before the first record
    holding a channel with no string form, in the order of the Registry,
    and to no record from that one on; it never changes the Registry.  It
    throws exactly when some record holds such a channel or the channel of
    the delivery is one; otherwise every qualifying record has been
    written to. *)
Theorem fanout_stops_at_unprintable_record
    (s : World) (channel payload0 excludeId : JSValue) :
  let ex := effective_excludeId excludeId in
  let s' := snd (broadcastToChannel channel payload0 excludeId s) in
  wire s' = wire s ++ map (deliver s payload0) (visited s channel ex)
  /\ connections s' = connections s
  /\ (fst (broadcastToChannel channel payload0 excludeId s) = Thrown TypeError
      <-> printable_registry s = false \/ printable channel = false)
  /\ (printable_registry s = true -> visited s channel ex = recipients s channel ex)
  /\ (forall before conn after,
        records s = before ++ conn :: after ->
        forallb printable_record before = true ->
        printable_record conn = false ->
        visited s channel ex = filter (qualifies s channel ex) before).
Proof.
  intros ex s'. unfold s'. rewrite broadcastToChannel_run. cbn [fst snd].
  split; [reflexivity|]. split; [reflexivity|]. split; [|split].
  - destruct (printable_registry s), (printable channel); cbn [andb];
      split; intros H; try discriminate H; try reflexivity; auto.
    destruct H as [H|H]; discriminate H.
  - apply visited_all.
  - intros before conn after Hrec Hb Hc. unfold visited.
    rewrite Hrec, (reached_prefix before after conn Hb Hc). reflexivity.
Qed.

(** * Properties of the client *)

(** ** Reconnection *)

(** X16.  One reconnection attempt.  While fewer than the maximum number
    of attempts have been made, [attemptReconnect] counts one more attempt
    and sets exactly one timer, whose delay is 1000 * 2^attempts
    milliseconds capped at 10000, hence between 2000 and 10000; once the
    maximum is reached it sets no timer and changes nothing.  The number of
    attempts never passes the maximum. *)
Theorem client_reconnect_delay_is_bounded (w : Client.World) :
  0 <= Client.reconnectAttempts (Client.self w) <= Client.maxReconnectAttempts (Client.self w) ->
  let attempts := Client.reconnectAttempts (Client.self w) in
  let w' := Client.attemptReconnect w in
  (attempts < Client.maxReconnectAttempts (Client.self w) ->
     exists delay,
       Client.timers w' = Client.timers w ++ [delay]
       /\ delay = Z.min (1000 * 2 ^ (attempts + 1)) 10000
       /\ 2000 <= delay <= 10000
       /\ Client.reconnectAttempts (Client.self w') = attempts + 1)
  /\ (attempts = Client.maxReconnectAttempts (Client.self w) -> w' = w)
  /\ 0 <= Client.reconnectAttempts (Client.self w') <= Client.maxReconnectAttempts (Client.self w')
  /\ Client.sent w' = Client.sent w
  /\ Client.subscribedChannels (Client.self w') = Client.subscribedChannels (Client.self w).
Proof.
  intros Hb attempts w'. unfold w', Client.attemptReconnect. fold attempts.
  destruct (Z.ltb_spec attempts (Client.maxReconnectAttempts (Client.self w))) as [Hlt|Hge].
  - assert (Hpow : 2 ^ 1 <= 2 ^ (attempts + 1)) by (apply Z.pow_le_mono_r; lia).
    rewrite Z.pow_1_r in Hpow.
    split; [|split; [|split; [|split]]].
    + intros _. exists (Z.min (1000 * 2 ^ (attempts + 1)) 10000).
      split; [reflexivity|]. split; [reflexivity|]. split; [lia|reflexivity].
    + intros Heq. lia.
    + cbn [Client.self Client.reconnectAttempts Client.maxReconnectAttempts
           Client.set_reconnectAttempts]. lia.
    + reflexivity.
    + reflexivity.
  - split; [lia|]. split; [reflexivity|]. split; [exact Hb|]. split; reflexivity.
Qed.

Lemma client_reconnect_delay_is_bounded_witness :
  Client.timers (Client.attemptReconnect demo_client) = [2000].
Proof.
  destruct (client_reconnect_delay_is_bounded demo_client) as (Hstep & _).
  - simpl. lia.
  - destruct Hstep as (delay & Ht & Hd & _); [simpl; lia|].
    rewrite Ht, Hd. reflexivity.
Defined.

Lemma after_closes_schedule (n : nat) :
  forall (w : Client.World) (a : nat),
    Client.maxReconnectAttempts (Client.self w) = 5 ->
    Client.reconnectAttempts (Client.self w) = Z.of_nat a ->
    (a <= 5)%nat ->
    Client.timers (after_closes n w) = Client.timers w ++ firstn n (skipn a backoff)
    /\ Client.reconnectAttempts (Client.self (after_closes n w)) = Z.of_nat (Nat.min (a + n) 5)
    /\ Client.sent (after_closes n w) = Client.sent w.
Proof.
  induction n as [|n IH]; intros w a Hmax Hatt Ha.
  - simpl. rewrite app_nil_r, Nat.add_0_r, Nat.min_l by exact Ha. auto.
  - cbn [after_closes]. unfold Client.on_close, Client.attemptReconnect.
    rewrite Hmax, Hatt.
    destruct (Z.ltb_spec (Z.of_nat a) 5) as [Hlt|Hge].
    + assert (Hcases : a = 0%nat \/ a = 1%nat \/ a = 2%nat \/ a = 3%nat \/ a = 4%nat) by lia.
      match goal with |- context [after_closes n ?w1] =>
        destruct (IH w1 (S a)) as (Ht & Hr & Hs);
          [exact Hmax|simpl; lia|lia|]
      end.
      rewrite Ht, Hr, Hs. simpl Client.timers. simpl Client.sent.
      rewrite <- app_assoc.
      split; [|split; [f_equal; lia|reflexivity]].
      f_equal.
      destruct Hcases as [->|[->|[->|[->| ->]]]]; reflexivity.
    + assert (a = 5%nat) by lia. subst a.
      destruct (IH w 5%nat Hmax Hatt Ha) as (Ht & Hr & Hs).
      rewrite Ht, Hr, Hs. simpl. rewrite firstn_nil.
      split; [reflexivity|]. split; [f_equal; lia|reflexivity].
Qed.

(** X17.  The reconnection schedule.  After the socket has opened, or in a
    client that has just been built, [n] closes in a row set the first [n]
    of the delays 2000, 4000, 8000, 10000, 10000 and no more: after the
    fifth the client gives up and further closes set no timer.  An open
    starts the schedule afresh.  None of this sends a frame. *)
Theorem client_reconnect_schedule (n : nat) (w : Client.World) (url0 : string)
    (sockets0 : nat -> ReadyState) :
  Client.timers (after_closes n (Client.connect (Client.start url0 sockets0)))
  = firstn n backoff
  /\ (Client.maxReconnectAttempts (Client.self w) = 5 ->
      Client.timers (after_closes n (Client.on_open w)) = Client.timers w ++ firstn n backoff
      /\ Client.reconnectAttempts (Client.self (after_closes n (Client.on_open w)))
         = Z.of_nat (Nat.min n 5)
      /\ Client.sent (after_closes n (Client.on_open w)) = Client.sent w).
Proof.
  split.
  - destruct (after_closes_schedule n (Client.connect (Client.start url0 sockets0)) 0%nat)
      as (Ht & _); try reflexivity; [lia|exact Ht].
  - intros Hmax.
    destruct (after_closes_schedule n (Client.on_open w) 0%nat) as (Ht & Hr & Hs);
      try reflexivity; [exact Hmax|lia|].
    auto.
Qed.

Lemma client_reconnect_schedule_witness :
  Client.timers (after_closes 7 (Client.on_open (Client.attemptReconnect demo_client)))
  = [2000; 2000; 4000; 8000; 10000; 10000].
Proof.
  destruct (client_reconnect_schedule 7 (Client.attemptReconnect demo_client) "" (fun _ => OPEN))
    as (_ & Hopen).
  destruct (Hopen eq_refl) as (Ht & _). rewrite Ht. reflexivity.
Defined.

(** ** Sending *)

(** X18.  A client that is not connected (no socket yet, or a socket that
    is not open) sends nothing: [subscribe], [unsubscribe],
    [sendToChannel], [sendDirect] and [ping] leave the world as it is.  In
    particular a subscription asked for while disconnected is not
    remembered in the local set of channels. *)
Theorem client_sends_nothing_when_not_connected
    (w : Client.World) (channel : string) (targetId data : JSValue) :
  Client.connected w = false ->
  Client.subscribe channel w = w
  /\ Client.unsubscribe channel w = w
  /\ Client.sendToChannel channel data w = w
  /\ Client.sendDirect targetId data w = w
  /\ Client.ping w = w.
Proof.
  intros Hc. unfold Client.subscribe, Client.unsubscribe. rewrite Hc.
  split; [reflexivity|]. split; [reflexivity|].
  unfold Client.sendToChannel, Client.sendDirect, Client.ping, Client.send.
  unfold Client.connected in Hc.
  destruct (Client.ws (Client.self w)) as [h|]; [rewrite Hc|]; repeat split.
Qed.

Lemma client_sends_nothing_when_not_connected_witness :
  Client.subscribe "gaming" (Client.connect (Client.start "ws://localhost:3000" (fun _ => CLOSED)))
  = Client.connect (Client.start "ws://localhost:3000" (fun _ => CLOSED)).
Proof.
  destruct (client_sends_nothing_when_not_connected
              (Client.connect (Client.start "ws://localhost:3000" (fun _ => CLOSED)))
              "gaming" JNull JNull eq_refl) as (Hs & _).
  exact Hs.
Defined.

(** X19.  On an open socket [subscribe] adds the channel to the local set
    and hands exactly one [subscribe] frame to that socket, and
    [unsubscribe] removes it and hands over one [unsubscribe] frame; the
    channel is in the local set after the first and not after the second.
    Nothing else of the client changes. *)
Theorem client_subscribe_when_connected
    (w : Client.World) (h : nat) (channel : string) :
  Client.ws (Client.self w) = Some h ->
  Client.sockets w h = OPEN ->
  let sub := Client.subscribe channel w in
  let unsub := Client.unsubscribe channel w in
  Client.sent sub
  = Client.sent w ++ [(h, JObj [("type", JStr "subscribe"); ("channel", JStr channel)])]
  /\ Client.subscribedChannels (Client.self sub)
     = Set_add (Client.subscribedChannels (Client.self w)) (JStr channel)
  /\ Set_has (Client.subscribedChannels (Client.self sub)) (JStr channel) = true
  /\ Client.sent unsub
     = Client.sent w ++ [(h, JObj [("type", JStr "unsubscribe"); ("channel", JStr channel)])]
  /\ Client.subscribedChannels (Client.self unsub)
     = Set_delete (Client.subscribedChannels (Client.self w)) (JStr channel)
  /\ Set_has (Client.subscribedChannels (Client.self unsub)) (JStr channel) = false
  /\ Client.connected sub = true /\ Client.connected unsub = true
  /\ Client.timers sub = Client.timers w /\ Client.timers unsub = Client.timers w.
Proof.
  intros Hws Hopen sub unsub.
  assert (Hc : Client.connected w = true).
  { unfold Client.connected. rewrite Hws, Hopen. reflexivity. }
  unfold sub, unsub, Client.subscribe, Client.unsubscribe. rewrite Hc.
  unfold Client.send, Client.connected. simpl. rewrite Hws, Hopen. simpl.
  rewrite Hws, Hopen. simpl.
  repeat split.
  - apply Set_has_add. simpl. apply String.eqb_refl.
  - apply Set_has_delete.
Qed.

Lemma client_subscribe_when_connected_witness :
  Client.sent (Client.subscribe "gaming" demo_client)
  = [(0%nat, JObj [("type", JStr "subscribe"); ("channel", JStr "gaming")])]
  /\ Client.subscribedChannels (Client.self (Client.unsubscribe "default" demo_client)) = [].
Proof.
  destruct (client_subscribe_when_connected demo_client 0%nat "gaming" eq_refl eq_refl)
    as (Hs & _).
  destruct (client_subscribe_when_connected demo_client 0%nat "default" eq_refl eq_refl)
    as (_ & _ & _ & _ & Hu & _).
  split; [exact Hs|]. rewrite Hu. reflexivity.
Defined.

(** ** Inbound frames *)

Lemma lookup_prop_printable (props : list (string * JSValue)) (k : string) :
  forallb (fun field => printable (snd field)) props = true ->
  printable (lookup_prop props k) = true.
Proof.
  induction props as [|[k' v] rest IH]; simpl; [reflexivity|].
  rewrite andb_true_iff. intros [Hv Hrest].
  destruct (String.eqb k k'); [exact Hv|exact (IH Hrest)].
Qed.

Lemma interpolated_printable (props : list (string * JSValue)) :
  forallb (fun field => printable (snd field)) props = true ->
  forallb printable (Client.interpolated (JObj props)) = true.
Proof.
  intros H. unfold Client.interpolated. cbv zeta. cbn [prop_of].
  repeat match goal with
         | |- context [if ?b then _ else _] => destruct b
         end;
    cbn [forallb]; rewrite ?(lookup_prop_printable props _ H); reflexivity.
Qed.

Lemma handlers_get_set_same (m : list (string * nat)) (k : string) (v : nat) :
  Client.handlers_get (Client.handlers_set m k v) k = Some v.
Proof.
  induction m as [|[k' v'] rest IH]; simpl.
  - rewrite String.eqb_refl. reflexivity.
  - destruct (String.eqb_spec k k') as [->|Hne]; simpl.
    + rewrite String.eqb_refl. reflexivity.
    + destruct (String.eqb_spec k k'); [contradiction|exact IH].
Qed.

Lemma handlers_get_set_other (m : list (string * nat)) (k k0 : string) (v : nat) :
  k0 <> k -> Client.handlers_get (Client.handlers_set m k v) k0 = Client.handlers_get m k0.
Proof.
  intros Hne. induction m as [|[k' v'] rest IH]; simpl.
  - destruct (String.eqb_spec k0 k); [contradiction|reflexivity].
  - destruct (String.eqb_spec k k') as [->|Hne']; simpl.
    + destruct (String.eqb_spec k0 k'); [contradiction|reflexivity].
    + destruct (String.eqb k0 k'); [reflexivity|exact IH].
Qed.

Lemma handlers_set_set (m : list (string * nat)) (k : string) (v1 v2 : nat) :
  Client.handlers_set (Client.handlers_set m k v1) k v2 = Client.handlers_set m k v2.
Proof.
  induction m as [|[k' v'] rest IH]; simpl.
  - rewrite String.eqb_refl. reflexivity.
  - destruct (String.eqb_spec k k') as [->|Hne]; simpl.
    + rewrite String.eqb_refl. reflexivity.
    + destruct (String.eqb_spec k k'); [contradiction|]. rewrite IH. reflexivity.
Qed.

(** X20.  Dispatch of an inbound frame to the handlers of the user.  A
    frame of type [t] that decodes to an object whose fields all have a
    string form (the log lines of [handleMessage] print some of them)
    calls the handler registered for [t] exactly once, with the frame, and
    calls no other handler, whatever else was registered; registering a
    second handler for [t] replaces the first, which is not called any
    more.  The id of the client is replaced by the [connectionId] of the
    frame when [t] is [connection] and is left alone otherwise.  No frame
    is sent in answer. *)
Theorem client_calls_latest_handler
    (JSON_parse : string -> option JSValue) (w : Client.World) (data : string)
    (props : list (string * JSValue)) (t other : string) (first latest stranger : nat) :
  JSON_parse data = Some (JObj props) ->
  lookup_prop props "type" = JStr t ->
  forallb (fun field => printable (snd field)) props = true ->
  let registered :=
    Client.onMessage t latest (Client.onMessage other stranger (Client.onMessage t first w)) in
  let w' := Client.on_message JSON_parse data registered in
  Client.called w' = Client.called w ++ [(latest, JObj props)]
  /\ Client.connectionId (Client.self w')
     = (if String.eqb t "connection"
        then lookup_prop props "connectionId"
        else Client.connectionId (Client.self w))
  /\ Client.sent w' = Client.sent w
  /\ Client.subscribedChannels (Client.self w') = Client.subscribedChannels (Client.self w).
Proof.
  intros Hp Ht Hprops registered w'.
  assert (Hh : Client.handlers_get
                 (Client.messageHandlers (Client.self registered)) t = Some latest).
  { unfold registered, Client.onMessage. simpl. apply handlers_get_set_same. }
  unfold w', Client.on_message. rewrite Hp. unfold Client.handleMessage.
  rewrite (interpolated_printable props Hprops).
  cbn [nullish prop_of negb]. rewrite Ht. cbn [strict_eq].
  destruct (String.eqb t "connection"); cbv zeta;
    cbn [Client.self Client.set_self Client.connectionId Client.set_connectionId];
    rewrite ?(lookup_prop_printable props "connectionId" Hprops);
    cbn [negb andb snd];
    unfold Client.handler_for; cbn [Client.self Client.set_self Client.messageHandlers
                                    Client.set_connectionId];
    rewrite Hh; repeat split.
Qed.

Lemma client_calls_latest_handler_witness :
  Client.called
    (Client.on_message demo_parse "ping"
       (Client.onMessage "ping" 8 (Client.onMessage "pong" 9 (Client.onMessage "ping" 7
          demo_client))))
  = [(8%nat, JObj [("type", JStr "ping")])].
Proof.
  destruct (client_calls_latest_handler demo_parse demo_client "ping"
              [("type", JStr "ping")] "ping" "pong" 7 8 9 eq_refl eq_refl eq_refl)
    as (Hc & _).
  exact Hc.
Defined.

(** X21.  A frame that does not decode, or that decodes to [null], is
    dropped by the client: no handler is called, the id and the local set
    of channels are kept and nothing is sent.  A frame of a type for which
    no handler is registered calls no handler either. *)
Theorem client_drops_undecodable_frames
    (JSON_parse : string -> option JSValue) (w : Client.World) (data : string) :
  (JSON_parse data = None \/ JSON_parse data = Some JNull ->
   Client.on_message JSON_parse data w = w)
  /\ (forall message,
        JSON_parse data = Some message -> nullish message = false ->
        Client.handler_for (Client.self w) (prop_of message "type") = None ->
        strict_eq (prop_of message "type") (JStr "connection") = false ->
        Client.on_message JSON_parse data w = w).
Proof.
  split.
  - intros [Hp|Hp]; unfold Client.on_message; rewrite Hp; reflexivity.
  - intros message Hp Hn Hh Ht. unfold Client.on_message, Client.handleMessage.
    rewrite Hp, Hn, Ht. cbv zeta. cbn [andb]. rewrite Hh.
    destruct (negb (forallb printable (Client.interpolated message))); reflexivity.
Qed.

Lemma client_drops_undecodable_frames_witness :
  Client.on_message demo_parse "{oops" demo_client = demo_client
  /\ Client.on_message demo_parse "hello" demo_client = demo_client.
Proof.
  destruct (client_drops_undecodable_frames demo_parse demo_client "{oops") as (Hbad & _).
  destruct (client_drops_undecodable_frames demo_parse demo_client "hello") as (_ & Hnone).
  split.
  - apply Hbad. left. reflexivity.
  - apply (Hnone (JObj [("type", JStr "hello"); ("text", JStr "world")]));
      reflexivity.
Defined.

(** X29.  A frame whose log line cannot be built calls no handler.  With
    a handler registered for [broadcast], a [broadcast] frame whose
    channel has no string form leaves the client exactly as it was: the
    handler is not called.  With a handler registered for [connection], a
    [connection] frame whose id has no string form is taken as the id of
    the client, and the handler is not called either. *)
Theorem client_unprintable_frame_calls_no_handler
    (JSON_parse : string -> option JSValue) (w : Client.World) (data : string)
    (props : list (string * JSValue)) (handler : nat) :
  JSON_parse data = Some (JObj props) ->
  (lookup_prop props "type" = JStr "broadcast" ->
   printable (lookup_prop props "channel") = false ->
   Client.on_message JSON_parse data (Client.onMessage "broadcast" handler w)
   = Client.onMessage "broadcast" handler w)
  /\ (lookup_prop props "type" = JStr "connection" ->
      printable (lookup_prop props "connectionId") = false ->
      let w' := Client.on_message JSON_parse data (Client.onMessage "connection" handler w) in
      Client.called w' = Client.called w
      /\ Client.connectionId (Client.self w') = lookup_prop props "connectionId").
Proof.
  intros Hp. split.
  - intros Ht Hc. unfold Client.on_message. rewrite Hp.
    unfold Client.handleMessage, Client.interpolated.
    cbn [nullish prop_of]. rewrite Ht.
    cbn [strict_eq String.eqb Ascii.eqb Bool.eqb andb forallb]. cbv zeta.
    rewrite Hc. reflexivity.
  - intros Ht Hc w'. unfold w', Client.on_message. rewrite Hp.
    unfold Client.handleMessage.
    cbn [nullish prop_of]. rewrite Ht.
    cbn [strict_eq String.eqb Ascii.eqb Bool.eqb]. cbv zeta.
    cbn [Client.self Client.set_self Client.connectionId Client.set_connectionId].
    rewrite Hc. split; reflexivity.
Qed.

(** The broadcast route has relayed a channel with no string form to the
    client of the example, which has a handler for [broadcast]. *)
Lemma client_unprintable_frame_calls_no_handler_witness :
  Client.called
    (Client.on_message
       (fun _ => Some (JObj [("type", JStr "broadcast"); ("channel", unprintable);
                             ("message", JStr "hi")]))
       "relayed" (Client.onMessage "broadcast" 7 demo_client))
  = [].
Proof.
  destruct (client_unprintable_frame_calls_no_handler
              (fun _ => Some (JObj [("type", JStr "broadcast"); ("channel", unprintable);
                                    ("message", JStr "hi")]))
              demo_client "relayed"
              [("type", JStr "broadcast"); ("channel", unprintable); ("message", JStr "hi")]
              7 eq_refl) as (Hb & _).
  rewrite Hb by reflexivity. reflexivity.
Defined.

(** * Client and server together *)

(** X22.  The welcome.  When the server accepts a connection it writes one
    frame to the new socket; a client that receives that frame takes the
    [connectionId] in it as its own id, and this is the id under which the
    server has stored the record of the connection, with the socket it
    wrote to. *)
Theorem client_learns_the_id_the_server_stored
    (JSON_parse : string -> option JSValue) (s : World) (socket : nat)
    (remoteAddress : string) (cw : Client.World) (data : string) :
  let s' := snd (on_connection socket remoteAddress s) in
  let welcome := skipn (List.length (wire s)) (wire s') in
  (forall frame, map payload welcome = [frame] -> JSON_parse data = Some frame) ->
  exists assigned record,
    map dest welcome = [socket]
    /\ Client.connectionId (Client.self (Client.on_message JSON_parse data cw)) = JNum assigned
    /\ fst (on_connection socket remoteAddress s) = Returned assigned
    /\ Map_get (connections s') assigned = Some record
    /\ id record = assigned
    /\ ws record = socket.
Proof.
  intros s' welcome Hdata.
  exists (connectionIdCounter s + 1), (new_record s socket remoteAddress).
  assert (Hw : welcome
               = [mkSent socket
                    (welcome_frame (connectionIdCounter s + 1) (clock s (S (ticks s))))
                    (writable (sockets s socket))]).
  { unfold welcome, s'. rewrite on_connection_run. cbn [snd wire].
    rewrite skipn_app, skipn_all, Nat.sub_diag. reflexivity. }
  split; [rewrite Hw; reflexivity|]. split.
  - unfold Client.on_message.
    rewrite (Hdata (welcome_frame (connectionIdCounter s + 1) (clock s (S (ticks s)))))
      by (rewrite Hw; reflexivity).
    unfold Client.handleMessage, Client.interpolated, welcome_frame.
    cbn [nullish prop_of lookup_prop].
    cbn [String.eqb Ascii.eqb Bool.eqb strict_eq]. cbv zeta.
    cbn [Client.self Client.set_self Client.connectionId Client.set_connectionId
         printable forallb negb andb].
    destruct (Client.handler_for _ _); reflexivity.
  - split; [reflexivity|]. split; [|split; reflexivity].
    unfold s'. rewrite on_connection_run. cbn [snd connections]. apply Map_get_set_same.
Qed.

(** A fifth connection arrives in the example world; the client is told
    that it is connection 5. *)
Lemma client_learns_the_id_the_server_stored_witness :
  Client.connectionId
    (Client.self
       (Client.on_message
          (fun _ => Some (welcome_frame 5 1011)) "welcome"
          (Client.connect (Client.start "ws://localhost:3000" (fun _ => CLOSED)))))
  = JNum 5.
Proof.
  destruct (client_learns_the_id_the_server_stored
              (fun _ => Some (welcome_frame 5 1011)) demo_world 9%nat "10.0.0.9"
              (Client.connect (Client.start "ws://localhost:3000" (fun _ => CLOSED)))
              "welcome")
    as (assigned & record & _ & Hid & Hret & _).
  - intros frame Hf. vm_compute in Hf. injection Hf as <-. reflexivity.
  - rewrite Hid. vm_compute in Hret. injection Hret as <-. reflexivity.
Defined.

Lemma call_and_relay_agree
    (JSON_parse : string -> option JSValue) (encode : JSValue -> string)
    (connectionId : Z) (socket : nat) (c : Client.Call)
    (cw : Client.World) (s : World) (record : ConnectionInfo) :
  JSON_parse (encode (call_frame c)) = Some (call_frame c) ->
  Map_get (connections s) connectionId = Some record ->
  channels record = Client.subscribedChannels (Client.self cw) ->
  exists record',
    Map_get (connections (snd (call_and_relay JSON_parse encode connectionId socket c (cw, s))))
      connectionId = Some record'
    /\ channels record'
       = Client.subscribedChannels
           (Client.self (fst (call_and_relay JSON_parse encode connectionId socket c (cw, s))))
    /\ ws record' = ws record /\ id record' = id record.
Proof.
  intros Hrt Hg Hch. unfold call_and_relay. cbn [fst snd].
  destruct (Client.connected cw) eqn:Hc.
  - unfold Client.connected in Hc.
    destruct (Client.ws (Client.self cw)) as [h|] eqn:Hws; [|discriminate].
    assert (Hconn : Client.connected cw = true)
      by (unfold Client.connected; rewrite Hws; exact Hc).
    destruct c as [channel|channel]; cbn [Client.call call_frame] in *.
    + unfold Client.subscribe. rewrite Hconn. unfold Client.send.
      cbn [Client.self Client.set_self Client.set_subscribedChannels Client.ws Client.sockets
           Client.sent Client.subscribedChannels].
      rewrite Hws, Hc. cbn [Client.sent Client.self Client.subscribedChannels].
      rewrite skipn_app, skipn_all, Nat.sub_diag. cbn [skipn app relay fold_left snd].
      rewrite (on_message_subscribe_run_printable JSON_parse connectionId socket _ _
                 record s Hrt eq_refl eq_refl Hg eq_refl).
      cbn [snd]. eexists. split; [simpl; apply update_channels_get, Hg|].
      cbn [channels ws id prop_of lookup_prop String.eqb Ascii.eqb Bool.eqb].
      rewrite Hch. repeat split.
    + unfold Client.unsubscribe. rewrite Hconn. unfold Client.send.
      cbn [Client.self Client.set_self Client.set_subscribedChannels Client.ws Client.sockets
           Client.sent Client.subscribedChannels].
      rewrite Hws, Hc. cbn [Client.sent Client.self Client.subscribedChannels].
      rewrite skipn_app, skipn_all, Nat.sub_diag. cbn [skipn app relay fold_left snd].
      rewrite (on_message_unsubscribe_run_printable JSON_parse connectionId socket _ _
                 record s Hrt eq_refl eq_refl Hg eq_refl).
      cbn [snd]. eexists. split; [simpl; apply update_channels_get, Hg|].
      cbn [channels ws id prop_of lookup_prop String.eqb Ascii.eqb Bool.eqb].
      rewrite Hch. repeat split.
  - assert (Hsame : Client.call c cw = cw).
    { destruct c; cbn [Client.call]; unfold Client.subscribe, Client.unsubscribe;
        rewrite Hc; reflexivity. }
    rewrite Hsame, skipn_all. cbn [relay fold_left].
    exists record. auto.
Qed.

(** X23.  The client and the server agree on the subscriptions.  Start
    from a registered connection whose channel set on the server is the
    local set of the client.  Whatever subscription methods the user then
    calls, in whatever order and whether or not the socket is open at the
    time, when the server has handled the frames the client sent, the
    channel set of the record on the server is again the local set of the
    client, element for element, and the record still has its id and its
    socket.  The frames are assumed to decode to what was encoded. *)
Theorem client_and_server_agree_on_subscriptions
    (JSON_parse : string -> option JSValue) (encode : JSValue -> string)
    (connectionId : Z) (socket : nat) (calls : list Client.Call) :
  Forall (fun c => JSON_parse (encode (call_frame c)) = Some (call_frame c)) calls ->
  forall (cw : Client.World) (s : World) (record : ConnectionInfo),
    Map_get (connections s) connectionId = Some record ->
    channels record = Client.subscribedChannels (Client.self cw) ->
    let final :=
      fold_left (fun both c => call_and_relay JSON_parse encode connectionId socket c both)
        calls (cw, s) in
    exists record',
      Map_get (connections (snd final)) connectionId = Some record'
      /\ channels record' = Client.subscribedChannels (Client.self (fst final))
      /\ ws record' = ws record /\ id record' = id record.
Proof.
  induction 1 as [|c rest Hc Hrest IH]; intros cw s record Hg Hch final.
  - exists record. auto.
  - unfold final. cbn [fold_left].
    destruct (call_and_relay_agree JSON_parse encode connectionId socket c cw s record
                Hc Hg Hch) as (r1 & Hg1 & Hch1 & Hws1 & Hid1).
    destruct (call_and_relay JSON_parse encode connectionId socket c (cw, s)) as [cw1 s1]
      eqn:E.
    cbn [fst snd] in Hg1, Hch1.
    destruct (IH cw1 s1 r1 Hg1 Hch1) as (r2 & Hg2 & Hch2 & Hws2 & Hid2).
    exists r2. repeat split; try assumption; congruence.
Qed.

(** The client of the example subscribes to [gaming], leaves [default] and
    subscribes to [gaming] again; the server, where it is connection 4,
    ends with the same set. *)
Lemma client_and_server_agree_on_subscriptions_witness :
  let calls := [Client.Subscribe "gaming"; Client.Unsubscribe "gaming";
                Client.Subscribe "gaming"] in
  let final :=
    fold_left (fun both c => call_and_relay demo_parse demo_encode 4 3%nat c both)
      calls (demo_client, demo_world) in
  Client.subscribedChannels (Client.self (fst final)) = [JStr "default"; JStr "gaming"]
  /\ exists record',
       Map_get (connections (snd final)) 4 = Some record'
       /\ channels record' = Client.subscribedChannels (Client.self (fst final)).
Proof.
  intros calls final. split; [vm_compute; reflexivity|].
  destruct (client_and_server_agree_on_subscriptions demo_parse demo_encode 4 3%nat calls)
    with (cw := demo_client) (s := demo_world)
         (record := mkConnectionInfo 4 3 "10.0.0.4" [JStr "default"] 1006)
    as (record' & Hg & Hch & _).
  - repeat constructor.
  - reflexivity.
  - reflexivity.
  - exists record'. split; assumption.
Defined.

(** X24.  Reconnecting does not subscribe again.  When a client connects
    anew and its socket opens, it keeps its local set of channels and
    sends no frame; the server stores the new connection with the channel
    set [{default}].  So, until the user subscribes again, a delivery to
    any channel other than [default] writes nothing to the new socket,
    even for a channel that the local set of the client still lists. *)
Theorem reconnect_does_not_resubscribe
    (cw : Client.World) (s : World) (socket : nat) (remoteAddress channel : string)
    (payload0 excludeId : JSValue) :
  registry_ok s ->
  absent socket s ->
  channel <> "default" ->
  let cw' := Client.on_open (Client.connect cw) in
  let s' := snd (on_connection socket remoteAddress s) in
  Client.sent cw' = Client.sent cw
  /\ Client.subscribedChannels (Client.self cw') = Client.subscribedChannels (Client.self cw)
  /\ Client.reconnectAttempts (Client.self cw') = 0
  /\ Map_get (connections s') (connectionIdCounter s + 1)
     = Some (mkConnectionInfo (connectionIdCounter s + 1) socket remoteAddress
               [JStr "default"] (clock s (ticks s)))
  /\ sends_to socket
       (skipn (List.length (wire s'))
          (wire (snd (broadcastToChannel (JStr channel) payload0 excludeId s'))))
     = [].
Proof.
  intros Hok Ha Hne cw' s'.
  split; [reflexivity|]. split; [reflexivity|]. split; [reflexivity|].
  assert (Hc : connections s'
               = connections s ++ [(connectionIdCounter s + 1, new_record s socket remoteAddress)]).
  { unfold s'. rewrite on_connection_run. cbn [snd connections].
    apply Map_set_fresh, keys_below_counter_fresh, Hok. }
  split.
  - unfold s'. rewrite on_connection_run. cbn [snd connections]. apply Map_get_set_same.
  - rewrite broadcastToChannel_run. cbn [snd wire set_wire].
    rewrite skipn_app, skipn_all, Nat.sub_diag. cbn [skipn app].
    apply sends_to_other. apply Forall_forall. intros e He Hd.
    apply in_map_iff in He as (r & <- & Hr). simpl in Hd.
    apply visited_In in Hr as [Hin Hq].
    unfold records in Hin. rewrite Hc, map_app in Hin.
    apply in_app_or in Hin as [Hin|[<-|[]]].
    + unfold absent in Ha. rewrite Forall_forall in Ha. exact (Ha r Hin Hd).
    + cbn [snd] in Hq. unfold qualifies in Hq.
      apply andb_true_iff in Hq as [_ Hsub].
      unfold new_record, Set_has in Hsub. simpl in Hsub.
      destruct (String.eqb_spec channel "default") as [Heq|_]; [contradiction|].
      discriminate Hsub.
Qed.

(** The client of the example has subscribed to [gaming]; it reconnects
    and is accepted by the server of the example world on socket 9. *)
Lemma reconnect_does_not_resubscribe_witness :
  Client.subscribedChannels
    (Client.self (Client.on_open (Client.connect (Client.subscribe "gaming" demo_client))))
  = [JStr "default"; JStr "gaming"]
  /\ sends_to 9%nat
       (skipn (List.length (wire (snd (on_connection 9%nat "10.0.0.9" demo_world))))
          (wire (snd (broadcastToChannel (JStr "gaming") (JStr "hi") JUndefined
                        (snd (on_connection 9%nat "10.0.0.9" demo_world))))))
     = [].
Proof.
  destruct (reconnect_does_not_resubscribe (Client.subscribe "gaming" demo_client)
              demo_world 9%nat "10.0.0.9" "gaming" (JStr "hi") JUndefined)
    as (_ & Hkeep & _ & _ & Hnone).
  - apply (run_registry_ok demo_parse demo_events), initial_registry_ok.
  - unfold absent, records. rewrite demo_world_connections.
    repeat constructor; simpl; discriminate.
  - discriminate.
  - split; [rewrite Hkeep; reflexivity|exact Hnone].
Defined.
